(** * TrustZ scoring pipeline: a shallow embedding and its properties

    The development follows the Python sources

      - [utils/score.py]      (the trust aggregator),
      - [utils/mock_data.py]  (the mock fallback source),
      - [agents/github.py]    (the GitHub scoring task),
      - [agents/resume.py]    (the resume scoring task).

    Python values are a small inductive universe, a [str] is the list of
    its code points, a [dict] is an insertion-ordered association list,
    a [float] is an IEEE binary64 number ([spec_float] with precision 53).
    Exceptions are explicit: a computation returns [Ok v] or [Raise e].
    The random generator and the provider calls made so far are threaded
    as a state.  What the sources take from libraries and from the
    environment ([json], the chat client, the Unicode digit table, the
    API keys and the mock flag) is a parameter; a model of CPython's
    [json.loads] instantiates it in the examples.  Logging calls are left
    out: they have no effect on returned values. *)

From Stdlib Require Import ZArith NArith List String Ascii Bool Lia DecimalString.
From Stdlib Require Import Floats.SpecFloat.
From Stdlib Require Import Permutation.
Import ListNotations.
Local Open Scope string_scope.
Local Open Scope Z_scope.
Local Open Scope list_scope.
Set Warnings "-register-all".

(** ** Text *)

(** A Python [str]: the sequence of its Unicode code points. *)
Definition str := list N.

Definition of_string (s : string) : str :=
  List.map N_of_ascii (list_ascii_of_string s).

Coercion of_string : string >-> str.

Fixpoint str_eqb (a b : str) : bool :=
  match a, b with
  | [], [] => true
  | x :: a', y :: b' => N.eqb x y && str_eqb a' b'
  | _, _ => false
  end.

(** ** Exceptions and results *)

Inductive exn :=
| JSONDecodeError
| ValueError
| TypeError
| OverflowError
| AttributeError
| KeyError
| RecursionError
| APIError.

Inductive Result (A : Type) :=
| Ok (a : A)
| Raise (e : exn).
Arguments Ok {A} a.
Arguments Raise {A} e.

Definition rbind {A B} (r : Result A) (k : A -> Result B) : Result B :=
  match r with
  | Ok a => k a
  | Raise e => Raise e
  end.

Notation "x <- r ;; k" := (rbind r (fun x => k))
  (at level 61, r at next level, right associativity).
Notation "' pat <- r ;; k" := (rbind r (fun x => match x with pat => k end))
  (at level 61, pat pattern, r at next level, right associativity).

(** [try: body except Exception: handler] *)
Definition try_except {A} (body : Result A) (handler : exn -> Result A) : Result A :=
  match body with
  | Ok a => Ok a
  | Raise e => handler e
  end.

(** ** Floats (IEEE binary64) *)

Definition prec : Z := 53.
Definition emax : Z := 1024.

Definition fmul : spec_float -> spec_float -> spec_float := SFmul prec emax.
Definition fadd : spec_float -> spec_float -> spec_float := SFadd prec emax.

(** The double nearest to [(-1)^neg * m * 10^e] (ties to even): the value
    of a decimal literal such as [0.15]. *)
Definition float_of_decimal (neg : bool) (m : N) (e : Z) : spec_float :=
  match m with
  | N0 => S754_zero neg
  | Npos p =>
      if 0 <=? e then binary_normalize prec emax (cond_Zopp neg (Zpos p * 10 ^ e)) 0 neg
      else
        let d := 10 ^ (- e) in
        let k := Z.max 0 (Z.log2 d + 60 - Z.log2 (Zpos p)) in
        let n := Zpos p * 2 ^ k in
        let q := n / d in
        let r := n mod d in
        let loc := if r =? 0 then loc_Exact else loc_Inexact (2 * r ?= d) in
        binary_round_aux prec emax neg q (- k) loc
  end.

(** [float(z)] for a Python int: correctly rounded; too large an int raises. *)
Definition float_of_int (z : Z) : Result spec_float :=
  match binary_normalize prec emax z 0 false with
  | S754_infinity _ => Raise OverflowError
  | f => Ok f
  end.

(** The integer nearest to [m / 2^k], ties to even. *)
Definition nearest_even (m : positive) (k : Z) : Z :=
  let d := 2 ^ k in
  let q := Zpos m / d in
  let r := Zpos m mod d in
  match 2 * r ?= d with
  | Lt => q
  | Gt => q + 1
  | Eq => if Z.even q then q else q + 1
  end.

(** [round(x, 0)] on a float: a float again; NaN and infinities round to
    themselves. *)
Definition py_round0 (x : spec_float) : spec_float :=
  match x with
  | S754_finite s m e =>
      if 0 <=? e then x
      else binary_normalize prec emax (cond_Zopp s (nearest_even m (- e))) 0 s
  | _ => x
  end.

(** [int(x)] on a float: truncation toward zero. *)
Definition int_of_float (x : spec_float) : Result Z :=
  match x with
  | S754_nan => Raise ValueError
  | S754_infinity _ => Raise OverflowError
  | S754_zero _ => Ok 0
  | S754_finite s m e =>
      Ok (cond_Zopp s (if 0 <=? e then Zpos m * 2 ^ e else Zpos m / 2 ^ (- e)))
  end.

(** ** Python values *)

Inductive PyVal :=
| VNone
| VBool (b : bool)
| VInt (z : Z)
| VFloat (f : spec_float)
| VStr (s : str)
| VList (l : list PyVal)
| VDict (d : list (str * PyVal)).

(** A [dict] with [str] keys: keys are distinct and kept in insertion order. *)
Definition dict := list (str * PyVal).

Fixpoint dict_get (d : dict) (k : str) : option PyVal :=
  match d with
  | [] => None
  | (k', v) :: d' => if str_eqb k k' then Some v else dict_get d' k
  end.

(** [k in d] *)
Definition dict_has (d : dict) (k : str) : bool :=
  match dict_get d k with Some _ => true | None => false end.

(** [d.get(k, default)] *)
Definition dict_get_default (d : dict) (k : str) (default : PyVal) : PyVal :=
  match dict_get d k with Some v => v | None => default end.

(** [d[k] = v] *)
Fixpoint dict_set (d : dict) (k : str) (v : PyVal) : dict :=
  match d with
  | [] => [(k, v)]
  | (k', v') :: d' =>
      if str_eqb k k' then (k', v) :: d' else (k', v') :: dict_set d' k v
  end.

Definition Z_of_bool (b : bool) : Z := if b then 1 else 0.

(** [isinstance(v, (int, float))]; [bool] is a subclass of [int]. *)
Definition is_number (v : PyVal) : bool :=
  match v with
  | VBool _ | VInt _ | VFloat _ => true
  | _ => false
  end.

(** [v * c] for a float [c]. *)
Definition mul_float (v : PyVal) (c : spec_float) : Result spec_float :=
  match v with
  | VInt z => f <- float_of_int z ;; Ok (fmul f c)
  | VBool b => f <- float_of_int (Z_of_bool b) ;; Ok (fmul f c)
  | VFloat f => Ok (fmul f c)
  | _ => Raise TypeError
  end.

Definition clamp (z : Z) : Z := Z.max 0 (Z.min 100 z).

(** ** utils/score.py *)

Module Score.

Definition w025 : spec_float := float_of_decimal false 25 (-2).
Definition w015 : spec_float := float_of_decimal false 15 (-2).
Definition w02 : spec_float := float_of_decimal false 2 (-1).
Definition w01 : spec_float := float_of_decimal false 1 (-1).

(** The body of the [try] block. *)
Definition calculate_trust_score_body (github_score resume_score : dict) : Result Z :=
  let github_technical := dict_get_default github_score "Technical_Skills" (VInt 0) in
  let github_reputation := dict_get_default github_score "Reputation" (VInt 0) in
  let github_activity := dict_get_default github_score "Activity" (VInt 0) in
  let resume_technical := dict_get_default resume_score "Technical_Skills" (VInt 0) in
  let resume_reputation := dict_get_default resume_score "Reputation" (VInt 0) in
  let resume_activity := dict_get_default resume_score "Activity" (VInt 0) in
  t1 <- mul_float github_technical w025 ;;
  t2 <- mul_float github_reputation w015 ;;
  t3 <- mul_float github_activity w02 ;;
  t4 <- mul_float resume_technical w02 ;;
  t5 <- mul_float resume_reputation w01 ;;
  t6 <- mul_float resume_activity w01 ;;
  let final_score :=
    py_round0 (fadd (fadd (fadd (fadd (fadd t1 t2) t3) t4) t5) t6) in
  n <- int_of_float final_score ;;
  Ok (Z.max 0 (Z.min 100 n)).

Definition calculate_trust_score (github_score resume_score : dict) : Result Z :=
  try_except (calculate_trust_score_body github_score resume_score)
             (fun _ => Ok 50).

End Score.

(** ** Text helpers *)

Definition code (a : ascii) : N := N_of_ascii a.

(** [str.isspace] on one character: the class [\s] of [re] on [str]
    patterns, and the whitespace that [int()] and [str.strip()] drop. *)
Definition is_space (c : N) : bool :=
  ((9 <=? c) && (c <=? 13) || (28 <=? c) && (c <=? 32) || (c =? 133) || (c =? 160)
   || (c =? 5760) || (8192 <=? c) && (c <=? 8202) || (c =? 8232) || (c =? 8233)
   || (c =? 8239) || (c =? 8287) || (c =? 12288))%N.

Definition is_dquote (c : N) : bool := (c =? 34)%N.
Definition is_quote (c : N) : bool := ((c =? 34) || (c =? 39))%N.

(** The separator class of the extraction patterns: a double quote,
    whitespace or a colon. *)
Definition is_sep (c : N) : bool := (is_dquote c || is_space c || (c =? 58))%N.

Fixpoint strip_prefix (p t : str) : option str :=
  match p, t with
  | [], _ => Some t
  | x :: p', y :: t' => if N.eqb x y then strip_prefix p' t' else None
  | _ :: _, [] => None
  end.

Fixpoint drop_while (f : N -> bool) (t : str) : str :=
  match t with
  | c :: t' => if f c then drop_while f t' else t
  | [] => []
  end.

Definition strip_by (f : N -> bool) (s : str) : str :=
  rev (drop_while f (rev (drop_while f s))).

(** [s.strip()] *)
Definition strip (s : str) : str := strip_by is_space s.

(** The whitespace [int()] drops around a number: the separators FS, GS,
    RS and US are whitespace for [str.isspace] but not for [int]. *)
Definition is_int_space (c : N) : bool :=
  (is_space c && negb ((28 <=? c) && (c <=? 31)))%N.

(** [needle in haystack] on two [str] *)
Fixpoint is_substring (needle haystack : str) : bool :=
  match strip_prefix needle haystack with
  | Some _ => true
  | None => match haystack with
            | [] => false
            | _ :: h' => is_substring needle h'
            end
  end.

(** ** Backtracking matchers, one per regular-expression construct

    A matcher takes the continuation of the pattern and the text at the
    current position; it answers as [re] does, trying alternatives in
    the engine's order. *)

Section Matchers.
Context {A : Type}.

(** a literal *)
Definition lit (p : str) (k : str -> option A) (t : str) : option A :=
  match strip_prefix p t with
  | Some r => k r
  | None => None
  end.

(** [p?] for a literal [p] *)
Definition opt_lit (p : str) (k : str -> option A) (t : str) : option A :=
  match lit p k t with
  | Some a => Some a
  | None => k t
  end.

(** one character of a class *)
Definition one (cls : N -> bool) (k : str -> option A) (t : str) : option A :=
  match t with
  | c :: t' => if cls c then k t' else None
  | [] => None
  end.

(** [cls+], greedy *)
Fixpoint plus (cls : N -> bool) (k : str -> option A) (t : str) : option A :=
  match t with
  | c :: t' =>
      if cls c then
        match plus cls k t' with
        | Some a => Some a
        | None => k t'
        end
      else None
  | [] => None
  end.

(** [(cls+)], greedy, the group handed to the continuation *)
Fixpoint group_plus (cls : N -> bool) (k : str -> str -> option A)
         (seen : str) (t : str) : option A :=
  match t with
  | c :: t' =>
      if cls c then
        match group_plus cls k (c :: seen) t' with
        | Some a => Some a
        | None => k (rev (c :: seen)) t'
        end
      else None
  | [] => None
  end.

(** a group of any characters (DOTALL), greedy *)
Fixpoint group_any (k : str -> str -> option A) (seen : str) (t : str) : option A :=
  match t with
  | c :: t' =>
      match group_any k (c :: seen) t' with
      | Some a => Some a
      | None => k (rev seen) t
      end
  | [] => k (rev seen) []
  end.

(** a group of any characters (DOTALL), lazy *)
Fixpoint group_any_lazy (k : str -> str -> option A) (seen : str) (t : str) : option A :=
  match k (rev seen) t with
  | Some a => Some a
  | None =>
      match t with
      | c :: t' => group_any_lazy k (c :: seen) t'
      | [] => None
      end
  end.

(** [re.search]: the match at the leftmost position that has one *)
Fixpoint search (m : str -> option A) (t : str) : option A :=
  match m t with
  | Some a => Some a
  | None =>
      match t with
      | _ :: t' => search m t'
      | [] => None
      end
  end.
End Matchers.

(** [re.findall] for a pattern with one group: [m] answers the group and
    the text left after the match; scanning resumes there. *)
Fixpoint findall_from (m : str -> option (str * str)) (skip : nat) (t : str) : list str :=
  match skip with
  | S skip' =>
      match t with
      | _ :: t' => findall_from m skip' t'
      | [] => []
      end
  | O =>
      match m t with
      | Some (g, rest) =>
          let consumed := (List.length t - List.length rest)%nat in
          g :: match t with
               | _ :: t' => findall_from m (consumed - 1) t'
               | [] => []
               end
      | None =>
          match t with
          | _ :: t' => findall_from m O t'
          | [] => []
          end
      end
  end.

Definition findall (m : str -> option (str * str)) (t : str) : list str :=
  findall_from m O t.

(** [re.search] for an opening brace, anything (greedy, DOTALL) and a
    closing brace; the answer is [group(1)]. *)
Definition search_json_object (text : str) : option str :=
  search
    (lit "{" (group_any (fun g => lit "}" (fun _ => Some (of_string "{" ++ g ++ of_string "}")%list)) []))
    text.

(** ** Operations on Python values *)

Definition cmp_float_int (f : spec_float) (z : Z) : option comparison :=
  match f with
  | S754_nan => None
  | S754_infinity s => Some (if s then Lt else Gt)
  | S754_zero _ => Some (0 ?= z)
  | S754_finite s m e =>
      if 0 <=? e then Some (cond_Zopp s (Zpos m * 2 ^ e) ?= z)
      else Some (cond_Zopp s (Zpos m) ?= z * 2 ^ (- e))
  end.

(** [v < z] and [v > z] for an int [z] *)
Definition py_lt_int (v : PyVal) (z : Z) : Result bool :=
  match v with
  | VInt a => Ok (a <? z)
  | VBool b => Ok (Z_of_bool b <? z)
  | VFloat f => Ok (match cmp_float_int f z with Some Lt => true | _ => false end)
  | _ => Raise TypeError
  end.

Definition py_gt_int (v : PyVal) (z : Z) : Result bool :=
  match v with
  | VInt a => Ok (z <? a)
  | VBool b => Ok (z <? Z_of_bool b)
  | VFloat f => Ok (match cmp_float_int f z with Some Gt => true | _ => false end)
  | _ => Raise TypeError
  end.

(** [min(z, v)] and [max(z, v)] with the int first: the first argument
    is kept unless the second is strictly smaller (larger). *)
Definition py_min_int (z : Z) (v : PyVal) : Result PyVal :=
  b <- py_lt_int v z ;; Ok (if b then v else VInt z).

Definition py_max_int (z : Z) (v : PyVal) : Result PyVal :=
  b <- py_gt_int v z ;; Ok (if b then v else VInt z).

(** [item in container] for a [str] item *)
Definition py_contains (container : PyVal) (item : str) : Result bool :=
  match container with
  | VDict d => Ok (dict_has d item)
  | VStr s => Ok (is_substring item s)
  | VList l =>
      Ok (existsb (fun v => match v with VStr s => str_eqb s item | _ => false end) l)
  | _ => Raise TypeError
  end.

(** [container[key]] for a [str] key *)
Definition py_getitem (container : PyVal) (key : str) : Result PyVal :=
  match container with
  | VDict d => match dict_get d key with Some v => Ok v | None => Raise KeyError end
  | _ => Raise TypeError
  end.

(** [container[key] = v] for a [str] key *)
Definition py_setitem (container : PyVal) (key : str) (v : PyVal) : Result PyVal :=
  match container with
  | VDict d => Ok (VDict (dict_set d key v))
  | _ => Raise TypeError
  end.

(** ** The Python runtime the agents run on

    What the sources take from libraries and from the process
    environment is a parameter of the model. *)

Inductive Provider := OpenRouter | Deepseek | OpenAI.

(** The prompt of a request: the fixed instructions of a task around the
    text of its input, the serialized GitHub data or the resume. *)
Inductive Prompt :=
| GithubPrompt (github_json : str)
| ResumePrompt (resume_text : str).

Record Runtime := {
  (** the decimal value of a code point of Unicode category Nd *)
  decimal_value : N -> option Z;
  (** [sys.get_int_max_str_digits()], 0 for no limit *)
  int_max_str_digits : nat;
  (** [json.loads] *)
  json_loads : str -> Result PyVal;
  (** [json.dumps(data, indent=2)] *)
  json_dumps : dict -> Result str;
  (** one chat completion: the [content] of the first choice ([None] when
      the message has none), or the exception the client raised *)
  chat_completion : Provider -> Prompt -> Result (option str)
}.

(** Module-level configuration, read from the environment at import. *)
Record Config := {
  openai_api_key : option str;
  deepseek_api_key : option str;
  openrouter_api_key : option str;
  use_mock : bool
}.

(** Truth value of an [os.getenv] result: set and not empty. *)
Definition key_set (k : option str) : bool :=
  match k with
  | Some (_ :: _) => true
  | _ => false
  end.

Section Ints.
Variable rt : Runtime.

(** the class [\d] *)
Definition is_digit (c : N) : bool :=
  match decimal_value rt c with Some _ => true | None => false end.

(** Digits with single underscores between them: the value and the
    number of digits. *)
Fixpoint digits_value (acc : Z) (count : nat) (after_digit : bool) (t : str)
  : option (Z * nat) :=
  match t with
  | [] => if after_digit then Some (acc, count) else None
  | c :: t' =>
      match decimal_value rt c with
      | Some d => digits_value (10 * acc + d) (S count) true t'
      | None =>
          if (c =? 95)%N && after_digit then digits_value acc count false t'
          else None
      end
  end.

(** [int(s)] for a [str] *)
Definition int_of_str (s : str) : Result Z :=
  let t := strip_by is_int_space s in
  let '(neg, body) :=
    match t with
    | 43%N :: r => (false, r)
    | 45%N :: r => (true, r)
    | _ => (false, t)
    end in
  match digits_value 0 0 false body with
  | Some (v, n) =>
      if negb (Nat.eqb (int_max_str_digits rt) 0) && Nat.ltb (int_max_str_digits rt) n
      then Raise ValueError
      else Ok (cond_Zopp neg v)
  | None => Raise ValueError
  end.

(** [int(v)] *)
Definition py_int (v : PyVal) : Result Z :=
  match v with
  | VInt z => Ok z
  | VBool b => Ok (Z_of_bool b)
  | VFloat f => int_of_float f
  | VStr s => int_of_str s
  | _ => Raise TypeError
  end.
End Ints.

(** ** State: the random generator and the provider calls made so far *)

Record World := {
  entropy : nat -> N;
  draws : nat;
  calls : list Provider
}.

Definition M (A : Type) : Type := World -> Result A * World.

Definition ret {A} (a : A) : M A := fun w => (Ok a, w).

Definition raise {A} (e : exn) : M A := fun w => (Raise e, w).

Definition bind {A B} (m : M A) (k : A -> M B) : M B :=
  fun w =>
    match m w with
    | (Ok a, w') => k a w'
    | (Raise e, w') => (Raise e, w')
    end.

Notation "x <~ m ;; k" := (bind m (fun x => k))
  (at level 61, m at next level, right associativity).

(** a computation without effects *)
Definition pure {A} (r : Result A) : M A := fun w => (r, w).

(** [try: body except Exception: handler] with effects *)
Definition try_catch {A} (body : M A) (handler : exn -> M A) : M A :=
  fun w =>
    match body w with
    | (Ok a, w') => (Ok a, w')
    | (Raise e, w') => handler e w'
    end.

(** ** utils/mock_data.py *)

Module MockData.

(** a random integer below [n] *)
Definition randbelow (n : Z) : M Z :=
  fun w =>
    (Ok (Z.of_N (entropy w (draws w)) mod n),
     {| entropy := entropy w; draws := S (draws w); calls := calls w |}).

(** [random.randint(a, b)] *)
Definition randint (a b : Z) : M Z :=
  r <~ randbelow (b - a + 1) ;; ret (a + r).

Fixpoint list_set {A} (l : list A) (i : nat) (x : A) : list A :=
  match l, i with
  | [], _ => []
  | _ :: l', O => x :: l'
  | y :: l', S i' => y :: list_set l' i' x
  end.

(** [random.sample(population, k)] for a short population: at step [i] the
    element drawn is replaced in the pool by the last one not yet used. *)
Fixpoint sample_loop (pool : list str) (n : nat) (k : nat) : M (list str) :=
  match k with
  | O => ret []
  | S k' =>
      j <~ randbelow (Z.of_nat n) ;;
      let x := nth (Z.to_nat j) pool [] in
      let pool' := list_set pool (Z.to_nat j) (nth (n - 1) pool []) in
      rest <~ sample_loop pool' (n - 1) k' ;;
      ret (x :: rest)
  end.

Definition sample (population : list str) (k : Z) : M (list str) :=
  sample_loop population (List.length population) (Z.to_nat k).

Definition get_mock_github_score : M PyVal :=
  t <~ randint 65 95 ;;
  r <~ randint 60 90 ;;
  a <~ randint 70 95 ;;
  ret (VDict [(of_string "Technical_Skills", VInt t);
              (of_string "Reputation", VInt r);
              (of_string "Activity", VInt a)]).

Definition skills : list str :=
  [of_string "Python"; of_string "JavaScript"; of_string "TypeScript";
   of_string "React"; of_string "Node.js"; of_string "SQL"; of_string "AWS";
   of_string "Docker"; of_string "Kubernetes"; of_string "TensorFlow";
   of_string "PyTorch"; of_string "Java"; of_string "C++"; of_string "Go";
   of_string "Ruby"; of_string "Swift"].

(** [str(z)] for an int *)
Definition str_of_int (z : Z) : str :=
  of_string (DecimalString.NilZero.string_of_int (Z.to_int z)).

(** [sep.join(l)] *)
Fixpoint join (sep : str) (l : list str) : str :=
  match l with
  | [] => []
  | [x] => x
  | x :: l' => (x ++ sep ++ join sep l')%list
  end.

Definition get_mock_resume_score : M PyVal :=
  k <~ randint 3 5 ;;
  selected_skills <~ sample skills k ;;
  experience_years <~ randint 2 8 ;;
  let summary :=
    (of_string "Experienced developer with " ++ str_of_int experience_years
     ++ of_string " years in " ++ join (of_string ", ") (firstn 2 selected_skills))%list in
  t <~ randint 70 90 ;;
  r <~ randint 65 85 ;;
  a <~ randint 70 90 ;;
  ret (VDict [(of_string "Technical_Skills", VInt t);
              (of_string "Reputation", VInt r);
              (of_string "Activity", VInt a);
              (of_string "summary", VStr summary);
              (of_string "keywords", VList (List.map VStr selected_skills))]).

End MockData.

(** ** Calling a provider *)

Section Providers.
Variable rt : Runtime.

(** [client.chat.completions.create(...)] followed by
    [response.choices[0].message.content.strip()]; the call is recorded. *)
Definition complete (p : Provider) (prompt : Prompt) : M str :=
  fun w =>
    let w' := {| entropy := entropy w; draws := draws w; calls := calls w ++ [p] |} in
    match chat_completion rt p prompt with
    | Ok (Some content) => (Ok (strip content), w')
    | Ok None => (Raise AttributeError, w')
    | Raise e => (Raise e, w')
    end.

(** [try: ... except json.JSONDecodeError: handler] *)
Definition try_except_json {A} (body : Result A) (handler : Result A) : Result A :=
  match body with
  | Raise JSONDecodeError => handler
  | r => r
  end.

(** [try: d[field] = int(s) except ValueError: d[field] = 50]
    ([JSONDecodeError] is a subclass of [ValueError]) *)
Definition int_or_50 (s : str) : Result Z :=
  match int_of_str rt s with
  | Ok n => Ok n
  | Raise ValueError | Raise JSONDecodeError => Ok 50
  | Raise e => Raise e
  end.

(** The group of digits after a score name, as an int. *)
Definition score_match (m : option str) (field : str) (result : dict) : Result dict :=
  match m with
  | Some g => n <- int_of_str rt g ;; Ok (dict_set result field (VInt n))
  | None => Ok result
  end.

(** a score name that is already matched, then separators and digits *)
Definition sep_digits : str -> option str :=
  plus is_sep (group_plus (is_digit rt) (fun g _ => Some g) []).

Definition technical_match (text : str) : option str :=
  search (lit "Technical" (opt_lit "_" (lit "Skills" sep_digits))) text.

Definition reputation_match (text : str) : option str :=
  search (lit "Reputation" sep_digits) text.

Definition activity_match (text : str) : option str :=
  search (lit "Activity" sep_digits) text.
End Providers.

(** ** agents/github.py *)

Module Github.
Section Agent.
Variable rt : Runtime.
Variable cfg : Config.

Definition required_fields : list str :=
  [of_string "Technical_Skills"; of_string "Reputation"; of_string "Activity"].

Definition extract_values_from_text (text : str) : Result PyVal :=
  let result : dict :=
    [(of_string "Technical_Skills", VInt 50);
     (of_string "Reputation", VInt 50);
     (of_string "Activity", VInt 50)] in
  result <- score_match rt (technical_match rt text) "Technical_Skills" result ;;
  result <- score_match rt (reputation_match rt text) "Reputation" result ;;
  result <- score_match rt (activity_match rt text) "Activity" result ;;
  Ok (VDict result).

(** the inner [try]: parse, or extract on a [JSONDecodeError] *)
Definition parse_response (result_text : str) : Result PyVal :=
  let result_text :=
    match search_json_object result_text with
    | Some g => g
    | None => result_text
    end in
  try_except_json (json_loads rt result_text)
                  (extract_values_from_text result_text).

(** the first loop: a missing field defaults to 50 *)
Fixpoint fill_missing (fields : list str) (result : PyVal) : Result PyVal :=
  match fields with
  | [] => Ok result
  | field :: rest =>
      present <- py_contains result field ;;
      result <- (if negb present then py_setitem result field (VInt 50)
                 else Ok result) ;;
      fill_missing rest result
  end.

(** the second loop: a [str] is read as an int, everything goes
    through [int] and is clamped *)
Fixpoint clamp_scores (fields : list str) (result : PyVal) : Result PyVal :=
  match fields with
  | [] => Ok result
  | field :: rest =>
      v <- py_getitem result field ;;
      result <- match v with
                | VStr s => n <- int_or_50 rt s ;; py_setitem result field (VInt n)
                | _ => Ok result
                end ;;
      v <- py_getitem result field ;;
      n <- py_int rt v ;;
      result <- py_setitem result field (VInt (Z.max 0 (Z.min 100 n))) ;;
      clamp_scores rest result
  end.

Definition process_llm_response (result_text : str) : M PyVal :=
  try_catch
    (pure (result <- parse_response result_text ;;
           result <- fill_missing required_fields result ;;
           clamp_scores required_fields result))
    (fun _ => MockData.get_mock_github_score).

(** One provider block: skipped without a key; [Some r] when the block
    returns [r], [None] when it falls through to the next one. *)
Definition attempt (p : Provider) (key : option str) (prompt : Prompt)
  : M (option PyVal) :=
  if key_set key then
    try_catch
      (result_text <~ complete rt p prompt ;;
       r <~ process_llm_response result_text ;;
       ret (Some r))
      (fun _ => ret None)
  else ret None.

(** the loop of the pass-through branch *)
Fixpoint normalize (fields : list str) (result : PyVal) : Result PyVal :=
  match fields with
  | [] => Ok result
  | field :: rest =>
      v <- py_getitem result field ;;
      result <- (if negb (is_number v) then py_setitem result field (VInt 50)
                 else Ok result) ;;
      v <- py_getitem result field ;;
      n <- py_int rt v ;;
      result <- py_setitem result field (VInt (Z.max 0 (Z.min 100 n))) ;;
      normalize rest result
  end.

Definition analyze_github (github_data : dict) : M PyVal :=
  if forallb (dict_has github_data) required_fields then
    pure (t <- py_getitem (VDict github_data) "Technical_Skills" ;;
          r <- py_getitem (VDict github_data) "Reputation" ;;
          a <- py_getitem (VDict github_data) "Activity" ;;
          normalize required_fields
            (VDict [(of_string "Technical_Skills", t);
                    (of_string "Reputation", r);
                    (of_string "Activity", a)]))
  else if use_mock cfg then MockData.get_mock_github_score
  else
    try_catch
      (github_json <~ pure (json_dumps rt github_data) ;;
       let prompt := GithubPrompt github_json in
       r1 <~ attempt OpenRouter (openrouter_api_key cfg) prompt ;;
       match r1 with
       | Some r => ret r
       | None =>
           r2 <~ attempt Deepseek (deepseek_api_key cfg) prompt ;;
           match r2 with
           | Some r => ret r
           | None =>
               r3 <~ attempt OpenAI (openai_api_key cfg) prompt ;;
               match r3 with
               | Some r => ret r
               | None => MockData.get_mock_github_score
               end
           end
       end)
      (fun _ => MockData.get_mock_github_score).
End Agent.
End Github.

(** ** agents/resume.py *)

Module Resume.
Section Agent.
Variable rt : Runtime.
Variable cfg : Config.

Definition not_quote (c : N) : bool := negb (is_quote c).

Definition summary_match (text : str) : option str :=
  search
    (lit "summary"
       (plus is_sep
          (one is_quote
             (group_plus not_quote (fun g => one is_quote (fun _ => Some g)) []))))
    text.

Definition keywords_match (text : str) : option str :=
  search
    (lit "keywords"
       (plus is_sep
          (lit "[" (group_any_lazy (fun g => lit "]" (fun _ => Some g)) []))))
    text.

Definition quoted_tokens (keywords_text : str) : list str :=
  findall
    (one is_quote
       (group_plus not_quote (fun g => one is_quote (fun r => Some (g, r))) []))
    keywords_text.

Definition extract_values_from_text (text : str) : Result PyVal :=
  let result : dict :=
    [(of_string "Technical_Skills", VInt 50);
     (of_string "Reputation", VInt 50);
     (of_string "Activity", VInt 50);
     (of_string "summary", VStr "Extracted from non-JSON response");
     (of_string "keywords", VList [])] in
  result <- score_match rt (technical_match rt text) "Technical_Skills" result ;;
  result <- score_match rt (reputation_match rt text) "Reputation" result ;;
  result <- score_match rt (activity_match rt text) "Activity" result ;;
  let result :=
    match summary_match text with
    | Some g => dict_set result "summary" (VStr g)
    | None => result
    end in
  let result :=
    match keywords_match text with
    | Some keywords_text =>
        dict_set result "keywords" (VList (List.map VStr (quoted_tokens keywords_text)))
    | None => result
    end in
  Ok (VDict result).

Definition parse_response (result_text : str) : Result PyVal :=
  let result_text :=
    match search_json_object result_text with
    | Some g => g
    | None => result_text
    end in
  try_except_json (json_loads rt result_text)
                  (extract_values_from_text result_text).

Definition score_fields : list str :=
  [of_string "Technical_Skills"; of_string "Reputation"; of_string "Activity"].

Definition required_fields : list str :=
  [of_string "Technical_Skills"; of_string "Reputation"; of_string "Activity";
   of_string "summary"; of_string "keywords"].

(** the value a missing field gets; the [if]/[elif] chain has no [else] *)
Definition default_for (field : str) : option PyVal :=
  if existsb (str_eqb field) score_fields then Some (VInt 50)
  else if str_eqb field "summary" then Some (VStr "Resume analysis incomplete")
  else if str_eqb field "keywords" then Some (VList [])
  else None.

Fixpoint fill_missing (fields : list str) (result : PyVal) : Result PyVal :=
  match fields with
  | [] => Ok result
  | field :: rest =>
      present <- py_contains result field ;;
      result <- (if negb present then
                   match default_for field with
                   | Some v => py_setitem result field v
                   | None => Ok result
                   end
                 else Ok result) ;;
      fill_missing rest result
  end.

(** a [str] is read as an int; the value is clamped by [max] and [min],
    without [int] *)
Fixpoint clamp_scores (fields : list str) (result : PyVal) : Result PyVal :=
  match fields with
  | [] => Ok result
  | score_field :: rest =>
      v <- py_getitem result score_field ;;
      result <- match v with
                | VStr s => n <- int_or_50 rt s ;; py_setitem result score_field (VInt n)
                | _ => Ok result
                end ;;
      v <- py_getitem result score_field ;;
      low <- py_min_int 100 v ;;
      high <- py_max_int 0 low ;;
      result <- py_setitem result score_field high ;;
      clamp_scores rest result
  end.

Definition process_llm_response (result_text : str) : M PyVal :=
  try_catch
    (pure (result <- parse_response result_text ;;
           result <- fill_missing required_fields result ;;
           clamp_scores score_fields result))
    (fun _ => MockData.get_mock_resume_score).

Definition attempt (p : Provider) (key : option str) (prompt : Prompt)
  : M (option PyVal) :=
  if key_set key then
    try_catch
      (result_text <~ complete rt p prompt ;;
       r <~ process_llm_response result_text ;;
       ret (Some r))
      (fun _ => ret None)
  else ret None.

Definition empty_resume_result : PyVal :=
  VDict [(of_string "Technical_Skills", VInt 50);
         (of_string "Reputation", VInt 50);
         (of_string "Activity", VInt 50);
         (of_string "summary", VStr "No resume provided for analysis");
         (of_string "keywords", VList [])].

Definition analyze_resume (resume_text : str) : M PyVal :=
  if use_mock cfg then MockData.get_mock_resume_score
  else
    try_catch
      (match resume_text with
       | [] => ret empty_resume_result
       | _ =>
           let prompt := ResumePrompt resume_text in
           r1 <~ attempt OpenRouter (openrouter_api_key cfg) prompt ;;
           match r1 with
           | Some r => ret r
           | None =>
               r2 <~ attempt Deepseek (deepseek_api_key cfg) prompt ;;
               match r2 with
               | Some r => ret r
               | None =>
                   r3 <~ attempt OpenAI (openai_api_key cfg) prompt ;;
                   match r3 with
                   | Some r => ret r
                   | None => MockData.get_mock_resume_score
                   end
               end
           end
       end)
      (fun _ => MockData.get_mock_resume_score).
End Agent.
End Resume.

(** ** A concrete runtime: [json.loads] of the standard library

    The decoder of CPython's [json] module with its default settings
    (strict strings, [NaN] and [Infinity] accepted).  [max_digits] is the
    limit on the digits of an int, [depth] the number of nested
    containers the interpreter's recursion limit leaves room for. *)

Module Json.

Definition is_ws (c : N) : bool := ((c =? 32) || (c =? 9) || (c =? 10) || (c =? 13))%N.

Definition skip_ws (t : str) : str := drop_while is_ws t.

Definition ascii_decimal (c : N) : option Z :=
  if ((48 <=? c) && (c <=? 57))%N then Some (Z.of_N c - 48) else None.

Definition hex_value (c : N) : option N :=
  if ((48 <=? c) && (c <=? 57))%N then Some (c - 48)%N
  else if ((97 <=? c) && (c <=? 102))%N then Some (c - 87)%N
  else if ((65 <=? c) && (c <=? 70))%N then Some (c - 55)%N
  else None.

Definition hex4 (a b c d : N) : option N :=
  match hex_value a, hex_value b, hex_value c, hex_value d with
  | Some x, Some y, Some z, Some u => Some (((x * 16 + y) * 16 + z) * 16 + u)%N
  | _, _, _, _ => None
  end.

Definition is_high_surrogate (c : N) : bool := ((55296 <=? c) && (c <=? 56319))%N.
Definition is_low_surrogate (c : N) : bool := ((56320 <=? c) && (c <=? 57343))%N.
Definition join_surrogates (hi lo : N) : N :=
  (65536 + ((hi - 55296) * 1024 + (lo - 56320)))%N.

(** the character a one-letter escape stands for *)
Definition unescape (c : N) : option N :=
  if (c =? 34)%N then Some 34%N
  else if (c =? 92)%N then Some 92%N
  else if (c =? 47)%N then Some 47%N
  else if (c =? 98)%N then Some 8%N
  else if (c =? 102)%N then Some 12%N
  else if (c =? 110)%N then Some 10%N
  else if (c =? 114)%N then Some 13%N
  else if (c =? 116)%N then Some 9%N
  else None.

(** The text after an opening double quote: the string and what follows
    its closing quote. *)
Fixpoint scanstring (seen : str) (t : str) : Result (str * str) :=
  match t with
  | [] => Raise JSONDecodeError
  | 34%N :: r => Ok (rev seen, r)
  | 92%N :: r =>
      match r with
      | [] => Raise JSONDecodeError
      | 117%N :: r1 =>
          match r1 with
          | h1 :: h2 :: h3 :: h4 :: r2 =>
              match hex4 h1 h2 h3 h4 with
              | None => Raise JSONDecodeError
              | Some c =>
                  if is_high_surrogate c then
                    match r2 with
                    | 92%N :: 117%N :: g1 :: g2 :: g3 :: g4 :: r3 =>
                        match hex4 g1 g2 g3 g4 with
                        | None => Raise JSONDecodeError
                        | Some c2 =>
                            if is_low_surrogate c2
                            then scanstring (join_surrogates c c2 :: seen) r3
                            else scanstring (c :: seen) r2
                        end
                    | _ => scanstring (c :: seen) r2
                    end
                  else scanstring (c :: seen) r2
              end
          | _ => Raise JSONDecodeError
          end
      | e :: r1 =>
          match unescape e with
          | Some c => scanstring (c :: seen) r1
          | None => Raise JSONDecodeError
          end
      end
  | c :: r => if (c <=? 31)%N then Raise JSONDecodeError else scanstring (c :: seen) r
  end.

Fixpoint span_digits (t : str) : list Z * str :=
  match t with
  | c :: r =>
      match ascii_decimal c with
      | Some d => let '(ds, r') := span_digits r in (d :: ds, r')
      | None => ([], t)
      end
  | [] => ([], [])
  end.

Definition digits_to_Z (ds : list Z) : Z := fold_left (fun acc d => 10 * acc + d) ds 0.

Section Decoder.
Variable max_digits : nat.

(** A number at the head of [t]: [None] when there is none. *)
Definition match_number (t : str) : option (Result PyVal * str) :=
  let '(neg, t1) := match t with 45%N :: r => (true, r) | _ => (false, t) end in
  let int_part :=
    match t1 with
    | 48%N :: r => Some ([0], r)
    | c :: _ =>
        match ascii_decimal c with
        | Some _ => Some (span_digits t1)
        | None => None
        end
    | [] => None
    end in
  match int_part with
  | None => None
  | Some (ids, r1) =>
      let '(frac, r2) :=
        match r1 with
        | 46%N :: d :: r =>
            match ascii_decimal d with
            | Some _ => let '(fs, r') := span_digits (d :: r) in (Some fs, r')
            | None => (None, r1)
            end
        | _ => (None, r1)
        end in
      let '(expo, r3) :=
        match r2 with
        | c :: r =>
            if ((c =? 101) || (c =? 69))%N then
              let '(eneg, r') :=
                match r with
                | 43%N :: x => (false, x)
                | 45%N :: x => (true, x)
                | _ => (false, r)
                end in
              match span_digits r' with
              | ([], _) => (None, r2)
              | (es, r'') => (Some (cond_Zopp eneg (digits_to_Z es)), r'')
              end
            else (None, r2)
        | [] => (None, r2)
        end in
      match frac, expo with
      | None, None =>
          if negb (Nat.eqb max_digits 0) && Nat.ltb max_digits (List.length ids)
          then Some (Raise ValueError, r3)
          else Some (Ok (VInt (cond_Zopp neg (digits_to_Z ids))), r3)
      | _, _ =>
          let fs := match frac with Some fs => fs | None => [] end in
          let e := match expo with Some e => e | None => 0 end in
          Some (Ok (VFloat (float_of_decimal neg (Z.to_N (digits_to_Z (ids ++ fs)))
                                             (e - Z.of_nat (List.length fs)))), r3)
      end
  end.

(** a named constant or a number *)
Definition scan_atom (t : str) : Result (PyVal * str) :=
  match strip_prefix "null" t with Some r => Ok (VNone, r) | None =>
  match strip_prefix "true" t with Some r => Ok (VBool true, r) | None =>
  match strip_prefix "false" t with Some r => Ok (VBool false, r) | None =>
  match strip_prefix "NaN" t with Some r => Ok (VFloat S754_nan, r) | None =>
  match strip_prefix "Infinity" t with Some r => Ok (VFloat (S754_infinity false), r) | None =>
  match strip_prefix "-Infinity" t with Some r => Ok (VFloat (S754_infinity true), r) | None =>
  match match_number t with
  | Some (Ok v, r) => Ok (v, r)
  | Some (Raise e, _) => Raise e
  | None => Raise JSONDecodeError
  end end end end end end end.

(** [scan_once] with the loops over the members of an object and the
    items of an array.  [fuel] bounds the steps; two steps in a row read
    at least one character, and [loads] starts with twice the length of
    the text and two more. *)
Fixpoint scan_once (fuel depth : nat) (t : str) : Result (PyVal * str) :=
  match fuel with
  | O => Raise RecursionError
  | S fuel' =>
      match t with
      | 34%N :: r => '(s, r') <- scanstring [] r ;; Ok (VStr s, r')
      | 123%N :: r =>
          match depth with
          | O => Raise RecursionError
          | S depth' =>
              match skip_ws r with
              | 125%N :: r' => Ok (VDict [], r')
              | r' => parse_members fuel' depth' [] r'
              end
          end
      | 91%N :: r =>
          match depth with
          | O => Raise RecursionError
          | S depth' =>
              match skip_ws r with
              | 93%N :: r' => Ok (VList [], r')
              | r' => parse_items fuel' depth' [] r'
              end
          end
      | _ => scan_atom t
      end
  end
with parse_members (fuel depth : nat) (seen : dict) (t : str) : Result (PyVal * str) :=
  match fuel with
  | O => Raise RecursionError
  | S fuel' =>
      match t with
      | 34%N :: r =>
          '(key, r1) <- scanstring [] r ;;
          match skip_ws r1 with
          | 58%N :: r2 =>
              '(v, r3) <- scan_once fuel' depth (skip_ws r2) ;;
              let seen' := dict_set seen key v in
              match skip_ws r3 with
              | 125%N :: r4 => Ok (VDict seen', r4)
              | 44%N :: r4 => parse_members fuel' depth seen' (skip_ws r4)
              | _ => Raise JSONDecodeError
              end
          | _ => Raise JSONDecodeError
          end
      | _ => Raise JSONDecodeError
      end
  end
with parse_items (fuel depth : nat) (seen : list PyVal) (t : str) : Result (PyVal * str) :=
  match fuel with
  | O => Raise RecursionError
  | S fuel' =>
      '(v, r1) <- scan_once fuel' depth t ;;
      let seen' := (seen ++ [v])%list in
      match skip_ws r1 with
      | 93%N :: r2 => Ok (VList seen', r2)
      | 44%N :: r2 => parse_items fuel' depth seen' (skip_ws r2)
      | _ => Raise JSONDecodeError
      end
  end.

Definition loads (depth : nat) (s : str) : Result PyVal :=
  match s with
  | 65279%N :: _ => Raise JSONDecodeError
  | _ =>
      '(obj, r) <- scan_once (2 * List.length s + 2) depth (skip_ws s) ;;
      match skip_ws r with
      | [] => Ok obj
      | _ => Raise JSONDecodeError
      end
  end.
End Decoder.

End Json.

(** The runtime of a default CPython, for text whose digits are ASCII:
    ints of at most 4300 digits, and room for 900 nested containers under
    the recursion limit.  The serializer only feeds the prompt, which only
    the provider reads; the two are left open. *)
Definition python (dumps : dict -> Result str)
           (chat : Provider -> Prompt -> Result (option str)) : Runtime :=
  {| decimal_value := Json.ascii_decimal;
     int_max_str_digits := 4300;
     json_loads := Json.loads 4300 900;
     json_dumps := dumps;
     chat_completion := chat |}.

(** ** Inputs used in the examples *)

(** a score map with the three score fields *)
Definition triple (t r a : PyVal) : dict :=
  [(of_string "Technical_Skills", t); (of_string "Reputation", r); (of_string "Activity", a)].

(** a double quote *)
Definition dq : str := [34%N].

(** a provider that always fails *)
Definition no_chat : Provider -> Prompt -> Result (option str) :=
  fun _ _ => Raise APIError.

(** a serializer for runs in which no provider reads the prompt *)
Definition no_dumps : dict -> Result str := fun _ => Ok [].

Definition python0 : Runtime := python no_dumps no_chat.

Definition world0 : World :=
  {| entropy := fun n => N.of_nat (7 * n + 3); draws := 0; calls := [] |}.

Definition no_keys (mock : bool) : Config :=
  {| openai_api_key := None; deepseek_api_key := None;
     openrouter_api_key := None; use_mock := mock |}.

(** The formula of the specification on six doubles. *)
Definition weighted_sum (gt gr ga rt rr ra : spec_float) : spec_float :=
  fadd (fadd (fadd (fadd (fadd (fmul gt (float_of_decimal false 25 (-2)))
                               (fmul gr (float_of_decimal false 15 (-2))))
                         (fmul ga (float_of_decimal false 20 (-2))))
                   (fmul rt (float_of_decimal false 20 (-2))))
             (fmul rr (float_of_decimal false 10 (-2))))
       (fmul ra (float_of_decimal false 10 (-2))).

(** The weighted sum of six integers in exact arithmetic, in hundredths. *)
Definition exact_hundredths (gt gr ga rt rr ra : Z) : Z :=
  25 * gt + 15 * gr + 20 * ga + 20 * rt + 10 * rr + 10 * ra.

(** The formula in exact arithmetic: the weighted sum rounded to the
    nearest integer, ties to even as [round] does, and clamped. *)
Definition exact_trust_score (gt gr ga rt rr ra : Z) : Z :=
  let n := exact_hundredths gt gr ga rt rr ra in
  let q := n / 100 in
  let r := n mod 100 in
  clamp (match 2 * r ?= 100 with
         | Lt => q
         | Gt => q + 1
         | Eq => if Z.even q then q else q + 1
         end).

(** * Properties *)

(** ** Keys and maps *)

Lemma str_eqb_refl (a : str) : str_eqb a a = true.
Proof.
  induction a as [|x a IH]; simpl; [reflexivity|].
  now rewrite N.eqb_refl, IH.
Qed.

Lemma str_eqb_eq (a b : str) : str_eqb a b = true <-> a = b.
Proof.
  split.
  - revert b; induction a as [|x a IH]; intros [|y b] H; simpl in H;
      try discriminate; [reflexivity|].
    apply andb_true_iff in H as [Hx Ha].
    apply N.eqb_eq in Hx. f_equal; auto.
  - intros ->. apply str_eqb_refl.
Qed.

Lemma str_eqb_neq (a b : str) : str_eqb a b = false <-> a <> b.
Proof.
  split.
  - intros H ->. rewrite str_eqb_refl in H. discriminate.
  - intros H. destruct (str_eqb a b) eqn:E; [|reflexivity].
    apply str_eqb_eq in E. contradiction.
Qed.

Lemma str_eq_dec (a b : str) : {a = b} + {a <> b}.
Proof. apply (list_eq_dec N.eq_dec). Qed.

Lemma dict_get_set_same (d : dict) (k : str) (v : PyVal) :
  dict_get (dict_set d k v) k = Some v.
Proof.
  induction d as [|[k' v'] d IH]; simpl.
  - now rewrite str_eqb_refl.
  - destruct (str_eqb k k') eqn:E; simpl; rewrite E; [reflexivity|exact IH].
Qed.

Lemma dict_get_set_other (d : dict) (k q : str) (v : PyVal) :
  q <> k -> dict_get (dict_set d k v) q = dict_get d q.
Proof.
  intros Hne. apply str_eqb_neq in Hne.
  induction d as [|[k' v'] d IH]; simpl.
  - now rewrite Hne.
  - destruct (str_eqb k k') eqn:E; simpl.
    + apply str_eqb_eq in E. subst k'. now rewrite Hne.
    + destruct (str_eqb q k'); [reflexivity|exact IH].
Qed.

Lemma dict_has_set (d : dict) (k q : str) (v : PyVal) :
  dict_has d q = true -> dict_has (dict_set d k v) q = true.
Proof.
  unfold dict_has. intros H.
  destruct (str_eq_dec q k) as [->|Hne].
  - now rewrite dict_get_set_same.
  - now rewrite dict_get_set_other.
Qed.

Lemma rbind_ok {A B} (r : Result A) (k : A -> Result B) (b : B) :
  rbind r k = Ok b -> exists a, r = Ok a /\ k a = Ok b.
Proof. destruct r as [a|e]; simpl; intros H; [eauto|discriminate]. Qed.

Lemma rbind_ret {A B} (a : A) (k : A -> Result B) : rbind (Ok a) k = k a.
Proof. reflexivity. Qed.

Lemma clamp_range (z : Z) : 0 <= clamp z <= 100.
Proof. unfold clamp. lia. Qed.

Lemma clamp_id (z : Z) : 0 <= z <= 100 -> clamp z = z.
Proof. unfold clamp. lia. Qed.


(** ** The trust aggregator *)

(** the double a number converts to *)
Definition as_double (v : PyVal) : Result spec_float :=
  match v with
  | VInt z => float_of_int z
  | VBool b => float_of_int (Z_of_bool b)
  | VFloat f => Ok f
  | _ => Raise TypeError
  end.

Lemma mul_float_as_double (v : PyVal) (c : spec_float) :
  mul_float v c = (f <- as_double v ;; Ok (fmul f c)).
Proof. destruct v; reflexivity. Qed.

Lemma mul_float_not_number (v : PyVal) (c : spec_float) :
  is_number v = false -> mul_float v c = Raise TypeError.
Proof. destruct v; simpl; intros H; try discriminate; reflexivity. Qed.

Lemma get_default_set_missing (d : dict) (f k : str) :
  dict_get d f = None ->
  dict_get_default (dict_set d f (VInt 0)) k (VInt 0) = dict_get_default d k (VInt 0).
Proof.
  intros Hm. unfold dict_get_default.
  destruct (str_eq_dec k f) as [->|Hne].
  - now rewrite dict_get_set_same, Hm.
  - now rewrite dict_get_set_other.
Qed.

Lemma calculate_trust_score_ok (g r : dict) :
  exists z, Score.calculate_trust_score g r = Ok z /\ 0 <= z <= 100.
Proof.
  unfold Score.calculate_trust_score.
  destruct (Score.calculate_trust_score_body g r) as [z|e] eqn:E; simpl.
  - exists z. split; [reflexivity|].
    unfold Score.calculate_trust_score_body in E.
    repeat (apply rbind_ok in E; destruct E as [? [_ E]]).
    injection E as <-. lia.
  - exists 50. split; [reflexivity|lia].
Qed.

(** C2, as it holds: when the six fields are numbers that convert to
    doubles, the result is the weighted sum in double arithmetic, rounded
    half to even by [round], read by [int] and clamped into [0,100]
    (and 50 when that sum is not finite); the example of the
    specification gives 82. *)
Theorem calculate_trust_score_formula
  (g r : dict) (vgt vgr vga vrt vrr vra : PyVal) (gt gr ga rt rr ra : spec_float) :
  dict_get g "Technical_Skills" = Some vgt ->
  dict_get g "Reputation" = Some vgr ->
  dict_get g "Activity" = Some vga ->
  dict_get r "Technical_Skills" = Some vrt ->
  dict_get r "Reputation" = Some vrr ->
  dict_get r "Activity" = Some vra ->
  as_double vgt = Ok gt -> as_double vgr = Ok gr -> as_double vga = Ok ga ->
  as_double vrt = Ok rt -> as_double vrr = Ok rr -> as_double vra = Ok ra ->
  Score.calculate_trust_score g r =
    Ok (match int_of_float (py_round0 (weighted_sum gt gr ga rt rr ra)) with
        | Ok n => clamp n
        | Raise _ => 50
        end)
  /\ Score.calculate_trust_score
       (triple (VInt 85) (VInt 72) (VInt 90)) (triple (VInt 80) (VInt 75) (VInt 85))
     = Ok 82.
Proof.
  intros G1 G2 G3 R1 R2 R3 D1 D2 D3 D4 D5 D6.
  split; [|vm_compute; reflexivity].
  unfold Score.calculate_trust_score, Score.calculate_trust_score_body, dict_get_default.
  rewrite G1, G2, G3, R1, R2, R3.
  rewrite !mul_float_as_double, D1, D2, D3, D4, D5, D6. simpl rbind.
  replace Score.w025 with (float_of_decimal false 25 (-2)) by reflexivity.
  replace Score.w015 with (float_of_decimal false 15 (-2)) by reflexivity.
  replace Score.w02 with (float_of_decimal false 20 (-2)) by (vm_compute; reflexivity).
  replace Score.w01 with (float_of_decimal false 10 (-2)) by (vm_compute; reflexivity).
  fold (weighted_sum gt gr ga rt rr ra).
  destruct (int_of_float (py_round0 (weighted_sum gt gr ga rt rr ra))); reflexivity.
Qed.

Lemma calculate_trust_score_formula_witness :
  Score.calculate_trust_score
    (triple (VInt 85) (VInt 72) (VInt 90)) (triple (VInt 80) (VInt 75) (VInt 85))
  = Ok (match int_of_float
                (py_round0 (weighted_sum
                   (S754_finite false 5981343255101440 (-46))
                   (S754_finite false 5066549580791808 (-46))
                   (S754_finite false 6333186975989760 (-46))
                   (S754_finite false 5629499534213120 (-46))
                   (S754_finite false 5277655813324800 (-46))
                   (S754_finite false 5981343255101440 (-46)))) with
        | Ok n => clamp n
        | Raise _ => 50
        end)
  /\ Score.calculate_trust_score
       (triple (VInt 85) (VInt 72) (VInt 90)) (triple (VInt 80) (VInt 75) (VInt 85))
     = Ok 82.
Proof.
  refine (calculate_trust_score_formula
    (triple (VInt 85) (VInt 72) (VInt 90)) (triple (VInt 80) (VInt 75) (VInt 85))
    (VInt 85) (VInt 72) (VInt 90) (VInt 80) (VInt 75) (VInt 85)
    (S754_finite false 5981343255101440 (-46))
    (S754_finite false 5066549580791808 (-46))
    (S754_finite false 6333186975989760 (-46))
    (S754_finite false 5629499534213120 (-46))
    (S754_finite false 5277655813324800 (-46))
    (S754_finite false 5981343255101440 (-46))
    _ _ _ _ _ _ _ _ _ _ _ _); vm_compute; reflexivity.
Defined.

(** C2, as stated, fails.  The sum is a sum of doubles, so a weighted sum
    that is exactly a half need not be rounded as a half: scores within
    [0,100] whose weighted sum is 47.5 give 47, and scores whose weighted
    sum is 54.5 give 55, where the formula rounds to 48 and to 54.  And a
    number too large for a double makes the product raise: the result is
    the default 50 where the formula, clamped, is 100. *)
Lemma calculate_trust_score_not_exact :
  (exact_hundredths 29 81 22 70 74 23 = 4750
   /\ exact_trust_score 29 81 22 70 74 23 = 48
   /\ Score.calculate_trust_score
        (triple (VInt 29) (VInt 81) (VInt 22)) (triple (VInt 70) (VInt 74) (VInt 23))
      = Ok 47)
  /\ (exact_hundredths 15 25 97 72 48 84 = 5450
      /\ exact_trust_score 15 25 97 72 48 84 = 54
      /\ Score.calculate_trust_score
           (triple (VInt 15) (VInt 25) (VInt 97)) (triple (VInt 72) (VInt 48) (VInt 84))
         = Ok 55)
  /\ (is_number (VInt (10 ^ 400)) = true
      /\ mul_float (VInt (10 ^ 400)) Score.w025 = Raise OverflowError
      /\ exact_trust_score (10 ^ 400) 0 0 0 0 0 = 100
      /\ Score.calculate_trust_score
           (triple (VInt (10 ^ 400)) (VInt 0) (VInt 0)) (triple (VInt 0) (VInt 0) (VInt 0))
         = Ok 50).
Proof. repeat split; vm_compute; reflexivity. Qed.

(** a score field as the aggregator reads it: [get] with the default 0 *)
Definition field_or_0 (d : dict) (f : str) : PyVal := dict_get_default d f (VInt 0).

(** The aggregator on any two maps: the six fields, 0 for a missing one,
    as doubles in the weighted sum, rounded, read by [int] and clamped;
    50 when a field does not convert or the sum is not finite. *)
Definition weighted_or_50 (g r : dict) : Z :=
  match (gt <- as_double (field_or_0 g "Technical_Skills") ;;
         gr <- as_double (field_or_0 g "Reputation") ;;
         ga <- as_double (field_or_0 g "Activity") ;;
         rt <- as_double (field_or_0 r "Technical_Skills") ;;
         rr <- as_double (field_or_0 r "Reputation") ;;
         ra <- as_double (field_or_0 r "Activity") ;;
         int_of_float (py_round0 (weighted_sum gt gr ga rt rr ra))) with
  | Ok n => clamp n
  | Raise _ => 50
  end.

Lemma calculate_trust_score_weighted (g r : dict) :
  Score.calculate_trust_score g r = Ok (weighted_or_50 g r).
Proof.
  unfold Score.calculate_trust_score, Score.calculate_trust_score_body, weighted_or_50,
    field_or_0.
  rewrite !mul_float_as_double.
  destruct (as_double (dict_get_default g "Technical_Skills" (VInt 0))) as [gt|e];
    [|reflexivity].
  destruct (as_double (dict_get_default g "Reputation" (VInt 0))) as [gr|e];
    [|reflexivity].
  destruct (as_double (dict_get_default g "Activity" (VInt 0))) as [ga|e];
    [|reflexivity].
  destruct (as_double (dict_get_default r "Technical_Skills" (VInt 0))) as [rt|e];
    [|reflexivity].
  destruct (as_double (dict_get_default r "Reputation" (VInt 0))) as [rr|e];
    [|reflexivity].
  destruct (as_double (dict_get_default r "Activity" (VInt 0))) as [ra|e];
    [|reflexivity].
  rewrite !rbind_ret.
  replace Score.w025 with (float_of_decimal false 25 (-2)) by reflexivity.
  replace Score.w015 with (float_of_decimal false 15 (-2)) by reflexivity.
  replace Score.w02 with (float_of_decimal false 20 (-2)) by (vm_compute; reflexivity).
  replace Score.w01 with (float_of_decimal false 10 (-2)) by (vm_compute; reflexivity).
  fold (weighted_sum gt gr ga rt rr ra).
  destruct (int_of_float (py_round0 (weighted_sum gt gr ga rt rr ra))); reflexivity.
Qed.

Lemma missing_field_is_zero (d : dict) (f : str) :
  dict_get d f = None -> as_double (field_or_0 d f) = Ok (S754_zero false).
Proof. intros H. unfold field_or_0, dict_get_default. now rewrite H. Qed.

(** C4: the aggregator always returns, a value in [0,100].  A missing
    field counts as 0 and the weighted computation proceeds: for every
    pair of maps the result is the weighted sum of the six fields as
    doubles, with the double 0 in the place of each missing field,
    rounded, read by [int] and clamped, so that an empty GitHub map
    beside resume scores of 100 gives 40, the other way round 60, and a
    lone GitHub reputation of 100 gives 15.  An exception raised inside
    the computation, such as the one a field that is not a number
    causes, gives 50. *)
Theorem calculate_trust_score_never_raises (g r : dict) :
  (exists z, Score.calculate_trust_score g r = Ok z /\ 0 <= z <= 100)
  /\ (forall f, dict_get g f = None ->
        Score.calculate_trust_score (dict_set g f (VInt 0)) r
        = Score.calculate_trust_score g r)
  /\ (forall f, dict_get r f = None ->
        Score.calculate_trust_score g (dict_set r f (VInt 0))
        = Score.calculate_trust_score g r)
  /\ (forall e, Score.calculate_trust_score_body g r = Raise e ->
        Score.calculate_trust_score g r = Ok 50)
  /\ (forall f v, In f Github.required_fields ->
        (dict_get g f = Some v \/ dict_get r f = Some v) -> is_number v = false ->
        Score.calculate_trust_score g r = Ok 50)
  /\ Score.calculate_trust_score g r = Ok (weighted_or_50 g r)
  /\ (forall f, dict_get g f = None -> as_double (field_or_0 g f) = Ok (S754_zero false))
  /\ (forall f, dict_get r f = None -> as_double (field_or_0 r f) = Ok (S754_zero false))
  /\ Score.calculate_trust_score [] (triple (VInt 100) (VInt 100) (VInt 100)) = Ok 40
  /\ Score.calculate_trust_score (triple (VInt 100) (VInt 100) (VInt 100)) [] = Ok 60
  /\ Score.calculate_trust_score [(of_string "Reputation", VInt 100)] [] = Ok 15.
Proof.
  split; [apply calculate_trust_score_ok|].
  split; [|split; [|split; [|split]]].
  - intros f Hm. unfold Score.calculate_trust_score, Score.calculate_trust_score_body.
    now rewrite !(get_default_set_missing g f _ Hm).
  - intros f Hm. unfold Score.calculate_trust_score, Score.calculate_trust_score_body.
    now rewrite !(get_default_set_missing r f _ Hm).
  - intros e H. unfold Score.calculate_trust_score. now rewrite H.
  - intros f v Hin Hget Hnum.
    assert (Hraise : forall c, mul_float v c = Raise TypeError)
      by (intros c; now apply mul_float_not_number).
    unfold Score.calculate_trust_score, Score.calculate_trust_score_body, dict_get_default.
    simpl in Hin.
    destruct Hin as [<-|[<-|[<-|[]]]]; destruct Hget as [Hg|Hg]; rewrite Hg, Hraise;
      repeat match goal with
             | |- context [mul_float ?x ?c] => destruct (mul_float x c); simpl
             end; reflexivity.
  - split; [apply calculate_trust_score_weighted|].
    split; [intros f; apply missing_field_is_zero|].
    split; [intros f; apply missing_field_is_zero|].
    repeat split; vm_compute; reflexivity.
Qed.

(** ** The mock fallback source *)

Lemma randint_spec (a b : Z) (w : World) :
  a <= b ->
  exists z,
    MockData.randint a b w
    = (Ok z, {| entropy := entropy w; draws := S (draws w); calls := calls w |})
    /\ a <= z <= b.
Proof.
  intros Hab. unfold MockData.randint, MockData.randbelow, bind, ret.
  eexists. split; [reflexivity|].
  pose proof (Z.mod_pos_bound (Z.of_N (entropy w (draws w))) (b - a + 1)). lia.
Qed.

Lemma get_mock_github_score_spec (w : World) :
  exists t r a w',
    MockData.get_mock_github_score w = (Ok (VDict (triple (VInt t) (VInt r) (VInt a))), w')
    /\ calls w' = calls w
    /\ 65 <= t <= 95 /\ 60 <= r <= 90 /\ 70 <= a <= 95.
Proof.
  unfold MockData.get_mock_github_score.
  destruct (randint_spec 65 95 w) as [t [Ht Bt]]; [lia|].
  unfold bind at 1. rewrite Ht.
  match goal with |- context [bind (MockData.randint 60 90) _ ?w1] =>
    destruct (randint_spec 60 90 w1) as [r [Hr Br]]; [lia|] end.
  unfold bind at 1. rewrite Hr.
  match goal with |- context [bind (MockData.randint 70 95) _ ?w2] =>
    destruct (randint_spec 70 95 w2) as [a [Ha Ba]]; [lia|] end.
  unfold bind at 1. rewrite Ha.
  exists t, r, a. eexists. unfold ret, triple. split; [reflexivity|].
  simpl. repeat split; lia.
Qed.

Lemma sample_loop_spec (k : nat) :
  forall (pool : list str) (n : nat) (w : World),
  exists l w',
    MockData.sample_loop pool n k w = (Ok l, w')
    /\ List.length l = k /\ calls w' = calls w /\ entropy w' = entropy w.
Proof.
  induction k as [|k IH]; intros pool n w; simpl.
  - exists [], w. unfold ret. auto.
  - unfold bind at 1. unfold MockData.randbelow at 1.
    match goal with |- context [MockData.sample_loop ?p ?m k] =>
      match goal with |- context [bind (MockData.sample_loop p m k) _ ?w1] =>
        destruct (IH p m w1) as [l [w' [Hl [Hlen [Hc He]]]]] end end.
    unfold bind at 1. rewrite Hl. unfold ret.
    eexists. eexists. split; [reflexivity|].
    simpl in *. repeat split; congruence.
Qed.

Lemma get_mock_resume_score_spec (w : World) :
  exists t r a summary keywords w',
    MockData.get_mock_resume_score w
    = (Ok (VDict [(of_string "Technical_Skills", VInt t);
                  (of_string "Reputation", VInt r);
                  (of_string "Activity", VInt a);
                  (of_string "summary", VStr summary);
                  (of_string "keywords", VList (List.map VStr keywords))]), w')
    /\ calls w' = calls w
    /\ 70 <= t <= 90 /\ 65 <= r <= 85 /\ 70 <= a <= 90
    /\ (3 <= List.length keywords <= 5)%nat.
Proof.
  unfold MockData.get_mock_resume_score.
  destruct (randint_spec 3 5 w) as [k [Hk Bk]]; [lia|].
  unfold bind at 1. rewrite Hk.
  unfold MockData.sample.
  match goal with |- context [bind (MockData.sample_loop ?p ?n ?m) _ ?w1] =>
    destruct (sample_loop_spec m p n w1) as [l [w2 [Hl [Hlen [Hc He]]]]] end.
  unfold bind at 1. rewrite Hl.
  destruct (randint_spec 2 8 w2) as [y [Hy By]]; [lia|].
  unfold bind at 1. rewrite Hy.
  match goal with |- context [bind (MockData.randint 70 90) _ ?w3] =>
    destruct (randint_spec 70 90 w3) as [t [Ht Bt]]; [lia|] end.
  unfold bind at 1. rewrite Ht.
  match goal with |- context [bind (MockData.randint 65 85) _ ?w4] =>
    destruct (randint_spec 65 85 w4) as [r [Hr Br]]; [lia|] end.
  unfold bind at 1. rewrite Hr.
  match goal with |- context [bind (MockData.randint 70 90) _ ?w5] =>
    destruct (randint_spec 70 90 w5) as [a [Ha Ba]]; [lia|] end.
  unfold bind at 1. rewrite Ha.
  exists t, r, a. eexists. exists l. eexists. unfold ret.
  split; [reflexivity|]. simpl in *.
  repeat split; try lia; try congruence.
Qed.

(** ** The orchestration of the two tasks *)

Lemma try_catch_ok {A} (m : M A) (h : exn -> M A) (w w' : World) (a : A) :
  m w = (Ok a, w') -> try_catch m h w = (Ok a, w').
Proof. unfold try_catch. now intros ->. Qed.

Lemma github_attempt_no_key rt (p : Provider) (key : option str) (prompt : Prompt) :
  key_set key = false -> Github.attempt rt p key prompt = ret None.
Proof. unfold Github.attempt. now intros ->. Qed.

Lemma resume_attempt_no_key rt (p : Provider) (key : option str) (prompt : Prompt) :
  key_set key = false -> Resume.attempt rt p key prompt = ret None.
Proof. unfold Resume.attempt. now intros ->. Qed.

(** Without the three score fields and with mock mode on, the GitHub task
    is the mock source. *)
Lemma analyze_github_mock_mode rt cfg (d : dict) (w : World) :
  forallb (dict_has d) Github.required_fields = false ->
  use_mock cfg = true ->
  Github.analyze_github rt cfg d w = MockData.get_mock_github_score w.
Proof. intros Hm Hu. unfold Github.analyze_github. now rewrite Hm, Hu. Qed.

(** Without the three score fields, without mock mode and without any
    key, the GitHub task is the mock source too. *)
Lemma analyze_github_no_key rt cfg (d : dict) (w : World) :
  forallb (dict_has d) Github.required_fields = false ->
  use_mock cfg = false ->
  key_set (openrouter_api_key cfg) = false ->
  key_set (deepseek_api_key cfg) = false ->
  key_set (openai_api_key cfg) = false ->
  Github.analyze_github rt cfg d w = MockData.get_mock_github_score w.
Proof.
  intros Hm Hu K1 K2 K3. unfold Github.analyze_github. rewrite Hm, Hu.
  destruct (get_mock_github_score_spec w) as (t & r & a & w' & Hmock & _).
  unfold try_catch, bind at 1, pure.
  destruct (json_dumps rt d) as [github_json|e]; [|reflexivity].
  rewrite !github_attempt_no_key by assumption.
  unfold bind, ret. now rewrite Hmock.
Qed.

Lemma analyze_resume_no_key rt cfg (c : N) (text : str) (w : World) :
  use_mock cfg = false ->
  key_set (openrouter_api_key cfg) = false ->
  key_set (deepseek_api_key cfg) = false ->
  key_set (openai_api_key cfg) = false ->
  Resume.analyze_resume rt cfg (c :: text) w = MockData.get_mock_resume_score w.
Proof.
  intros Hu K1 K2 K3. unfold Resume.analyze_resume. rewrite Hu.
  rewrite !resume_attempt_no_key by assumption.
  destruct (get_mock_resume_score_spec w) as (t & r & a & s & k & w' & Hmock & _).
  rewrite Hmock. apply try_catch_ok. exact Hmock.
Qed.

(** C1, as it holds: with mock mode off and no key set, a GitHub input
    that lacks one of the three score fields and a resume text that is
    not empty are answered by the mock source, without any provider call:
    the call returns a map with every required field. *)
Theorem no_provider_gives_mock rt cfg :
  use_mock cfg = false ->
  key_set (openrouter_api_key cfg) = false ->
  key_set (deepseek_api_key cfg) = false ->
  key_set (openai_api_key cfg) = false ->
  (forall (d : dict) (w : World),
      forallb (dict_has d) Github.required_fields = false ->
      Github.analyze_github rt cfg d w = MockData.get_mock_github_score w
      /\ exists result w',
           Github.analyze_github rt cfg d w = (Ok (VDict result), w')
           /\ calls w' = calls w
           /\ forallb (dict_has result) Github.required_fields = true)
  /\ (forall (text : str) (w : World),
      text <> [] ->
      Resume.analyze_resume rt cfg text w = MockData.get_mock_resume_score w
      /\ exists result w',
           Resume.analyze_resume rt cfg text w = (Ok (VDict result), w')
           /\ calls w' = calls w
           /\ forallb (dict_has result) Resume.required_fields = true).
Proof.
  intros Hu K1 K2 K3. split.
  - intros d w Hm.
    rewrite (analyze_github_no_key rt cfg d w Hm Hu K1 K2 K3).
    split; [reflexivity|].
    destruct (get_mock_github_score_spec w) as (t & r & a & w' & Hmock & Hc & _).
    eexists. exists w'. split; [exact Hmock|]. split; [exact Hc|reflexivity].
  - intros [|c text] w Hne; [contradiction|].
    rewrite (analyze_resume_no_key rt cfg c text w Hu K1 K2 K3).
    split; [reflexivity|].
    destruct (get_mock_resume_score_spec w) as (t & r & a & s & k & w' & Hmock & Hc & _).
    eexists. exists w'. split; [exact Hmock|]. split; [exact Hc|reflexivity].
Qed.

Lemma no_provider_gives_mock_witness :
  Github.analyze_github python0 (no_keys false) [] world0
  = MockData.get_mock_github_score world0
  /\ Resume.analyze_resume python0 (no_keys false) "Python developer" world0
     = MockData.get_mock_resume_score world0.
Proof.
  destruct (no_provider_gives_mock python0 (no_keys false)
              eq_refl eq_refl eq_refl eq_refl) as [G R].
  split.
  - exact (proj1 (G [] world0 eq_refl)).
  - refine (proj1 (R (of_string "Python developer") world0 _)). discriminate.
Defined.

(** C1, as stated, fails: with mock mode off and no key set, a GitHub
    input that holds the three score fields gets them back, and the empty
    resume text gets the fixed result; neither is the mock output. *)
Lemma no_provider_not_always_mock :
  Github.analyze_github python0 (no_keys false)
    (triple (VInt 10) (VInt 20) (VInt 30)) world0
  = (Ok (VDict (triple (VInt 10) (VInt 20) (VInt 30))), world0)
  /\ Github.analyze_github python0 (no_keys false)
       (triple (VInt 10) (VInt 20) (VInt 30)) world0
     <> MockData.get_mock_github_score world0
  /\ Resume.analyze_resume python0 (no_keys false) [] world0
     = (Ok Resume.empty_resume_result, world0)
  /\ Resume.analyze_resume python0 (no_keys false) [] world0
     <> MockData.get_mock_resume_score world0.
Proof.
  split; [reflexivity|]. split.
  - intros H. apply (f_equal fst) in H. vm_compute in H. discriminate.
  - split; [reflexivity|].
    intros H. apply (f_equal fst) in H. vm_compute in H. discriminate.
Qed.

(** C5, as it holds: with mock mode on, a GitHub input that lacks one of
    the three score fields is answered by the mock source at once, without
    any provider call. *)
Theorem mock_mode_skips_providers rt cfg (d : dict) (w : World) :
  use_mock cfg = true ->
  forallb (dict_has d) Github.required_fields = false ->
  Github.analyze_github rt cfg d w = MockData.get_mock_github_score w
  /\ calls (snd (Github.analyze_github rt cfg d w)) = calls w.
Proof.
  intros Hu Hm. rewrite (analyze_github_mock_mode rt cfg d w Hm Hu).
  split; [reflexivity|].
  destruct (get_mock_github_score_spec w) as (t & r & a & w' & Hmock & Hc & _).
  now rewrite Hmock.
Qed.

Lemma mock_mode_skips_providers_witness :
  Github.analyze_github python0 (no_keys true) [] world0
  = MockData.get_mock_github_score world0
  /\ calls (snd (Github.analyze_github python0 (no_keys true) [] world0))
     = calls world0.
Proof.
  exact (mock_mode_skips_providers python0 (no_keys true) [] world0
           eq_refl eq_refl).
Defined.

(** C5, as stated, fails: with mock mode on, an input that holds the three
    score fields is passed through; the mock source is not consulted. *)
Lemma mock_mode_after_pass_through :
  use_mock (no_keys true) = true
  /\ Github.analyze_github python0 (no_keys true)
       (triple (VInt 10) (VInt 20) (VInt 30)) world0
     = (Ok (VDict (triple (VInt 10) (VInt 20) (VInt 30))), world0)
  /\ Github.analyze_github python0 (no_keys true)
       (triple (VInt 10) (VInt 20) (VInt 30)) world0
     <> MockData.get_mock_github_score world0.
Proof.
  split; [reflexivity|]. split; [reflexivity|].
  intros H. apply (f_equal fst) in H. vm_compute in H. discriminate.
Qed.

(** C6, as it holds: with mock mode off, the empty resume text gets the
    fixed result; no provider is called and the mock source is not
    consulted (the state is unchanged). *)
Theorem empty_resume_fixed_result rt cfg (w : World) :
  use_mock cfg = false ->
  Resume.analyze_resume rt cfg [] w
  = (Ok (VDict [(of_string "Technical_Skills", VInt 50);
                (of_string "Reputation", VInt 50);
                (of_string "Activity", VInt 50);
                (of_string "summary", VStr "No resume provided for analysis");
                (of_string "keywords", VList [])]), w).
Proof. intros Hu. unfold Resume.analyze_resume. rewrite Hu. reflexivity. Qed.

Lemma empty_resume_fixed_result_witness :
  Resume.analyze_resume python0 (no_keys false) [] world0
  = (Ok (VDict [(of_string "Technical_Skills", VInt 50);
                (of_string "Reputation", VInt 50);
                (of_string "Activity", VInt 50);
                (of_string "summary", VStr "No resume provided for analysis");
                (of_string "keywords", VList [])]), world0).
Proof.
  exact (empty_resume_fixed_result python0 (no_keys false) world0 eq_refl).
Defined.

(** C6, as stated, fails: with mock mode on, the empty resume text is
    answered by the mock source. *)
Lemma empty_resume_in_mock_mode :
  Resume.analyze_resume python0 (no_keys true) [] world0
  = MockData.get_mock_resume_score world0
  /\ fst (Resume.analyze_resume python0 (no_keys true) [] world0)
     <> Ok Resume.empty_resume_result.
Proof.
  split; [reflexivity|].
  intros H. vm_compute in H. discriminate.
Qed.

(** ** The pass-through branch of the GitHub task *)

(** What the loop of the branch makes of one value: 50 when it is not a
    number, else [int] of it, clamped. *)
Definition normalized rt (v : PyVal) : Result Z :=
  if is_number v then n <- py_int rt v ;; Ok (clamp n) else Ok 50.

(** the integer value of a number: the int itself, a float truncated *)
Definition int_value (v : PyVal) : Z :=
  match v with
  | VInt z => z
  | VBool b => Z_of_bool b
  | VFloat f => match int_of_float f with Ok n => n | Raise _ => 0 end
  | _ => 0
  end.

(** a number within [0,100] *)
Definition in_score_range (v : PyVal) : bool :=
  match v with
  | VInt z => (0 <=? z) && (z <=? 100)
  | VBool _ => true
  | VFloat f =>
      match cmp_float_int f 0, cmp_float_int f 100 with
      | Some (Eq | Gt), Some (Lt | Eq) => true
      | _, _ => false
      end
  | _ => false
  end.

Lemma has_required_fields (d : dict) (vt vr va : PyVal) :
  dict_get d "Technical_Skills" = Some vt ->
  dict_get d "Reputation" = Some vr ->
  dict_get d "Activity" = Some va ->
  forallb (dict_has d) Github.required_fields = true.
Proof.
  intros H1 H2 H3. unfold Github.required_fields, dict_has. simpl.
  now rewrite H1, H2, H3.
Qed.

Lemma dict_set_set (d : dict) (k : str) (v v' : PyVal) :
  dict_set (dict_set d k v) k v' = dict_set d k v'.
Proof.
  induction d as [|[k0 v0] d IH]; simpl.
  - now rewrite str_eqb_refl.
  - destruct (str_eqb k k0) eqn:E; simpl; rewrite E; [reflexivity|now rewrite IH].
Qed.

Lemma normalize_step rt (field : str) (rest : list str) (d : dict) (v : PyVal) :
  dict_get d field = Some v ->
  Github.normalize rt (field :: rest) (VDict d)
  = (n <- normalized rt v ;;
     Github.normalize rt rest (VDict (dict_set d field (VInt n)))).
Proof.
  intros Hget. unfold normalized. simpl. rewrite Hget. simpl.
  destruct (is_number v) eqn:Hn; simpl.
  - rewrite Hget. simpl. destruct (py_int rt v) as [n|e]; reflexivity.
  - rewrite dict_get_set_same. simpl. now rewrite dict_set_set.
Qed.

(** The branch on an input that holds the three fields: the three values,
    normalized in turn; the state is left as it was. *)
Lemma analyze_github_pass_through rt cfg (d : dict) (vt vr va : PyVal) (w : World) :
  dict_get d "Technical_Skills" = Some vt ->
  dict_get d "Reputation" = Some vr ->
  dict_get d "Activity" = Some va ->
  Github.analyze_github rt cfg d w
  = (nt <- normalized rt vt ;;
     nr <- normalized rt vr ;;
     na <- normalized rt va ;;
     Ok (VDict (triple (VInt nt) (VInt nr) (VInt na))), w).
Proof.
  intros H1 H2 H3. unfold Github.analyze_github.
  rewrite (has_required_fields d vt vr va H1 H2 H3).
  unfold pure, py_getitem. rewrite H1, H2, H3, !rbind_ret.
  unfold Github.required_fields.
  rewrite (normalize_step rt _ _ _ vt) by reflexivity.
  destruct (normalized rt vt) as [nt|e]; [|reflexivity]. rewrite !rbind_ret.
  rewrite (normalize_step rt _ _ _ vr) by reflexivity.
  destruct (normalized rt vr) as [nr|e]; [|reflexivity]. rewrite !rbind_ret.
  rewrite (normalize_step rt _ _ _ va) by reflexivity.
  destruct (normalized rt va) as [na|e]; reflexivity.
Qed.

Lemma div_pow2_bounds (m : positive) (k z : Z) :
  0 <= k -> Zpos m <= z * 2 ^ k -> 0 <= Zpos m / 2 ^ k <= z.
Proof.
  intros Hk Hle.
  assert (Hp : 0 < 2 ^ k) by (apply Z.pow_pos_nonneg; lia).
  split.
  - apply Z.div_pos; lia.
  - apply Z.div_le_upper_bound; lia.
Qed.

Lemma in_score_range_int rt (v : PyVal) :
  in_score_range v = true ->
  is_number v = true /\ py_int rt v = Ok (int_value v) /\ 0 <= int_value v <= 100.
Proof.
  destruct v as [|b|z|f|s|l|d]; try discriminate.
  - intros _. destruct b; simpl; repeat split; lia.
  - intros H. apply andb_true_iff in H as [H0 H1].
    apply Z.leb_le in H0. apply Z.leb_le in H1. repeat split; simpl; lia.
  - destruct f as [s|s| |s m e].
    + intros _. simpl. repeat split; lia.
    + destruct s; discriminate.
    + discriminate.
    + unfold in_score_range, is_number, py_int, int_value, cmp_float_int, int_of_float.
      destruct (0 <=? e) eqn:He.
      * pose proof (Z.compare_spec (cond_Zopp s (Z.pos m * 2 ^ e)) 0) as S0.
        pose proof (Z.compare_spec (cond_Zopp s (Z.pos m * 2 ^ e)) 100) as S1.
        destruct (cond_Zopp s (Z.pos m * 2 ^ e) ?= 0); try discriminate;
          destruct (cond_Zopp s (Z.pos m * 2 ^ e) ?= 100); try discriminate;
          intros _; inversion S0; inversion S1; repeat split; lia.
      * apply Z.leb_gt in He.
        assert (Hp : 0 < 2 ^ (- e)) by (apply Z.pow_pos_nonneg; lia).
        pose proof (Z.compare_spec (cond_Zopp s (Z.pos m)) (0 * 2 ^ (- e))) as S0.
        pose proof (Z.compare_spec (cond_Zopp s (Z.pos m)) (100 * 2 ^ (- e))) as S1.
        destruct (cond_Zopp s (Z.pos m) ?= 0 * 2 ^ (- e)); try discriminate;
          destruct (cond_Zopp s (Z.pos m) ?= 100 * 2 ^ (- e)); try discriminate;
          intros _; inversion S0; inversion S1;
          destruct s; unfold cond_Zopp in *; try lia;
          (split; [reflexivity|split; [reflexivity|]]);
          apply div_pow2_bounds; lia.
Qed.

Lemma normalized_in_range rt (v : PyVal) :
  in_score_range v = true -> normalized rt v = Ok (int_value v).
Proof.
  intros H. destruct (in_score_range_int rt v H) as (Hn & Hi & Hr).
  unfold normalized. rewrite Hn, Hi. simpl. now rewrite clamp_id.
Qed.

(** C7: an input that holds the three score fields with numbers within
    [0,100] comes back as the three fields with their integer values (an
    int as it is, a float truncated); no provider is called and the
    state is unchanged. *)
Theorem pass_through_in_range rt cfg (d : dict) (vt vr va : PyVal) (w : World) :
  dict_get d "Technical_Skills" = Some vt ->
  dict_get d "Reputation" = Some vr ->
  dict_get d "Activity" = Some va ->
  in_score_range vt = true ->
  in_score_range vr = true ->
  in_score_range va = true ->
  Github.analyze_github rt cfg d w
  = (Ok (VDict (triple (VInt (int_value vt)) (VInt (int_value vr)) (VInt (int_value va)))), w)
  /\ 0 <= int_value vt <= 100 /\ 0 <= int_value vr <= 100 /\ 0 <= int_value va <= 100
  /\ (forall zt zr za, vt = VInt zt -> vr = VInt zr -> va = VInt za ->
        Github.analyze_github rt cfg d w = (Ok (VDict (triple vt vr va)), w)).
Proof.
  intros H1 H2 H3 R1 R2 R3.
  assert (E : Github.analyze_github rt cfg d w
   = (Ok (VDict (triple (VInt (int_value vt)) (VInt (int_value vr)) (VInt (int_value va)))), w)).
  { rewrite (analyze_github_pass_through rt cfg d vt vr va w H1 H2 H3).
    now rewrite !normalized_in_range by assumption. }
  split; [exact E|].
  split; [apply (in_score_range_int rt vt R1)|].
  split; [apply (in_score_range_int rt vr R2)|].
  split; [apply (in_score_range_int rt va R3)|].
  intros zt zr za -> -> ->. exact E.
Qed.

Lemma pass_through_in_range_witness :
  Github.analyze_github python0 (no_keys false)
    (triple (VInt 85) (VFloat (float_of_decimal false 725 (-1))) (VBool true)) world0
  = (Ok (VDict (triple (VInt 85) (VInt 72) (VInt 1))), world0).
Proof.
  exact (proj1 (pass_through_in_range python0 (no_keys false)
    (triple (VInt 85) (VFloat (float_of_decimal false 725 (-1))) (VBool true))
    (VInt 85) (VFloat (float_of_decimal false 725 (-1))) (VBool true) world0
    eq_refl eq_refl eq_refl eq_refl eq_refl eq_refl)).
Defined.

(** C10 at an input it does not cover: a score that is the float NaN is
    a number for [isinstance], and [int] of it raises out of the branch,
    which no [try] encloses. *)
Theorem pass_through_nan_raises rt cfg (w : World) :
  forallb (dict_has (triple (VFloat S754_nan) (VInt 1) (VInt 1))) Github.required_fields
  = true
  /\ Github.analyze_github rt cfg (triple (VFloat S754_nan) (VInt 1) (VInt 1)) w
     = (Raise ValueError, w)
  /\ Github.analyze_github rt cfg (triple (VInt 1) (VFloat (S754_infinity false)) (VInt 1)) w
     = (Raise OverflowError, w).
Proof. repeat split. Qed.

(** The rest of C10: whatever the configuration, three values that [int]
    accepts come back normalized, the other keys dropped, the state
    unchanged. *)
Lemma pass_through_normalizes rt cfg (d : dict) (vt vr va : PyVal) (w : World)
      (nt nr na : Z) :
  dict_get d "Technical_Skills" = Some vt ->
  dict_get d "Reputation" = Some vr ->
  dict_get d "Activity" = Some va ->
  normalized rt vt = Ok nt -> normalized rt vr = Ok nr -> normalized rt va = Ok na ->
  Github.analyze_github rt cfg d w
  = (Ok (VDict (triple (VInt nt) (VInt nr) (VInt na))), w)
  /\ 0 <= nt <= 100 /\ 0 <= nr <= 100 /\ 0 <= na <= 100.
Proof.
  intros H1 H2 H3 N1 N2 N3.
  rewrite (analyze_github_pass_through rt cfg d vt vr va w H1 H2 H3), N1, N2, N3.
  split; [reflexivity|].
  assert (B : forall v n, normalized rt v = Ok n -> 0 <= n <= 100).
  { intros v n. unfold normalized. destruct (is_number v).
    - intros H. apply rbind_ok in H as (k & _ & H). injection H as <-. apply clamp_range.
    - intros H. injection H as <-. lia. }
  repeat split; eapply B; eassumption.
Qed.

(** ** The score extractor *)

Lemma try_catch_pure {A} (r : Result A) (h : exn -> M A) (w : World) :
  try_catch (pure r) h w = match r with Ok a => (Ok a, w) | Raise e => h e w end.
Proof. unfold try_catch, pure. destruct r; reflexivity. Qed.

Definition is_dict (v : PyVal) : bool :=
  match v with VDict _ => true | _ => false end.

(** *** The first loop *)


(** *** The second loop *)

Lemma github_clamp_scores_other rt (f : str) (fs : list str) (r : PyVal) :
  is_dict r = false -> Github.clamp_scores rt (f :: fs) r = Raise TypeError.
Proof. destruct r; simpl; intros H; try discriminate; reflexivity. Qed.

Lemma github_clamp_scores_dict rt (fs : list str) :
  forall (d : dict) (r : PyVal),
  Github.clamp_scores rt fs (VDict d) = Ok r ->
  exists d',
    r = VDict d'
    /\ (forall f, In f fs -> exists n, dict_get d' f = Some (VInt n) /\ 0 <= n <= 100)
    /\ (forall k, ~ In k fs -> dict_get d' k = dict_get d k).
Proof.
  induction fs as [|f fs IH]; intros d r H.
  - simpl in H. injection H as <-. exists d.
    split; [reflexivity|]. split; [intros f []|reflexivity].
  - cbn [Github.clamp_scores] in H.
    apply rbind_ok in H as (v & Hv & H).
    apply rbind_ok in H as (r1 & Hr1 & H).
    assert (D1 : exists d1, r1 = VDict d1
                            /\ forall k, k <> f -> dict_get d1 k = dict_get d k).
    { destruct v; try (injection Hr1 as <-; exists d; split; [reflexivity|auto]).
      apply rbind_ok in Hr1 as (n0 & _ & Hr1). simpl in Hr1. injection Hr1 as <-.
      eexists. split; [reflexivity|]. intros k Hk. now apply dict_get_set_other. }
    destruct D1 as (d1 & -> & F1).
    apply rbind_ok in H as (v' & Hv' & H).
    apply rbind_ok in H as (n & Hn & H).
    apply rbind_ok in H as (r2 & Hr2 & H).
    simpl in Hr2. injection Hr2 as <-.
    apply IH in H as (d' & -> & P & Q).
    exists d'. split; [reflexivity|]. split.
    + intros g Hg. destruct (in_dec str_eq_dec g fs) as [Hin|Hnin]; [auto|].
      destruct Hg as [<-|Hg]; [|contradiction].
      rewrite (Q f Hnin), dict_get_set_same.
      eexists. split; [reflexivity|lia].
    + intros k Hk. rewrite Q by (intros Hin; apply Hk; now right).
      assert (k <> f) by (intros ->; apply Hk; now left).
      rewrite dict_get_set_other by assumption. auto.
Qed.


(** What the GitHub extractor returns for any text and any runtime: a
    map whose three scores are ints in [0,100]; no provider is called. *)
Lemma github_scores_in_range rt (text : str) (w : World) :
  exists d w',
    Github.process_llm_response rt text w = (Ok (VDict d), w')
    /\ calls w' = calls w
    /\ forall f, In f Github.required_fields ->
                 exists n, dict_get d f = Some (VInt n) /\ 0 <= n <= 100.
Proof.
  unfold Github.process_llm_response. rewrite try_catch_pure.
  match goal with |- context [match ?X with Ok _ => _ | Raise _ => _ end] =>
    destruct X as [r|e] eqn:E end.
  - apply rbind_ok in E as (r0 & _ & E).
    apply rbind_ok in E as (r1 & Hfill & Hclamp).
    destruct (is_dict r1) eqn:D1.
    + destruct r1; try discriminate.
      apply github_clamp_scores_dict in Hclamp as (d' & -> & P & _).
      exists d', w. auto.
    + unfold Github.required_fields in Hclamp.
      rewrite github_clamp_scores_other in Hclamp by assumption. discriminate.
  - destruct (get_mock_github_score_spec w) as (t & r & a & w' & Hm & Hc & Bt & Br & Ba).
    rewrite Hm. eexists. exists w'. split; [reflexivity|]. split; [exact Hc|].
    intros f [<-|[<-|[<-|[]]]]; eexists; (split; [reflexivity|lia]).
Qed.

(** *** The search for an object between braces *)

Definition not_char (x : N) (c : N) : bool := negb (N.eqb c x).

(** the continuation of the pattern after the greedy group *)
Definition close_brace (g : str) : str -> option str :=
  lit "}" (fun _ => Some (of_string "{" ++ g ++ of_string "}")%list).

Lemma lit_char {A} (x c : N) (k : str -> option A) (t : str) :
  lit [x] k (c :: t) = if N.eqb x c then k t else None.
Proof. unfold lit. cbn [strip_prefix]. now destruct (N.eqb x c). Qed.

Lemma close_brace_eq (g : str) :
  close_brace g = lit [125%N] (fun _ => Some (123%N :: g ++ [125%N])%list).
Proof. reflexivity. Qed.

Lemma group_any_no_close (t : str) :
  forall seen, forallb (not_char 125) t = true -> group_any close_brace seen t = None.
Proof.
  induction t as [|c t IH]; intros seen H.
  - reflexivity.
  - cbn [forallb] in H. apply andb_true_iff in H as [Hc Ht].
    cbn [group_any]. rewrite (IH _ Ht), close_brace_eq, lit_char.
    unfold not_char in Hc. rewrite N.eqb_sym.
    now destruct (c =? 125)%N.
Qed.

Lemma group_any_to_last_close (body tail : str) :
  forallb (not_char 125) tail = true ->
  forall seen,
    group_any close_brace seen (body ++ 125%N :: tail)
    = Some (123%N :: rev seen ++ body ++ [125%N])%list.
Proof.
  intros Ht. induction body as [|c body IH]; intros seen.
  - cbn [app group_any].
    rewrite (group_any_no_close tail _ Ht), close_brace_eq, lit_char.
    reflexivity.
  - cbn [app group_any]. rewrite IH. cbn [rev]. now rewrite <- app_assoc.
Qed.

Lemma search_json_object_found (head body tail : str) :
  forallb (not_char 123) head = true ->
  forallb (not_char 125) tail = true ->
  search_json_object (head ++ 123%N :: body ++ 125%N :: tail)
  = Some (123%N :: body ++ [125%N])%list.
Proof.
  intros Hh Ht. unfold search_json_object.
  change (fun g : str => lit "}" (fun _ : str => Some (of_string "{" ++ g ++ of_string "}")%list))
    with close_brace.
  change (of_string "{") with [123%N].
  induction head as [|c head IH].
  - cbn [app search]. rewrite lit_char, N.eqb_refl.
    match goal with
    | |- match ?X with Some _ => _ | None => _ end = _ =>
        assert (E : X = Some (123%N :: body ++ [125%N]))
          by apply (group_any_to_last_close body tail Ht [])
    end.
    now rewrite E.
  - cbn [forallb] in Hh. apply andb_true_iff in Hh as [Hc Hh].
    cbn [app search]. rewrite lit_char. unfold not_char in Hc. rewrite N.eqb_sym.
    destruct (c =? 123)%N; [discriminate|]. now apply IH.
Qed.


(** the text of an object: the members between two braces *)
Definition braces (body : str) : str := (123%N :: body ++ [125%N])%list.


(** a key or a string of a JSON text *)
Definition quoted (s : string) : str := (dq ++ of_string s ++ dq)%list.



(** C3 at an input where the resume extractor leaves a score that is not
    an int: a fractional score within [0,100] stays as it is, because the
    resume variant clamps with [max] and [min] only, where the GitHub
    variant goes through [int] first. *)
Theorem resume_score_not_int dumps chat (w : World) :
  Resume.process_llm_response (python dumps chat)
    (braces (quoted "Technical_Skills" ++ of_string ": 75.5, " ++ quoted "Reputation"
             ++ of_string ": 80, " ++ quoted "Activity" ++ of_string ": 65")%list) w
  = (Ok (VDict [(of_string "Technical_Skills", VFloat (float_of_decimal false 755 (-1)));
                (of_string "Reputation", VInt 80);
                (of_string "Activity", VInt 65);
                (of_string "summary", VStr "Resume analysis incomplete");
                (of_string "keywords", VList [])]), w)
  /\ Github.process_llm_response (python dumps chat)
       (braces (quoted "Technical_Skills" ++ of_string ": 75.5, " ++ quoted "Reputation"
                ++ of_string ": 80, " ++ quoted "Activity" ++ of_string ": 65")%list) w
     = (Ok (VDict (triple (VInt 75) (VInt 80) (VInt 65))), w).
Proof. split; vm_compute; reflexivity. Qed.

(** *** The resume variant *)

Lemma resume_fill_missing_dict (fs : list str) :
  forall d : dict,
  exists d',
    Resume.fill_missing fs (VDict d) = Ok (VDict d')
    /\ forall k, dict_get d' k
                 = match dict_get d k with
                   | Some v => Some v
                   | None => if existsb (str_eqb k) fs then Resume.default_for k else None
                   end.
Proof.
  induction fs as [|f fs IH]; intros d.
  - exists d. split; [reflexivity|]. intros k. simpl. now destruct (dict_get d k).
  - cbn [Resume.fill_missing py_contains]. rewrite rbind_ret.
    unfold dict_has. destruct (dict_get d f) as [vf|] eqn:Hf; cbn [negb].
    + rewrite rbind_ret. destruct (IH d) as (d' & E & P). exists d'.
      split; [exact E|]. intros k. rewrite P. cbn [existsb].
      destruct (dict_get d k) eqn:Hk; [reflexivity|].
      destruct (str_eqb k f) eqn:Ekf; [|reflexivity].
      apply str_eqb_eq in Ekf. subst k. congruence.
    + destruct (Resume.default_for f) as [v|] eqn:Df.
      * cbn [py_setitem]. rewrite rbind_ret.
        destruct (IH (dict_set d f v)) as (d' & E & P). exists d'.
        split; [exact E|]. intros k. rewrite P. cbn [existsb].
        destruct (str_eqb k f) eqn:Ekf.
        -- apply str_eqb_eq in Ekf. subst k.
           rewrite dict_get_set_same, Hf. cbn [orb]. now rewrite Df.
        -- apply str_eqb_neq in Ekf. now rewrite dict_get_set_other.
      * rewrite rbind_ret. destruct (IH d) as (d' & E & P). exists d'.
        split; [exact E|]. intros k. rewrite P. cbn [existsb].
        destruct (dict_get d k) eqn:Hk; [reflexivity|].
        destruct (str_eqb k f) eqn:Ekf; [|reflexivity].
        apply str_eqb_eq in Ekf. subst k. cbn [orb]. rewrite Df.
        now destruct (existsb (str_eqb f) fs).
Qed.

Lemma resume_fill_missing_other (fs : list str) (r r' : PyVal) :
  is_dict r = false -> Resume.fill_missing fs r = Ok r' -> r' = r.
Proof.
  intros Hr. induction fs as [|f fs IH]; simpl; intros H.
  - now injection H as <-.
  - apply rbind_ok in H as (present & Hp & H).
    apply rbind_ok in H as (r1 & H1 & H).
    destruct present; simpl in H1.
    + injection H1 as <-. auto.
    + destruct (Resume.default_for f).
      * destruct r; simpl in *; discriminate.
      * injection H1 as <-. auto.
Qed.

Lemma resume_clamp_scores_other rt (f : str) (fs : list str) (r : PyVal) :
  is_dict r = false -> Resume.clamp_scores rt (f :: fs) r = Raise TypeError.
Proof. destruct r; simpl; intros H; try discriminate; reflexivity. Qed.

Lemma resume_clamp_scores_dict rt (fs : list str) :
  forall (d : dict) (r : PyVal),
  Resume.clamp_scores rt fs (VDict d) = Ok r ->
  exists d', r = VDict d' /\ forall k, ~ In k fs -> dict_get d' k = dict_get d k.
Proof.
  induction fs as [|f fs IH]; intros d r H.
  - simpl in H. injection H as <-. exists d. split; reflexivity.
  - cbn [Resume.clamp_scores] in H.
    apply rbind_ok in H as (v & Hv & H).
    apply rbind_ok in H as (r1 & Hr1 & H).
    assert (D1 : exists d1, r1 = VDict d1
                            /\ forall k, k <> f -> dict_get d1 k = dict_get d k).
    { destruct v; try (injection Hr1 as <-; exists d; split; [reflexivity|auto]).
      apply rbind_ok in Hr1 as (n0 & _ & Hr1). simpl in Hr1. injection Hr1 as <-.
      eexists. split; [reflexivity|]. intros k Hk. now apply dict_get_set_other. }
    destruct D1 as (d1 & -> & F1).
    apply rbind_ok in H as (v' & Hv' & H).
    apply rbind_ok in H as (low & Hlow & H).
    apply rbind_ok in H as (high & Hhigh & H).
    apply rbind_ok in H as (r2 & Hr2 & H).
    simpl in Hr2. injection Hr2 as <-.
    apply IH in H as (d' & -> & Q).
    exists d'. split; [reflexivity|].
    intros k Hk. rewrite Q by (intros Hin; apply Hk; now right).
    assert (k <> f) by (intros ->; apply Hk; now left).
    rewrite dict_get_set_other by assumption. auto.
Qed.

(** what the resume variant leaves in a score field: an int in [0,100],
    a float strictly between 0 and 100, or [True] *)
Definition within_bounds (v : PyVal) : bool :=
  match v with
  | VInt z => (0 <=? z) && (z <=? 100)
  | VBool b => b
  | VFloat f =>
      match cmp_float_int f 0, cmp_float_int f 100 with
      | Some Gt, Some Lt => true
      | _, _ => false
      end
  | _ => false
  end.

Lemma min_max_within_bounds (v low high : PyVal) :
  py_min_int 100 v = Ok low -> py_max_int 0 low = Ok high -> within_bounds high = true.
Proof.
  unfold py_min_int, py_max_int. intros Hl Hh.
  apply rbind_ok in Hl as (b & Hb & Hl). injection Hl as <-.
  apply rbind_ok in Hh as (c & Hc & Hh). injection Hh as <-.
  destruct v as [|x|z|f|s|l|d]; try discriminate; simpl in Hb; injection Hb as <-.
  - destruct x; simpl in *; injection Hc as <-; reflexivity.
  - destruct (z <? 100) eqn:E; simpl in Hc; injection Hc as <-.
    + destruct (0 <? z) eqn:E0; simpl; [|reflexivity].
      apply Z.ltb_lt in E, E0. apply andb_true_iff. split; apply Z.leb_le; lia.
    + reflexivity.
  - destruct (cmp_float_int f 100) as [[| |]|] eqn:E; simpl in Hc; injection Hc as <-;
      try reflexivity.
    destruct (cmp_float_int f 0) as [[| |]|] eqn:E0; simpl; try reflexivity.
    now rewrite E0, E.
Qed.

(** What the resume extractor returns for any text and any runtime: a
    map whose three scores are within bounds; they need not be ints. *)
Lemma resume_clamp_scores_bounds rt (fs : list str) :
  forall (d : dict) (r : PyVal),
  Resume.clamp_scores rt fs (VDict d) = Ok r ->
  exists d',
    r = VDict d'
    /\ (forall f, In f fs -> exists v, dict_get d' f = Some v /\ within_bounds v = true).
Proof.
  induction fs as [|f fs IH]; intros d r H.
  - simpl in H. injection H as <-. exists d. split; [reflexivity|intros f []].
  - pose proof H as H0. apply resume_clamp_scores_dict in H0 as (d' & -> & Q).
    exists d'. split; [reflexivity|].
    cbn [Resume.clamp_scores] in H.
    apply rbind_ok in H as (v & Hv & H).
    apply rbind_ok in H as (r1 & Hr1 & H).
    assert (D1 : exists d1, r1 = VDict d1).
    { destruct v; try (injection Hr1 as <-; eauto).
      apply rbind_ok in Hr1 as (n0 & _ & Hr1). simpl in Hr1. injection Hr1 as <-. eauto. }
    destruct D1 as (d1 & ->).
    apply rbind_ok in H as (v' & Hv' & H).
    apply rbind_ok in H as (low & Hlow & H).
    apply rbind_ok in H as (high & Hhigh & H).
    apply rbind_ok in H as (r2 & Hr2 & H).
    simpl in Hr2. injection Hr2 as <-.
    pose proof H as H1. apply resume_clamp_scores_dict in H1 as (d2 & E2 & Q2).
    injection E2 as <-.
    apply IH in H as (d3 & E3 & P). injection E3 as <-.
    intros g Hg. destruct (in_dec str_eq_dec g fs) as [Hin|Hnin]; [auto|].
    destruct Hg as [<-|Hg]; [|contradiction].
    rewrite (Q2 f Hnin), dict_get_set_same.
    exists high. split; [reflexivity|].
    exact (min_max_within_bounds _ _ _ Hlow Hhigh).
Qed.

Lemma score_match_other rt (m : option str) (f k : str) (r r' : dict) :
  score_match rt m f r = Ok r' -> k <> f -> dict_get r' k = dict_get r k.
Proof.
  unfold score_match. destruct m as [g|]; intros H Hk.
  - apply rbind_ok in H as (n & _ & H). injection H as <-.
    now apply dict_get_set_other.
  - now injection H as <-.
Qed.

(** C9, as it holds: for any text and any runtime the resume extractor
    returns a map that has the field [keywords], and calls no provider;
    the field is the empty list when the forgiving extraction finds no
    bracketed list, and when the parsed object has no such field. *)
Theorem keywords_always_present rt (text : str) (w : World) :
  (exists d w',
     Resume.process_llm_response rt text w = (Ok (VDict d), w')
     /\ calls w' = calls w
     /\ dict_has d "keywords" = true)
  /\ (forall r, Resume.extract_values_from_text rt text = Ok (VDict r) ->
                Resume.keywords_match text = None ->
                dict_get r "keywords" = Some (VList []))
  /\ (forall d0, dict_get d0 "keywords" = None ->
        exists d1, Resume.fill_missing Resume.required_fields (VDict d0) = Ok (VDict d1)
                   /\ dict_get d1 "keywords" = Some (VList [])).
Proof.
  split; [|split].
  - unfold Resume.process_llm_response. rewrite try_catch_pure.
    match goal with |- context [match ?X with Ok _ => _ | Raise _ => _ end] =>
      destruct X as [r|e] eqn:E end.
    + apply rbind_ok in E as (r0 & _ & E).
      apply rbind_ok in E as (r1 & Hfill & Hclamp).
      destruct (is_dict r1) eqn:D1.
      * destruct r1 as [| | | | | |d1]; try discriminate.
        destruct (is_dict r0) eqn:D0.
        -- destruct r0 as [| | | | | |d0]; try discriminate.
           destruct (resume_fill_missing_dict Resume.required_fields d0) as (d1' & E1 & P).
           rewrite E1 in Hfill. injection Hfill as <-.
           apply resume_clamp_scores_dict in Hclamp as (d' & -> & Q).
           exists d', w. split; [reflexivity|]. split; [reflexivity|].
           unfold dict_has. rewrite Q by (intros [H|[H|[H|[]]]]; discriminate).
           rewrite P. now destruct (dict_get d0 "keywords").
        -- apply resume_fill_missing_other in Hfill; [|exact D0]. subst r0. discriminate.
      * unfold Resume.score_fields in Hclamp.
        rewrite resume_clamp_scores_other in Hclamp by assumption. discriminate.
    + destruct (get_mock_resume_score_spec w)
        as (t & r & a & s & k & w' & Hm & Hc & _).
      rewrite Hm. eexists. exists w'. split; [reflexivity|]. split; [exact Hc|reflexivity].
  - intros r H Hk. unfold Resume.extract_values_from_text in H. rewrite Hk in H.
    apply rbind_ok in H as (r1 & H1 & H).
    apply rbind_ok in H as (r2 & H2 & H).
    apply rbind_ok in H as (r3 & H3 & H).
    injection H as <-.
    assert (K3 : dict_get r3 "keywords" = Some (VList [])).
    { rewrite (score_match_other _ _ _ _ _ _ H3) by discriminate.
      rewrite (score_match_other _ _ _ _ _ _ H2) by discriminate.
      rewrite (score_match_other _ _ _ _ _ _ H1) by discriminate.
      reflexivity. }
    destruct (Resume.summary_match text); [|exact K3].
    rewrite dict_get_set_other by discriminate. exact K3.
  - intros d0 H0.
    destruct (resume_fill_missing_dict Resume.required_fields d0) as (d1 & E1 & P).
    exists d1. split; [exact E1|]. rewrite P, H0. reflexivity.
Qed.

(** the field of a returned map *)
Definition result_field (r : Result PyVal * World) (k : str) : option PyVal :=
  match fst r with
  | Ok (VDict d) => dict_get d k
  | _ => None
  end.

(** C9, as stated, fails: nothing bounds the keywords.  Six quoted tokens
    in a text that is not JSON are all kept, and a parsed object keeps the
    value it has, which need not be a sequence. *)
Lemma keywords_not_bounded :
  result_field
    (Resume.process_llm_response python0
       "keywords: ['a', 'b', 'c', 'd', 'e', 'f']" world0) "keywords"
  = Some (VList [VStr "a"; VStr "b"; VStr "c"; VStr "d"; VStr "e"; VStr "f"])
  /\ result_field
       (Resume.process_llm_response python0
          (braces (quoted "keywords" ++ of_string ": 7")) world0) "keywords"
     = Some (VInt 7).
Proof. split; vm_compute; reflexivity. Qed.

(** * Further properties *)

(** ** The mock fallback source, in full *)


Definition after_draws (w : World) (n : nat) : World :=
  {| entropy := entropy w; draws := (draws w + n)%nat; calls := calls w |}.

Lemma randint_draw (a b : Z) (w : World) :
  a <= b ->
  exists z, MockData.randint a b w = (Ok z, after_draws w 1) /\ a <= z <= b.
Proof.
  intros Hab. destruct (randint_spec a b w Hab) as (z & E & B).
  exists z. split; [|exact B]. rewrite E. unfold after_draws.
  now rewrite Nat.add_1_r.
Qed.

Lemma after_draws_add (w : World) (n m : nat) :
  after_draws (after_draws w n) m = after_draws w (n + m).
Proof. unfold after_draws. simpl. now rewrite Nat.add_assoc. Qed.

(** X1: the GitHub mock is a map of exactly the three score fields, each
    an int in its own range; it takes three draws from the generator and
    calls no provider. *)
Theorem mock_github_score_shape (w : World) :
  exists t r a,
    MockData.get_mock_github_score w
    = (Ok (VDict [(of_string "Technical_Skills", VInt t);
                  (of_string "Reputation", VInt r);
                  (of_string "Activity", VInt a)]), after_draws w 3)
    /\ 65 <= t <= 95 /\ 60 <= r <= 90 /\ 70 <= a <= 95.
Proof.
  unfold MockData.get_mock_github_score.
  destruct (randint_draw 65 95 w) as (t & Ht & Bt); [lia|].
  destruct (randint_draw 60 90 (after_draws w 1)) as (r & Hr & Br); [lia|].
  destruct (randint_draw 70 95 (after_draws (after_draws w 1) 1)) as (a & Ha & Ba); [lia|].
  exists t, r, a. split; [|auto].
  unfold bind at 1. rewrite Ht. unfold bind at 1. rewrite Hr.
  unfold bind at 1. rewrite Ha. unfold ret. now rewrite !after_draws_add.
Qed.

Lemma firstn_snoc_perm {A} (d : A) (l : list A) (m : nat) :
  (m < List.length l)%nat -> Permutation (firstn (S m) l) (nth m l d :: firstn m l).
Proof.
  revert m. induction l as [|h l IH]; intros m Hm; simpl in Hm; [lia|].
  destruct m as [|m]; [destruct l; simpl; apply Permutation_refl|].
  change (firstn (S (S m)) (h :: l)) with (h :: firstn (S m) l).
  change (nth (S m) (h :: l) d) with (nth m l d).
  change (firstn (S m) (h :: l)) with (h :: firstn m l).
  rewrite (IH m) by lia. apply perm_swap.
Qed.

(** one step of the sampling loop: the element drawn, together with the
    part of the new pool still in play, is the part that was in play *)
Lemma sample_step_perm {A} (d : A) (pool : list A) :
  forall j n : nat,
  (j < n)%nat -> (n <= List.length pool)%nat ->
  Permutation (firstn n pool)
    (nth j pool d :: firstn (n - 1) (MockData.list_set pool j (nth (n - 1) pool d))).
Proof.
  induction pool as [|h t IH]; intros j n Hj Hn; simpl in Hn; [lia|].
  destruct n as [|n]; [lia|]. replace (S n - 1)%nat with n by lia.
  destruct j as [|j].
  - cbn [nth MockData.list_set]. cbn [firstn]. apply perm_skip.
    destruct n as [|n]; [apply Permutation_refl|].
    cbn [nth firstn]. apply firstn_snoc_perm. lia.
  - destruct n as [|n]; [lia|].
    cbn [nth MockData.list_set firstn].
    specialize (IH j (S n) ltac:(lia) ltac:(lia)).
    replace (S n - 1)%nat with n in IH by lia.
    rewrite IH. apply perm_swap.
Qed.

Lemma randbelow_range (n : nat) (w : World) :
  (0 < n)%nat ->
  exists j, MockData.randbelow (Z.of_nat n) w = (Ok (Z.of_nat j), after_draws w 1)
            /\ (j < n)%nat.
Proof.
  intros Hn. unfold MockData.randbelow.
  pose proof (Z.mod_pos_bound (Z.of_N (entropy w (draws w))) (Z.of_nat n) ltac:(lia)) as B.
  exists (Z.to_nat (Z.of_N (entropy w (draws w)) mod Z.of_nat n)).
  rewrite Z2Nat.id by lia. split; [|lia].
  unfold after_draws. now rewrite Nat.add_1_r.
Qed.

Lemma sample_loop_distinct (k : nat) :
  forall (pool : list str) (n : nat) (w : World),
  (k <= n)%nat -> (n <= List.length pool)%nat -> NoDup (firstn n pool) ->
  exists l,
    MockData.sample_loop pool n k w = (Ok l, after_draws w k)
    /\ List.length l = k /\ NoDup l /\ incl l (firstn n pool).
Proof.
  induction k as [|k IH]; intros pool n w Hk Hn Hnd.
  - exists []. unfold after_draws. rewrite Nat.add_0_r. destruct w.
    repeat split; [constructor|intros x []].
  - destruct (randbelow_range n w ltac:(lia)) as (j & Hj & Bj).
    cbn [MockData.sample_loop]. unfold bind at 1. rewrite Hj, Nat2Z.id.
    pose proof (sample_step_perm [] pool j n Bj Hn) as P.
    set (pool' := MockData.list_set pool j (nth (n - 1) pool [])) in *.
    assert (Hlen : List.length pool' = List.length pool).
    { subst pool'. clear. generalize (nth (n - 1) pool []). intros y.
      revert j. induction pool as [|h t IHt]; intros [|j]; simpl; auto. }
    pose proof (Permutation_NoDup P Hnd) as Hnd'.
    apply NoDup_cons_iff in Hnd' as [Hx Hrest].
    destruct (IH pool' (n - 1)%nat (after_draws w 1) ltac:(lia) ltac:(lia) Hrest)
      as (l & El & Ll & Nl & Il).
    unfold bind at 1. rewrite El. unfold ret.
    exists (nth j pool [] :: l). rewrite after_draws_add.
    split; [reflexivity|]. split; [simpl; lia|]. split.
    + constructor; [|exact Nl]. intros Hin. apply Hx, Il, Hin.
    + intros x [<-|Hin].
      * apply (Permutation_in _ (Permutation_sym P)). now left.
      * apply (Permutation_in _ (Permutation_sym P)). right. now apply Il.
Qed.

Lemma skills_distinct : NoDup MockData.skills.
Proof.
  unfold MockData.skills.
  repeat (constructor;
          [simpl; intros H;
           repeat (destruct H as [H|H]; [discriminate H|]); exact H|]).
  constructor.
Qed.

(** X2: the resume mock is a map of exactly the five fields: three int
    scores in their ranges, a summary, and between three and five
    keywords, which are distinct skills of the fixed list; it calls no
    provider and takes five draws and one more for each keyword. *)
Theorem mock_resume_score_shape (w : World) :
  exists t r a summary keywords,
    MockData.get_mock_resume_score w
    = (Ok (VDict [(of_string "Technical_Skills", VInt t);
                  (of_string "Reputation", VInt r);
                  (of_string "Activity", VInt a);
                  (of_string "summary", VStr summary);
                  (of_string "keywords", VList (List.map VStr keywords))]),
       after_draws w (5 + List.length keywords))
    /\ 70 <= t <= 90 /\ 65 <= r <= 85 /\ 70 <= a <= 90
    /\ (3 <= List.length keywords <= 5)%nat
    /\ NoDup keywords
    /\ incl keywords MockData.skills
    /\ exists years,
         2 <= years <= 8
         /\ summary = of_string "Experienced developer with "
                      ++ MockData.str_of_int years ++ of_string " years in "
                      ++ MockData.join (of_string ", ") (firstn 2 keywords).
Proof.
  unfold MockData.get_mock_resume_score.
  destruct (randint_draw 3 5 w) as (k & Hk & Bk); [lia|].
  unfold bind at 1. rewrite Hk. unfold MockData.sample.
  destruct (sample_loop_distinct (Z.to_nat k) MockData.skills
              (List.length MockData.skills) (after_draws w 1))
    as (l & El & Ll & Nl & Il).
  { simpl. lia. } { lia. } { rewrite firstn_all. apply skills_distinct. }
  rewrite firstn_all in Il.
  unfold bind at 1. rewrite El, after_draws_add.
  match goal with |- context [bind (MockData.randint 2 8) _ ?w1] =>
    destruct (randint_draw 2 8 w1) as (y & Hy & By); [lia|] end.
  unfold bind at 1. rewrite Hy, after_draws_add.
  match goal with |- context [bind (MockData.randint 70 90) _ ?w1] =>
    destruct (randint_draw 70 90 w1) as (t & Ht & Bt); [lia|] end.
  unfold bind at 1. rewrite Ht, after_draws_add.
  match goal with |- context [bind (MockData.randint 65 85) _ ?w1] =>
    destruct (randint_draw 65 85 w1) as (r & Hr & Br); [lia|] end.
  unfold bind at 1. rewrite Hr, after_draws_add.
  match goal with |- context [bind (MockData.randint 70 90) _ ?w1] =>
    destruct (randint_draw 70 90 w1) as (a & Ha & Ba); [lia|] end.
  unfold bind at 1. rewrite Ha, after_draws_add.
  exists t, r, a. eexists. exists l. unfold ret.
  split.
  - f_equal. unfold after_draws. f_equal. lia.
  - repeat (split; [first [lia | assumption]|]).
    exists y. split; [lia|reflexivity].
Qed.

(** ** The brace search, in full *)

Lemma search_json_object_eq (text : str) :
  search_json_object text = search (lit [123%N] (group_any close_brace [])) text.
Proof. reflexivity. Qed.

Lemma search_open_no_close (t : str) :
  forallb (not_char 125) t = true ->
  search (lit [123%N] (group_any close_brace [])) t = None.
Proof.
  induction t as [|c t IH]; intros H; [reflexivity|].
  pose proof H as H0. cbn [forallb] in H0. apply andb_true_iff in H0 as [_ Ht].
  cbn [search]. rewrite lit_char.
  assert (E : group_any close_brace [] t = None) by now apply group_any_no_close.
  destruct (123 =? c)%N; [rewrite E|]; now apply IH.
Qed.

Lemma search_no_open {A} (k : str -> option A) (t : str) :
  forallb (not_char 123) t = true -> search (lit [123%N] k) t = None.
Proof.
  induction t as [|c t IH]; intros H; [reflexivity|].
  cbn [forallb] in H. apply andb_true_iff in H as [Hc Ht].
  cbn [search]. rewrite lit_char. unfold not_char in Hc. rewrite N.eqb_sym.
  destruct (c =? 123)%N; [discriminate|]. now apply IH.
Qed.

(** X3: the brace search answers the text from the first opening brace
    to the last closing brace, and nothing when no closing brace follows
    the first opening one or when there is no opening brace at all. *)
Theorem brace_search_first_to_last :
  (forall head body tail : str,
      forallb (not_char 123) head = true -> forallb (not_char 125) tail = true ->
      search_json_object (head ++ 123%N :: body ++ 125%N :: tail)
      = Some (123%N :: body ++ [125%N]))
  /\ (forall head rest : str,
      forallb (not_char 123) head = true -> forallb (not_char 125) rest = true ->
      search_json_object (head ++ 123%N :: rest) = None)
  /\ (forall text : str,
      forallb (not_char 123) text = true -> search_json_object text = None).
Proof.
  split; [|split].
  - intros head body tail Hh Ht. now apply search_json_object_found.
  - intros head rest Hh Hr. rewrite search_json_object_eq.
    induction head as [|c head IH].
    + cbn [app search]. rewrite lit_char, N.eqb_refl.
      assert (E : group_any close_brace [] rest = None) by now apply group_any_no_close.
      rewrite E. now apply search_open_no_close.
    + cbn [forallb] in Hh. apply andb_true_iff in Hh as [Hc Hh].
      cbn [app search]. rewrite lit_char. unfold not_char in Hc. rewrite N.eqb_sym.
      destruct (c =? 123)%N; [discriminate|]. now apply IH.
  - intros text H. rewrite search_json_object_eq. now apply search_no_open.
Qed.

(** ** The forgiving extraction *)

Lemma search_lit_absent {A} (p : str) (k : str -> option A) (t : str) :
  is_substring p t = false -> search (lit p k) t = None.
Proof.
  induction t as [|c t IH]; cbn [is_substring search]; unfold lit.
  - destruct (strip_prefix p []); [discriminate|reflexivity].
  - destruct (strip_prefix p (c :: t)); [discriminate|]. exact IH.
Qed.

(** X4: a text in which no score name occurs is extracted as the
    defaults: 50 for each score and, in the resume variant, the fixed
    summary and no keyword when these two names do not occur either. *)
Theorem extraction_defaults rt (text : str) :
  is_substring "Technical" text = false ->
  is_substring "Reputation" text = false ->
  is_substring "Activity" text = false ->
  Github.extract_values_from_text rt text
  = Ok (VDict [(of_string "Technical_Skills", VInt 50);
               (of_string "Reputation", VInt 50);
               (of_string "Activity", VInt 50)])
  /\ (is_substring "summary" text = false ->
      is_substring "keywords" text = false ->
      Resume.extract_values_from_text rt text
      = Ok (VDict [(of_string "Technical_Skills", VInt 50);
                   (of_string "Reputation", VInt 50);
                   (of_string "Activity", VInt 50);
                   (of_string "summary", VStr "Extracted from non-JSON response");
                   (of_string "keywords", VList [])])).
Proof.
  intros HT HR HA.
  assert (ET : technical_match rt text = None) by (now apply search_lit_absent).
  assert (ER : reputation_match rt text = None) by (now apply search_lit_absent).
  assert (EA : activity_match rt text = None) by (now apply search_lit_absent).
  split.
  - unfold Github.extract_values_from_text. now rewrite ET, ER, EA.
  - intros HS HK.
    assert (ES : Resume.summary_match text = None) by (now apply search_lit_absent).
    assert (EK : Resume.keywords_match text = None) by (now apply search_lit_absent).
    unfold Resume.extract_values_from_text. now rewrite ET, ER, EA, ES, EK.
Qed.

Lemma extraction_defaults_witness :
  Github.extract_values_from_text python0 "I cannot rate this profile."
  = Ok (VDict [(of_string "Technical_Skills", VInt 50);
               (of_string "Reputation", VInt 50);
               (of_string "Activity", VInt 50)]).
Proof.
  exact (proj1 (extraction_defaults python0 "I cannot rate this profile."
                  eq_refl eq_refl eq_refl)).
Defined.

(** *** Quoted tokens *)

Lemma group_plus_inv {A} (cls : N -> bool) (k : str -> str -> option A) (t : str) :
  forall (seen : str) (a : A),
  group_plus cls k seen t = Some a ->
  exists g rest,
    g <> [] /\ forallb cls g = true /\ t = g ++ rest /\ k (rev seen ++ g) rest = Some a.
Proof.
  induction t as [|c t IH]; intros seen a H; [discriminate|].
  cbn [group_plus] in H. destruct (cls c) eqn:Hc; [|discriminate].
  destruct (group_plus cls k (c :: seen) t) as [a'|] eqn:E.
  - injection H as <-. apply IH in E as (g & rest & Hg & Hall & -> & Hk).
    exists (c :: g), rest. split; [discriminate|]. split; [simpl; now rewrite Hc|].
    split; [reflexivity|]. cbn [rev] in Hk. now rewrite <- app_assoc in Hk.
  - exists [c], t. split; [discriminate|]. split; [simpl; now rewrite Hc|].
    split; [reflexivity|]. exact H.
Qed.

Lemma one_inv {A} (cls : N -> bool) (k : str -> option A) (t : str) (a : A) :
  one cls k t = Some a -> exists c t', t = c :: t' /\ cls c = true /\ k t' = Some a.
Proof.
  destruct t as [|c t]; simpl; [discriminate|].
  destruct (cls c) eqn:E; [|discriminate]. eauto.
Qed.

Lemma findall_from_all (P : str -> Prop) (m : str -> option (str * str)) :
  (forall t g rest, m t = Some (g, rest) -> P g) ->
  forall (t : str) (skip : nat), Forall P (findall_from m skip t).
Proof.
  intros Hm. induction t as [|c t IH]; intros skip.
  - destruct skip; simpl; [|constructor].
    destruct (m []) as [[g rest]|] eqn:E; constructor; [|constructor].
    eapply Hm, E.
  - destruct skip as [|skip]; cbn [findall_from]; [|apply IH].
    destruct (m (c :: t)) as [[g rest]|] eqn:E; [|apply IH].
    constructor; [eapply Hm, E|apply IH].
Qed.

(** a token between quotes: not empty, and no quote inside *)
Definition plain_token (g : str) : Prop :=
  g <> [] /\ forallb Resume.not_quote g = true.

Lemma tokens_plain (text : str) :
  Forall plain_token (Resume.quoted_tokens text)
  /\ (forall g, Resume.summary_match text = Some g -> plain_token g).
Proof.
  split.
  - apply findall_from_all. intros t g rest H.
    apply one_inv in H as (c & t' & -> & _ & H).
    apply group_plus_inv in H as (g' & r & Hne & Hall & -> & H).
    apply one_inv in H as (c' & t'' & -> & _ & H). injection H as <- <-.
    split; assumption.
  - unfold Resume.summary_match.
    assert (S : forall (m : str -> option str) t g,
               (forall t', m t' = Some g -> plain_token g) ->
               search m t = Some g -> plain_token g).
    { intros m t g Hm. induction t as [|c t IH]; cbn [search]; intros H.
      - destruct (m []) eqn:E; [injection H as ->; eapply Hm, E|discriminate].
      - destruct (m (c :: t)) eqn:E; [injection H as ->; eapply Hm, E|auto]. }
    intros g H. apply S in H; [exact H|].
    clear H. intros t H. unfold lit in H.
    destruct (strip_prefix "summary" t) as [r|]; [|discriminate].
    assert (Pl : forall (k : str -> option str) u,
               (forall u', k u' = Some g -> plain_token g) ->
               plus is_sep k u = Some g -> plain_token g).
    { intros k u Hk. induction u as [|c u IH]; cbn [plus]; [discriminate|].
      destruct (is_sep c); [|discriminate].
      destruct (plus is_sep k u) eqn:E.
      - intros H1. injection H1 as ->. now apply IH.
      - apply Hk. }
    apply Pl in H; [exact H|]. clear H. intros u H.
    apply one_inv in H as (c & t' & -> & _ & H).
    apply group_plus_inv in H as (g' & r' & Hne & Hall & -> & H).
    apply one_inv in H as (c' & t'' & -> & _ & H). injection H as <-.
    split; assumption.
Qed.

(** X5: whatever the text, when the forgiving extraction of the resume
    variant returns, its keywords are a list of strings and its summary
    a string, each of them non-empty and without quote characters. *)
Theorem extraction_tokens_plain rt (text : str) (r : dict) :
  Resume.extract_values_from_text rt text = Ok (VDict r) ->
  exists summary keywords,
    dict_get r "summary" = Some (VStr summary)
    /\ dict_get r "keywords" = Some (VList (List.map VStr keywords))
    /\ plain_token summary
    /\ Forall plain_token keywords.
Proof.
  intros H. unfold Resume.extract_values_from_text in H.
  apply rbind_ok in H as (r1 & H1 & H).
  apply rbind_ok in H as (r2 & H2 & H).
  apply rbind_ok in H as (r3 & H3 & H).
  injection H as <-.
  assert (K3 : dict_get r3 "keywords" = Some (VList (List.map VStr []))).
  { rewrite (score_match_other _ _ _ _ _ _ H3) by discriminate.
    rewrite (score_match_other _ _ _ _ _ _ H2) by discriminate.
    rewrite (score_match_other _ _ _ _ _ _ H1) by discriminate.
    reflexivity. }
  assert (S3 : dict_get r3 "summary" = Some (VStr "Extracted from non-JSON response")).
  { rewrite (score_match_other _ _ _ _ _ _ H3) by discriminate.
    rewrite (score_match_other _ _ _ _ _ _ H2) by discriminate.
    rewrite (score_match_other _ _ _ _ _ _ H1) by discriminate.
    reflexivity. }
  destruct (tokens_plain text) as [PK PS].
  assert (S4 : exists summary,
             dict_get match Resume.summary_match text with
                      | Some g => dict_set r3 "summary" (VStr g)
                      | None => r3
                      end "summary" = Some (VStr summary)
             /\ plain_token summary).
  { destruct (Resume.summary_match text) as [g|] eqn:E.
    - exists g. rewrite dict_get_set_same. auto.
    - eexists. split; [exact S3|]. split; [discriminate|reflexivity]. }
  destruct S4 as (summary & S4 & PS4).
  assert (K4 : dict_get match Resume.summary_match text with
                        | Some g => dict_set r3 "summary" (VStr g)
                        | None => r3
                        end "keywords" = Some (VList (List.map VStr []))).
  { destruct (Resume.summary_match text); [|exact K3].
    rewrite dict_get_set_other by discriminate. exact K3. }
  destruct (Resume.keywords_match text) as [kt|].
  - exists summary, (Resume.quoted_tokens kt).
    rewrite dict_get_set_other by discriminate.
    rewrite dict_get_set_same. split; [exact S4|]. split; [reflexivity|].
    split; [exact PS4|]. apply tokens_plain.
  - exists summary, []. split; [exact S4|]. split; [exact K4|].
    split; [exact PS4|constructor].
Qed.

Lemma extraction_tokens_plain_witness :
  exists summary keywords,
    dict_get [(of_string "Technical_Skills", VInt 50); (of_string "Reputation", VInt 50);
              (of_string "Activity", VInt 50); (of_string "summary", VStr "so so");
              (of_string "keywords", VList [VStr "Go"; VStr "SQL"])] "summary"
    = Some (VStr summary)
    /\ dict_get [(of_string "Technical_Skills", VInt 50); (of_string "Reputation", VInt 50);
                 (of_string "Activity", VInt 50); (of_string "summary", VStr "so so");
                 (of_string "keywords", VList [VStr "Go"; VStr "SQL"])] "keywords"
       = Some (VList (List.map VStr keywords))
    /\ plain_token summary
    /\ Forall plain_token keywords.
Proof.
  exact (extraction_tokens_plain python0 "summary: 'so so', keywords: ['Go', 'SQL']" _
           eq_refl).
Defined.

(** *** Reading a number after a name *)

Definition ascii_digit (c : N) : bool := ((48 <=? c) && (c <=? 57))%N.

(** the value of a run of ASCII digits *)
Definition decimal_of (ds : str) : Z :=
  fold_left (fun acc c => 10 * acc + (Z.of_N c - 48)) ds 0.

(** the text at hand does not start with a character of the class *)
Definition head_not (cls : N -> bool) (t : str) : bool :=
  match t with
  | [] => true
  | c :: _ => negb (cls c)
  end.

Lemma strip_prefix_app (p t : str) : strip_prefix p (p ++ t) = Some t.
Proof. induction p as [|c p IH]; simpl; [reflexivity|]. now rewrite N.eqb_refl. Qed.

Lemma lit_app {A} (p : str) (k : str -> option A) (t : str) : lit p k (p ++ t) = k t.
Proof. unfold lit. now rewrite strip_prefix_app. Qed.

Lemma plus_head_not {A} (cls : N -> bool) (k : str -> option A) (t : str) :
  head_not cls t = true -> plus cls k t = None.
Proof. destruct t as [|c t]; simpl; [reflexivity|]. now destruct (cls c). Qed.

Lemma plus_all {A} (cls : N -> bool) (k : str -> option A) (seps t : str) (a : A) :
  seps <> [] -> forallb cls seps = true -> head_not cls t = true ->
  k t = Some a -> plus cls k (seps ++ t) = Some a.
Proof.
  intros Hne Hall Ht Hk. induction seps as [|c seps IH]; [contradiction|].
  cbn [forallb] in Hall. apply andb_true_iff in Hall as [Hc Hall].
  cbn [app plus]. rewrite Hc. destruct seps as [|c' seps].
  - cbn [app]. now rewrite plus_head_not.
  - rewrite IH; [reflexivity|discriminate|exact Hall].
Qed.

Lemma group_plus_head_not {A} (cls : N -> bool) (k : str -> str -> option A)
      (seen t : str) :
  head_not cls t = true -> group_plus cls k seen t = None.
Proof. destruct t as [|c t]; simpl; [reflexivity|]. now destruct (cls c). Qed.

Lemma group_plus_all {A} (cls : N -> bool) (k : str -> str -> option A)
      (ds t : str) (a : A) :
  forall seen,
  ds <> [] -> forallb cls ds = true -> head_not cls t = true ->
  k (rev seen ++ ds) t = Some a -> group_plus cls k seen (ds ++ t) = Some a.
Proof.
  induction ds as [|c ds IH]; intros seen Hne Hall Ht Hk; [contradiction|].
  cbn [forallb] in Hall. apply andb_true_iff in Hall as [Hc Hall].
  cbn [app group_plus]. rewrite Hc. destruct ds as [|c' ds].
  - cbn [app]. rewrite group_plus_head_not by assumption. exact Hk.
  - rewrite (IH (c :: seen)); [reflexivity|discriminate|exact Hall|exact Ht|].
    cbn [rev]. now rewrite <- app_assoc.
Qed.

Lemma search_skip {A} (c0 : N) (p : str) (k : str -> option A) (pre t : str) :
  forallb (not_char c0) pre = true ->
  search (lit (c0 :: p) k) (pre ++ t) = search (lit (c0 :: p) k) t.
Proof.
  intros H. induction pre as [|c pre IH]; [reflexivity|].
  cbn [forallb] in H. apply andb_true_iff in H as [Hc H].
  cbn [app search]. unfold lit at 1. cbn [strip_prefix].
  unfold not_char in Hc. rewrite N.eqb_sym.
  destruct (c =? c0)%N; [discriminate|]. now apply IH.
Qed.

Lemma search_here {A} (m : str -> option A) (t : str) (a : A) :
  m t = Some a -> search m t = Some a.
Proof. intros H. destruct t; simpl; now rewrite H. Qed.

(** decides each comparison of the goal from the bounds at hand *)
Ltac ncompare :=
  repeat match goal with
         | |- context [N.eqb ?a ?b] =>
             (replace (N.eqb a b) with false by (symmetry; apply N.eqb_neq; lia))
             || (replace (N.eqb a b) with true by (symmetry; apply N.eqb_eq; lia))
         | |- context [N.leb ?a ?b] =>
             (replace (N.leb a b) with true by (symmetry; apply N.leb_le; lia))
             || (replace (N.leb a b) with false by (symmetry; apply N.leb_gt; lia))
         end; reflexivity.

Lemma ascii_digit_not_sep (c : N) : ascii_digit c = true -> is_sep c = false.
Proof.
  unfold ascii_digit. intros H. apply andb_true_iff in H as [H1 H2].
  apply N.leb_le in H1, H2.
  unfold is_sep, is_dquote, is_space. ncompare.
Qed.

Lemma ascii_digit_not_int_space (c : N) : ascii_digit c = true -> is_int_space c = false.
Proof.
  unfold ascii_digit. intros H. apply andb_true_iff in H as [H1 H2].
  apply N.leb_le in H1, H2.
  unfold is_int_space, is_space. ncompare.
Qed.

(** The digit table of the runtime gives the ten ASCII digits their
    values; it may hold any other decimal digit besides. *)
Definition reads_ascii_digits rt : bool :=
  forallb (fun c => match decimal_value rt c with
                    | Some d => d =? Z.of_N c - 48
                    | None => false
                    end)
          (List.map N.of_nat (seq 48 10)).

(** the length of a run of digits is within the limit of [int] *)
Definition within_digit_limit rt (ds : str) : bool :=
  Nat.eqb (int_max_str_digits rt) 0 || Nat.leb (List.length ds) (int_max_str_digits rt).

Lemma decimal_value_ascii rt (c : N) :
  reads_ascii_digits rt = true -> ascii_digit c = true ->
  decimal_value rt c = Some (Z.of_N c - 48).
Proof.
  unfold reads_ascii_digits, ascii_digit. intros H Hc.
  apply andb_true_iff in Hc as [H1 H2]. apply N.leb_le in H1, H2.
  rewrite forallb_forall in H.
  assert (Hin : In c (List.map N.of_nat (seq 48 10))).
  { rewrite <- (N2Nat.id c). apply in_map, in_seq. lia. }
  specialize (H c Hin).
  destruct (decimal_value rt c) as [d|]; [|discriminate].
  apply Z.eqb_eq in H. now subst d.
Qed.

Lemma is_digit_ascii rt (c : N) :
  reads_ascii_digits rt = true -> ascii_digit c = true -> is_digit rt c = true.
Proof. intros H Hc. unfold is_digit. now rewrite (decimal_value_ascii rt c H Hc). Qed.

Lemma sep_digits_reads rt (seps ds rest : str) :
  reads_ascii_digits rt = true ->
  seps <> [] -> forallb is_sep seps = true ->
  ds <> [] -> forallb ascii_digit ds = true ->
  head_not (is_digit rt) rest = true ->
  sep_digits rt (seps ++ ds ++ rest) = Some ds.
Proof.
  intros Hrt Hs1 Hs2 Hd1 Hd2 Hr. unfold sep_digits.
  assert (Hd3 : forallb (is_digit rt) ds = true).
  { apply forallb_forall. intros c Hc. apply is_digit_ascii; [exact Hrt|].
    rewrite forallb_forall in Hd2. now apply Hd2. }
  apply plus_all; try assumption.
  - destruct ds as [|c ds]; [contradiction|]. cbn [app head_not].
    cbn [forallb] in Hd2. apply andb_true_iff in Hd2 as [Hc _].
    now rewrite ascii_digit_not_sep.
  - apply group_plus_all; try assumption. reflexivity.
Qed.

Lemma digits_value_ascii rt (ds : str) :
  reads_ascii_digits rt = true ->
  forallb ascii_digit ds = true ->
  forall acc count b,
    digits_value rt acc count b ds
    = match ds with
      | [] => if b then Some (acc, count) else None
      | _ => Some (fold_left (fun a c => 10 * a + (Z.of_N c - 48)) ds acc,
                   (count + List.length ds)%nat)
      end.
Proof.
  intros Hrt. induction ds as [|c ds IH]; intros H acc count b; [reflexivity|].
  cbn [forallb] in H. apply andb_true_iff in H as [Hc H].
  cbn [digits_value]. rewrite (decimal_value_ascii rt c Hrt Hc).
  rewrite (IH H). destruct ds as [|c' ds].
  - cbn [fold_left List.length]. now rewrite Nat.add_1_r.
  - cbn [fold_left List.length]. f_equal. f_equal. lia.
Qed.

Lemma drop_while_head (f : N -> bool) (t : str) :
  head_not f t = true -> drop_while f t = t.
Proof. destruct t as [|c t]; simpl; [reflexivity|]. now destruct (f c). Qed.

Lemma head_not_all (f g : N -> bool) (t : str) :
  (forall c, g c = true -> f c = false) -> forallb g t = true -> head_not f t = true.
Proof.
  intros Hfg. destruct t as [|c t]; simpl; [reflexivity|].
  intros H. apply andb_true_iff in H as [Hc _]. now rewrite (Hfg c Hc).
Qed.

Lemma strip_digits (ds : str) :
  forallb ascii_digit ds = true -> strip_by is_int_space ds = ds.
Proof.
  intros H. unfold strip_by.
  rewrite (drop_while_head _ ds)
    by (eapply head_not_all; [apply ascii_digit_not_int_space|exact H]).
  rewrite drop_while_head; [apply rev_involutive|].
  eapply head_not_all; [apply ascii_digit_not_int_space|].
  apply forallb_forall. intros c Hc. apply in_rev in Hc.
  rewrite forallb_forall in H. now apply H.
Qed.

Lemma no_sign (c : N) (t : str) :
  ascii_digit c = true ->
  match c :: t with
  | 43%N :: r => (false, r)
  | 45%N :: r => (true, r)
  | _ => (false, c :: t)
  end = (false, c :: t).
Proof.
  unfold ascii_digit. intros H. apply andb_true_iff in H as [H1 H2].
  apply N.leb_le in H1, H2.
  assert (N1 : c <> 43%N) by lia. assert (N2 : c <> 45%N) by lia. clear H1 H2.
  destruct c as [|p]; [reflexivity|].
  do 6 (destruct p as [p|p|]; try reflexivity).
  - exfalso. apply N1. reflexivity.
  - exfalso. apply N2. reflexivity.
Qed.

Lemma int_of_str_ascii rt (ds : str) :
  reads_ascii_digits rt = true ->
  ds <> [] -> forallb ascii_digit ds = true -> within_digit_limit rt ds = true ->
  int_of_str rt ds = Ok (decimal_of ds).
Proof.
  intros Hrt Hne Hall Hlen. unfold int_of_str. rewrite (strip_digits ds Hall).
  destruct ds as [|c ds]; [contradiction|].
  pose proof Hall as Hc. cbn [forallb] in Hc. apply andb_true_iff in Hc as [Hc _].
  cbv zeta.
  match goal with
  | |- match ?X with pair _ _ => _ end = _ =>
      replace X with (false, c :: ds) by (symmetry; exact (no_sign c ds Hc))
  end.
  rewrite (digits_value_ascii rt (c :: ds) Hrt Hall).
  unfold within_digit_limit in Hlen. rewrite Nat.add_0_l.
  destruct (Nat.eqb (int_max_str_digits rt) 0); [reflexivity|].
  cbn [orb] in Hlen. apply Nat.leb_le in Hlen.
  replace (int_max_str_digits rt <? List.length (c :: ds))%nat with false
    by (symmetry; apply Nat.ltb_ge; exact Hlen).
  reflexivity.
Qed.

Section Reading.
Variable rt : Runtime.
Variables pre seps ds rest : str.
Hypothesis rt_digits : reads_ascii_digits rt = true.
Hypothesis seps_not_empty : seps <> [].
Hypothesis seps_sep : forallb is_sep seps = true.
Hypothesis ds_not_empty : ds <> [].
Hypothesis ds_digits : forallb ascii_digit ds = true.
Hypothesis rest_head : head_not (is_digit rt) rest = true.

Let number : sep_digits rt (seps ++ ds ++ rest) = Some ds :=
  sep_digits_reads rt seps ds rest
    rt_digits seps_not_empty seps_sep ds_not_empty ds_digits rest_head.

Lemma reputation_reads :
  forallb (not_char 82) pre = true ->
  reputation_match rt (pre ++ of_string "Reputation" ++ seps ++ ds ++ rest)
  = Some ds.
Proof.
  intros Hpre. unfold reputation_match.
  change (of_string "Reputation") with (82%N :: of_string "eputation").
  rewrite search_skip by exact Hpre. apply search_here.
  change (82%N :: of_string "eputation") with (of_string "Reputation").
  rewrite lit_app. exact number.
Qed.

Lemma activity_reads :
  forallb (not_char 65) pre = true ->
  activity_match rt (pre ++ of_string "Activity" ++ seps ++ ds ++ rest)
  = Some ds.
Proof.
  intros Hpre. unfold activity_match.
  change (of_string "Activity") with (65%N :: of_string "ctivity").
  rewrite search_skip by exact Hpre. apply search_here.
  change (65%N :: of_string "ctivity") with (of_string "Activity").
  rewrite lit_app. exact number.
Qed.

Lemma technical_reads (underscore : bool) :
  forallb (not_char 84) pre = true ->
  technical_match rt
    (pre ++ of_string (if underscore then "Technical_Skills" else "TechnicalSkills")
         ++ seps ++ ds ++ rest)
  = Some ds.
Proof.
  intros Hpre. unfold technical_match.
  change (of_string "Technical") with (84%N :: of_string "echnical").
  rewrite search_skip by exact Hpre. apply search_here.
  change (84%N :: of_string "echnical") with (of_string "Technical").
  destruct underscore.
  - change (of_string "Technical_Skills")
      with (of_string "Technical" ++ of_string "_" ++ of_string "Skills").
    rewrite <- !app_assoc, lit_app. unfold opt_lit.
    rewrite lit_app, lit_app. now rewrite number.
  - change (of_string "TechnicalSkills")
      with (of_string "Technical" ++ of_string "Skills").
    rewrite <- !app_assoc, lit_app. unfold opt_lit.
    replace (lit "_" (lit "Skills" (sep_digits rt))
               (of_string "Skills" ++ seps ++ ds ++ rest))
      with (@None str) by reflexivity.
    rewrite lit_app. exact number.
Qed.
End Reading.

(** the names a score can be read after, each with its field *)
Definition score_names : list (str * str) :=
  [(of_string "Technical_Skills", of_string "Technical_Skills");
   (of_string "TechnicalSkills", of_string "Technical_Skills");
   (of_string "Reputation", of_string "Reputation");
   (of_string "Activity", of_string "Activity")].

(** X6: the forgiving extraction reads a score after its name, for
    every runtime whose digit table holds the ten ASCII digits, whatever
    other decimal digits it holds.  In a text made of a part without the
    first letter of the name, the name, one or more separators (double
    quotes, whitespace, colons), a run of ASCII digits within the limit
    of [int] and a rest that does not go on with a digit of the table,
    the field is the number the digits write, when the extraction
    returns. *)
Theorem extraction_reads_number rt
        (name field pre seps ds rest : str) (r : dict) :
  reads_ascii_digits rt = true ->
  In (name, field) score_names ->
  forallb (not_char (hd 0%N name)) pre = true ->
  seps <> [] -> forallb is_sep seps = true ->
  ds <> [] -> forallb ascii_digit ds = true -> within_digit_limit rt ds = true ->
  head_not (is_digit rt) rest = true ->
  Github.extract_values_from_text rt (pre ++ name ++ seps ++ ds ++ rest)
  = Ok (VDict r) ->
  dict_get r field = Some (VInt (decimal_of ds)).
Proof.
  intros Hrt Hin Hpre Hs1 Hs2 Hd1 Hd2 Hlen Hrest H.
  pose proof (int_of_str_ascii rt ds Hrt Hd1 Hd2 Hlen) as Hint.
  unfold Github.extract_values_from_text in H.
  apply rbind_ok in H as (r1 & H1 & H).
  apply rbind_ok in H as (r2 & H2 & H).
  apply rbind_ok in H as (r3 & H3 & H).
  injection H as <-.
  simpl in Hin. destruct Hin as [E|[E|[E|[E|[]]]]]; injection E as <- <-.
  - rewrite (technical_reads rt pre seps ds rest Hrt Hs1 Hs2 Hd1 Hd2 Hrest true Hpre)
      in H1.
    unfold score_match in H1. rewrite Hint in H1. injection H1 as <-.
    rewrite (score_match_other _ _ _ _ _ _ H3) by discriminate.
    rewrite (score_match_other _ _ _ _ _ _ H2) by discriminate.
    reflexivity.
  - rewrite (technical_reads rt pre seps ds rest Hrt Hs1 Hs2 Hd1 Hd2 Hrest false Hpre)
      in H1.
    unfold score_match in H1. rewrite Hint in H1. injection H1 as <-.
    rewrite (score_match_other _ _ _ _ _ _ H3) by discriminate.
    rewrite (score_match_other _ _ _ _ _ _ H2) by discriminate.
    reflexivity.
  - rewrite (reputation_reads rt pre seps ds rest Hrt Hs1 Hs2 Hd1 Hd2 Hrest Hpre) in H2.
    unfold score_match in H2. rewrite Hint in H2. injection H2 as <-.
    rewrite (score_match_other _ _ _ _ _ _ H3) by discriminate.
    apply dict_get_set_same.
  - rewrite (activity_reads rt pre seps ds rest Hrt Hs1 Hs2 Hd1 Hd2 Hrest Hpre) in H3.
    unfold score_match in H3. rewrite Hint in H3. injection H3 as <-.
    apply dict_get_set_same.
Qed.

(** the value of an Arabic-Indic digit, besides the ASCII ones *)
Definition arabic_indic_decimal (c : N) : option Z :=
  if ((1632 <=? c) && (c <=? 1641))%N then Some (Z.of_N c - 1632)
  else Json.ascii_decimal c.

(** the concrete runtime with the larger digit table *)
Definition python_arabic_indic : Runtime :=
  {| decimal_value := arabic_indic_decimal;
     int_max_str_digits := 4300;
     json_loads := Json.loads 4300 900;
     json_dumps := no_dumps;
     chat_completion := no_chat |}.

Lemma extraction_reads_number_witness :
  dict_get [(of_string "Technical_Skills", VInt 77); (of_string "Reputation", VInt 60);
            (of_string "Activity", VInt 50)] "Reputation"
  = Some (VInt (decimal_of "60")).
Proof.
  apply (extraction_reads_number python_arabic_indic
           "Reputation" "Reputation" "Technical_Skills: 77, here's my answer, "
           " " "60" ", Activity:not-a-number").
  - reflexivity.
  - simpl. auto.
  - reflexivity.
  - discriminate.
  - reflexivity.
  - discriminate.
  - reflexivity.
  - reflexivity.
  - reflexivity.
  - vm_compute. reflexivity.
Defined.

(** A digit of the table that is not an ASCII one is part of the number:
    after the ASCII digits 6 and 0, the Arabic-Indic digit three gives
    603, where a table of ASCII digits alone stops at 60. *)
Lemma other_digits_are_read :
  head_not (is_digit python_arabic_indic) [1635%N] = false
  /\ Github.extract_values_from_text python_arabic_indic
       (of_string "Reputation: 60" ++ [1635%N])
     = Ok (VDict (triple (VInt 50) (VInt 603) (VInt 50)))
  /\ Github.extract_values_from_text python0 (of_string "Reputation: 60" ++ [1635%N])
     = Ok (VDict (triple (VInt 50) (VInt 60) (VInt 50))).
Proof. repeat split; vm_compute; reflexivity. Qed.

(** ** The score extractor, in full *)

(** the text handed to [json.loads]: the braces found, else the text *)
Definition json_candidate (text : str) : str :=
  match search_json_object text with
  | Some g => g
  | None => text
  end.

(** X7: for any text and any runtime the GitHub extractor returns a map
    whose three scores are ints in [0,100]; it never raises and calls no
    provider. *)
Theorem github_extractor_scores rt (text : str) (w : World) :
  exists d w',
    Github.process_llm_response rt text w = (Ok (VDict d), w')
    /\ calls w' = calls w
    /\ forall f, In f Github.required_fields ->
                 exists n, dict_get d f = Some (VInt n) /\ 0 <= n <= 100.
Proof. apply github_scores_in_range. Qed.

Lemma resume_process_spec rt (text : str) (w : World) :
  exists d w',
    Resume.process_llm_response rt text w = (Ok (VDict d), w')
    /\ calls w' = calls w
    /\ (forall f, In f Resume.score_fields ->
                  exists v, dict_get d f = Some v /\ within_bounds v = true)
    /\ dict_has d "summary" = true
    /\ dict_has d "keywords" = true.
Proof.
  unfold Resume.process_llm_response. rewrite try_catch_pure.
  match goal with |- context [match ?X with Ok _ => _ | Raise _ => _ end] =>
    destruct X as [r|e] eqn:E end.
  - apply rbind_ok in E as (r0 & _ & E).
    apply rbind_ok in E as (r1 & Hfill & Hclamp).
    destruct (is_dict r1) eqn:D1.
    + destruct r1 as [| | | | | |d1]; try discriminate.
      destruct (is_dict r0) eqn:D0.
      * destruct r0 as [| | | | | |d0]; try discriminate.
        destruct (resume_fill_missing_dict Resume.required_fields d0) as (d1' & E1 & P).
        rewrite E1 in Hfill. injection Hfill as <-.
        pose proof Hclamp as Hc2.
        apply resume_clamp_scores_dict in Hclamp as (d' & -> & Q).
        apply resume_clamp_scores_bounds in Hc2 as (d'' & E2 & B). injection E2 as <-.
        exists d', w. split; [reflexivity|]. split; [reflexivity|].
        split; [exact B|].
        unfold dict_has.
        rewrite !Q by (intros [H|[H|[H|[]]]]; discriminate).
        rewrite !P.
        split; [now destruct (dict_get d0 "summary")|now destruct (dict_get d0 "keywords")].
      * apply resume_fill_missing_other in Hfill; [|exact D0]. subst r0. discriminate.
    + unfold Resume.score_fields in Hclamp.
      rewrite resume_clamp_scores_other in Hclamp by assumption. discriminate.
  - destruct (get_mock_resume_score_spec w)
      as (t & r & a & s & k & w' & Hm & Hc & Bt & Br & Ba & _).
    rewrite Hm. eexists. exists w'. split; [reflexivity|]. split; [exact Hc|].
    split; [|split; reflexivity].
    intros f [<-|[<-|[<-|[]]]]; eexists; (split; [reflexivity|]); simpl;
      apply andb_true_iff; split; apply Z.leb_le; lia.
Qed.

(** X8: for any text and any runtime the resume extractor returns a map
    with its five fields: each score is an int in [0,100], a float
    strictly between 0 and 100 or [True], and summary and keywords are
    present; it never raises and calls no provider. *)
Theorem resume_extractor_fields rt (text : str) (w : World) :
  exists d w',
    Resume.process_llm_response rt text w = (Ok (VDict d), w')
    /\ calls w' = calls w
    /\ (forall f, In f Resume.score_fields ->
                  exists v, dict_get d f = Some v /\ within_bounds v = true)
    /\ dict_has d "summary" = true
    /\ dict_has d "keywords" = true.
Proof. apply resume_process_spec. Qed.

Lemma github_fill_missing_other (fs : list str) (r r' : PyVal) :
  is_dict r = false -> Github.fill_missing fs r = Ok r' -> r' = r.
Proof.
  intros Hr. induction fs as [|f fs IH]; simpl; intros H.
  - now injection H as <-.
  - apply rbind_ok in H as (present & Hp & H).
    apply rbind_ok in H as (r1 & H1 & H).
    destruct present; simpl in H1.
    + injection H1 as <-. auto.
    + destruct r; simpl in *; discriminate.
Qed.

Lemma github_process_mock rt (text : str) (w : World) :
  (forall r, (result <- Github.parse_response rt text ;;
              result <- Github.fill_missing Github.required_fields result ;;
              Github.clamp_scores rt Github.required_fields result) <> Ok r) ->
  Github.process_llm_response rt text w = MockData.get_mock_github_score w.
Proof.
  intros H. unfold Github.process_llm_response. rewrite try_catch_pure.
  match goal with |- match ?X with Ok _ => _ | Raise _ => _ end = _ =>
    destruct X as [r|e]; [exfalso; now apply (H r)|reflexivity] end.
Qed.

Lemma resume_process_mock rt (text : str) (w : World) :
  (forall r, (result <- Resume.parse_response rt text ;;
              result <- Resume.fill_missing Resume.required_fields result ;;
              Resume.clamp_scores rt Resume.score_fields result) <> Ok r) ->
  Resume.process_llm_response rt text w = MockData.get_mock_resume_score w.
Proof.
  intros H. unfold Resume.process_llm_response. rewrite try_catch_pure.
  match goal with |- match ?X with Ok _ => _ | Raise _ => _ end = _ =>
    destruct X as [r|e]; [exfalso; now apply (H r)|reflexivity] end.
Qed.

(** X9: when [json.loads] reads the candidate text as something that is
    not an object (a list, a string, a number, a constant), or fails
    with an exception other than [JSONDecodeError], both extractors
    answer with the mock source; the forgiving extraction is not tried. *)
Theorem extractor_falls_back_to_mock rt (text : str) (w : World) :
  (exists v, json_loads rt (json_candidate text) = Ok v /\ is_dict v = false)
  \/ (exists e, json_loads rt (json_candidate text) = Raise e /\ e <> JSONDecodeError) ->
  Github.process_llm_response rt text w = MockData.get_mock_github_score w
  /\ Resume.process_llm_response rt text w = MockData.get_mock_resume_score w.
Proof.
  intros H.
  assert (P : (exists v, Github.parse_response rt text = Ok v /\ is_dict v = false
                         /\ Resume.parse_response rt text = Ok v)
              \/ (exists e, Github.parse_response rt text = Raise e
                            /\ Resume.parse_response rt text = Raise e)).
  { unfold Github.parse_response, Resume.parse_response.
    fold (json_candidate text).
    destruct H as [(v & E & D)|(e & E & Hne)]; rewrite E.
    - left. exists v. auto.
    - right. exists e. destruct e; try contradiction; auto. }
  split.
  - apply github_process_mock. intros r Hr.
    apply rbind_ok in Hr as (r0 & Hp & Hr).
    apply rbind_ok in Hr as (r1 & Hf & Hc).
    destruct P as [(v & Ev & D & _)|(e & Ee & _)]; [|congruence].
    rewrite Ev in Hp. injection Hp as <-.
    apply github_fill_missing_other in Hf; [|exact D]. subst r1.
    unfold Github.required_fields in Hc.
    rewrite github_clamp_scores_other in Hc by exact D. discriminate.
  - apply resume_process_mock. intros r Hr.
    apply rbind_ok in Hr as (r0 & Hp & Hr).
    apply rbind_ok in Hr as (r1 & Hf & Hc).
    destruct P as [(v & _ & D & Ev)|(e & _ & Ee)]; [|congruence].
    rewrite Ev in Hp. injection Hp as <-.
    apply resume_fill_missing_other in Hf; [|exact D]. subst r1.
    unfold Resume.score_fields in Hc.
    rewrite resume_clamp_scores_other in Hc by exact D. discriminate.
Qed.

Lemma extractor_falls_back_to_mock_witness :
  Github.process_llm_response python0 "[85, 72, 90]" world0
  = MockData.get_mock_github_score world0
  /\ Resume.process_llm_response python0 "[85, 72, 90]" world0
     = MockData.get_mock_resume_score world0.
Proof.
  apply extractor_falls_back_to_mock. left.
  exists (VList [VInt 85; VInt 72; VInt 90]). split; reflexivity.
Defined.

(** *** How a parsed object is normalized *)

(** what the GitHub variant makes of one score value: a [str] is read by
    [int], 50 when that fails; everything goes through [int] and is
    clamped *)
Definition github_coerce rt (v : PyVal) : Result Z :=
  match v with
  | VStr s => n <- int_or_50 rt s ;; Ok (clamp n)
  | _ => n <- py_int rt v ;; Ok (clamp n)
  end.

(** what the resume variant makes of one score value: a [str] is read by
    [int], 50 when that fails; the value is bounded by [min] and [max] *)
Definition resume_coerce rt (v : PyVal) : Result PyVal :=
  v1 <- match v with
        | VStr s => n <- int_or_50 rt s ;; Ok (VInt n)
        | _ => Ok v
        end ;;
  low <- py_min_int 100 v1 ;;
  py_max_int 0 low.

Lemma int_of_str_value_error rt (s : str) (e : exn) :
  int_of_str rt s = Raise e -> e = ValueError.
Proof.
  unfold int_of_str.
  destruct (match strip_by is_int_space s with
            | 43%N :: r => (false, r)
            | 45%N :: r => (true, r)
            | _ => (false, strip_by is_int_space s)
            end) as [neg body].
  destruct (digits_value rt 0 0 false body) as [[v n]|]; [|congruence].
  destruct (negb (int_max_str_digits rt =? 0)%nat && (int_max_str_digits rt <? n)%nat);
    congruence.
Qed.

Lemma int_or_50_total rt (s : str) :
  int_or_50 rt s = Ok (match int_of_str rt s with Ok n => n | Raise _ => 50 end).
Proof.
  unfold int_or_50. destruct (int_of_str rt s) as [n|e] eqn:E; [reflexivity|].
  apply int_of_str_value_error in E. now subst e.
Qed.

Lemma github_fill_missing_exact (fs : list str) :
  forall d : dict,
  exists d',
    Github.fill_missing fs (VDict d) = Ok (VDict d')
    /\ forall k, dict_get d' k
                 = match dict_get d k with
                   | Some v => Some v
                   | None => if existsb (str_eqb k) fs then Some (VInt 50) else None
                   end.
Proof.
  induction fs as [|f fs IH]; intros d.
  - exists d. split; [reflexivity|]. intros k. simpl. now destruct (dict_get d k).
  - cbn [Github.fill_missing py_contains]. rewrite rbind_ret.
    unfold dict_has. destruct (dict_get d f) as [vf|] eqn:Hf; cbn [negb].
    + rewrite rbind_ret. destruct (IH d) as (d' & E & P). exists d'.
      split; [exact E|]. intros k. rewrite P. cbn [existsb].
      destruct (dict_get d k) eqn:Hk; [reflexivity|].
      destruct (str_eqb k f) eqn:Ekf; [|reflexivity].
      apply str_eqb_eq in Ekf. subst k. congruence.
    + cbn [py_setitem]. rewrite rbind_ret.
      destruct (IH (dict_set d f (VInt 50))) as (d' & E & P). exists d'.
      split; [exact E|]. intros k. rewrite P. cbn [existsb].
      destruct (str_eqb k f) eqn:Ekf.
      * apply str_eqb_eq in Ekf. subst k. now rewrite dict_get_set_same, Hf.
      * apply str_eqb_neq in Ekf. now rewrite dict_get_set_other.
Qed.

Lemma github_clamp_step rt (f : str) (rest : list str) (d : dict) (v : PyVal) :
  dict_get d f = Some v ->
  Github.clamp_scores rt (f :: rest) (VDict d)
  = (n <- github_coerce rt v ;;
     Github.clamp_scores rt rest (VDict (dict_set d f (VInt n)))).
Proof.
  intros Hget. cbn [Github.clamp_scores]. unfold py_getitem at 1.
  rewrite Hget, rbind_ret. unfold github_coerce.
  destruct v as [|b|z|x|s|l|m];
    try (rewrite rbind_ret; unfold py_getitem at 1; rewrite Hget, rbind_ret;
         match goal with |- context [py_int rt ?u] => destruct (py_int rt u) end;
         reflexivity).
  destruct (int_or_50 rt s) as [n0|e]; [|reflexivity].
  rewrite !rbind_ret. cbn [py_setitem]. rewrite rbind_ret.
  unfold py_getitem at 1. rewrite dict_get_set_same, !rbind_ret.
  cbn [py_int py_setitem]. rewrite !rbind_ret. now rewrite dict_set_set.
Qed.

Lemma resume_clamp_step rt (f : str) (rest : list str) (d : dict) (v : PyVal) :
  dict_get d f = Some v ->
  Resume.clamp_scores rt (f :: rest) (VDict d)
  = (x <- resume_coerce rt v ;;
     Resume.clamp_scores rt rest (VDict (dict_set d f x))).
Proof.
  intros Hget. cbn [Resume.clamp_scores]. unfold py_getitem at 1.
  rewrite Hget, rbind_ret. unfold resume_coerce.
  destruct v as [|b|z|x|s|l|m];
    try (rewrite !rbind_ret; unfold py_getitem at 1; rewrite Hget, rbind_ret;
         match goal with |- context [py_min_int 100 ?u] =>
           destruct (py_min_int 100 u) as [low|]; [|reflexivity] end;
         rewrite !rbind_ret;
         destruct (py_max_int 0 low); reflexivity).
  destruct (int_or_50 rt s) as [n0|e]; [|reflexivity].
  rewrite !rbind_ret. cbn [py_setitem]. rewrite rbind_ret.
  unfold py_getitem at 1. rewrite dict_get_set_same, !rbind_ret.
  destruct (py_min_int 100 (VInt n0)) as [low|]; [|reflexivity].
  rewrite !rbind_ret. destruct (py_max_int 0 low) as [high|]; [|reflexivity].
  rewrite !rbind_ret. cbn [py_setitem]. rewrite rbind_ret. now rewrite dict_set_set.
Qed.

Lemma parse_object_github rt (text : str) (d : dict) :
  json_loads rt (json_candidate text) = Ok (VDict d) ->
  Github.parse_response rt text = Ok (VDict d).
Proof.
  intros H. unfold Github.parse_response. fold (json_candidate text). now rewrite H.
Qed.

Lemma parse_object_resume rt (text : str) (d : dict) :
  json_loads rt (json_candidate text) = Ok (VDict d) ->
  Resume.parse_response rt text = Ok (VDict d).
Proof.
  intros H. unfold Resume.parse_response. fold (json_candidate text). now rewrite H.
Qed.

(** the value a score field has once the missing ones are filled in *)
Definition score_or_50 (d : dict) (f : str) : PyVal := dict_get_default d f (VInt 50).

Lemma github_object_pipeline rt (text : str) (d : dict) (w : World) :
  json_loads rt (json_candidate text) = Ok (VDict d) ->
  exists d1,
    (forall k, dict_get d1 k
               = match dict_get d k with
                 | Some v => Some v
                 | None => if existsb (str_eqb k) Github.required_fields
                           then Some (VInt 50) else None
                 end)
    /\ Github.process_llm_response rt text w
       = match (nt <- github_coerce rt (score_or_50 d "Technical_Skills") ;;
                nr <- github_coerce rt (score_or_50 d "Reputation") ;;
                na <- github_coerce rt (score_or_50 d "Activity") ;;
                Ok (nt, nr, na)) with
         | Ok (nt, nr, na) =>
             (Ok (VDict (dict_set (dict_set (dict_set d1 "Technical_Skills" (VInt nt))
                                            "Reputation" (VInt nr))
                                  "Activity" (VInt na))), w)
         | Raise _ => MockData.get_mock_github_score w
         end.
Proof.
  intros H.
  destruct (github_fill_missing_exact Github.required_fields d) as (d1 & E1 & P).
  exists d1. split; [exact P|].
  assert (V : forall f, In f Github.required_fields ->
                        dict_get d1 f = Some (score_or_50 d f)).
  { intros f Hf. rewrite P. unfold score_or_50, dict_get_default.
    destruct (dict_get d f); [reflexivity|].
    destruct Hf as [<-|[<-|[<-|[]]]]; reflexivity. }
  unfold Github.process_llm_response. rewrite try_catch_pure.
  rewrite (parse_object_github rt text d H), rbind_ret, E1, rbind_ret.
  unfold Github.required_fields.
  rewrite (github_clamp_step rt _ _ _ _ (V "Technical_Skills" ltac:(simpl; auto))).
  destruct (github_coerce rt (score_or_50 d "Technical_Skills")) as [nt|e];
    [|reflexivity].
  rewrite !rbind_ret.
  rewrite (github_clamp_step rt _ _ _ (score_or_50 d "Reputation"))
    by (rewrite dict_get_set_other by discriminate; apply V; simpl; auto).
  destruct (github_coerce rt (score_or_50 d "Reputation")) as [nr|e]; [|reflexivity].
  rewrite !rbind_ret.
  rewrite (github_clamp_step rt _ _ _ (score_or_50 d "Activity"))
    by (rewrite !dict_get_set_other by discriminate; apply V; simpl; auto).
  destruct (github_coerce rt (score_or_50 d "Activity")) as [na|e]; reflexivity.
Qed.

(** X10: how the GitHub extractor normalizes a parsed object.  Each of
    the three scores, 50 when the field is missing, is coerced: an int is
    clamped, a [str] is read by [int] (50 when it is no int) and clamped,
    and [None] cannot be coerced.  When the three coercions succeed the
    object comes back with these three ints and its other fields as they
    are; when one fails the answer is the mock source's. *)
Theorem github_object_normalized rt (text : str) (d : dict) (w : World) :
  json_loads rt (json_candidate text) = Ok (VDict d) ->
  (forall nt nr na,
      github_coerce rt (score_or_50 d "Technical_Skills") = Ok nt ->
      github_coerce rt (score_or_50 d "Reputation") = Ok nr ->
      github_coerce rt (score_or_50 d "Activity") = Ok na ->
      exists d',
        Github.process_llm_response rt text w = (Ok (VDict d'), w)
        /\ dict_get d' "Technical_Skills" = Some (VInt nt)
        /\ dict_get d' "Reputation" = Some (VInt nr)
        /\ dict_get d' "Activity" = Some (VInt na)
        /\ forall k, ~ In k Github.required_fields -> dict_get d' k = dict_get d k)
  /\ (forall f e, In f Github.required_fields ->
        github_coerce rt (score_or_50 d f) = Raise e ->
        Github.process_llm_response rt text w = MockData.get_mock_github_score w)
  /\ (forall z, github_coerce rt (VInt z) = Ok (clamp z))
  /\ (forall s, github_coerce rt (VStr s)
                = Ok (clamp (match int_of_str rt s with Ok n => n | Raise _ => 50 end)))
  /\ github_coerce rt VNone = Raise TypeError.
Proof.
  intros H. destruct (github_object_pipeline rt text d w H) as (d1 & P & E).
  split; [|split; [|split; [|split]]].
  - intros nt nr na Ht Hr Ha. rewrite Ht, Hr, Ha in E. cbn [rbind] in E.
    eexists. split; [exact E|].
    split; [now rewrite !dict_get_set_other by discriminate; rewrite dict_get_set_same|].
    split; [now rewrite dict_get_set_other by discriminate; rewrite dict_get_set_same|].
    split; [now rewrite dict_get_set_same|].
    intros k Hk.
    assert (N : k <> of_string "Technical_Skills" /\ k <> of_string "Reputation"
                /\ k <> of_string "Activity")
      by (repeat split; intros ->; apply Hk; simpl; auto).
    destruct N as (N1 & N2 & N3).
    rewrite !dict_get_set_other by assumption. rewrite P.
    destruct (dict_get d k); [reflexivity|].
    cbn [existsb Github.required_fields].
    apply str_eqb_neq in N1, N2, N3. now rewrite N1, N2, N3.
  - intros f e Hf He. rewrite E.
    destruct Hf as [<-|[<-|[<-|[]]]]; rewrite He;
      repeat match goal with
             | |- context [github_coerce rt ?v] => destruct (github_coerce rt v)
             end; reflexivity.
  - reflexivity.
  - intros s. unfold github_coerce. now rewrite int_or_50_total.
  - reflexivity.
Qed.

Definition coerced_text : str :=
  braces (quoted "Technical_Skills" ++ of_string ": " ++ quoted "85" ++ of_string ", "
          ++ quoted "Reputation" ++ of_string ": 72.9, "
          ++ quoted "Activity" ++ of_string ": true").

Lemma github_object_normalized_witness :
  exists d',
    Github.process_llm_response python0 coerced_text world0 = (Ok (VDict d'), world0)
    /\ dict_get d' "Technical_Skills" = Some (VInt 85)
    /\ dict_get d' "Reputation" = Some (VInt 72)
    /\ dict_get d' "Activity" = Some (VInt 1).
Proof.
  destruct (proj1 (github_object_normalized python0 coerced_text
              [(of_string "Technical_Skills", VStr "85");
               (of_string "Reputation", VFloat (float_of_decimal false 729 (-1)));
               (of_string "Activity", VBool true)] world0 eq_refl)
              85 72 1 eq_refl eq_refl eq_refl)
    as (d' & E & T & R & A & _).
  exists d'. auto.
Defined.

Lemma resume_coerce_int rt (z : Z) : resume_coerce rt (VInt z) = Ok (VInt (clamp z)).
Proof.
  unfold resume_coerce, py_min_int, py_max_int, clamp. cbn [rbind py_lt_int].
  destruct (z <? 100) eqn:E; cbn [rbind py_gt_int].
  - destruct (0 <? z) eqn:E0; f_equal; f_equal;
      apply Z.ltb_lt in E; [apply Z.ltb_lt in E0|apply Z.ltb_ge in E0]; lia.
  - apply Z.ltb_ge in E. cbn. f_equal. f_equal. lia.
Qed.

Lemma resume_coerce_float rt (f : spec_float) :
  within_bounds (VFloat f) = true -> resume_coerce rt (VFloat f) = Ok (VFloat f).
Proof.
  unfold resume_coerce, py_min_int, py_max_int, within_bounds.
  cbn [rbind py_lt_int].
  destruct (cmp_float_int f 0) as [[| |]|] eqn:E0; try discriminate.
  destruct (cmp_float_int f 100) as [[| |]|] eqn:E; try discriminate.
  intros _. cbn [rbind py_gt_int]. now rewrite E0.
Qed.

Lemma resume_object_pipeline rt (text : str) (d : dict) (w : World) :
  json_loads rt (json_candidate text) = Ok (VDict d) ->
  exists d1,
    (forall k, dict_get d1 k
               = match dict_get d k with
                 | Some v => Some v
                 | None => if existsb (str_eqb k) Resume.required_fields
                           then Resume.default_for k else None
                 end)
    /\ Resume.process_llm_response rt text w
       = match (xt <- resume_coerce rt (score_or_50 d "Technical_Skills") ;;
                xr <- resume_coerce rt (score_or_50 d "Reputation") ;;
                xa <- resume_coerce rt (score_or_50 d "Activity") ;;
                Ok (xt, xr, xa)) with
         | Ok (xt, xr, xa) =>
             (Ok (VDict (dict_set (dict_set (dict_set d1 "Technical_Skills" xt)
                                            "Reputation" xr)
                                  "Activity" xa)), w)
         | Raise _ => MockData.get_mock_resume_score w
         end.
Proof.
  intros H.
  destruct (resume_fill_missing_dict Resume.required_fields d) as (d1 & E1 & P).
  exists d1. split; [exact P|].
  assert (V : forall f, In f Resume.score_fields ->
                        dict_get d1 f = Some (score_or_50 d f)).
  { intros f Hf. rewrite P. unfold score_or_50, dict_get_default.
    destruct (dict_get d f); [reflexivity|].
    destruct Hf as [<-|[<-|[<-|[]]]]; reflexivity. }
  unfold Resume.process_llm_response. rewrite try_catch_pure.
  rewrite (parse_object_resume rt text d H), rbind_ret, E1, rbind_ret.
  unfold Resume.score_fields.
  rewrite (resume_clamp_step rt _ _ _ _ (V "Technical_Skills" ltac:(simpl; auto))).
  destruct (resume_coerce rt (score_or_50 d "Technical_Skills")) as [xt|e];
    [|reflexivity].
  rewrite !rbind_ret.
  rewrite (resume_clamp_step rt _ _ _ (score_or_50 d "Reputation"))
    by (rewrite dict_get_set_other by discriminate; apply V; simpl; auto).
  destruct (resume_coerce rt (score_or_50 d "Reputation")) as [xr|e]; [|reflexivity].
  rewrite !rbind_ret.
  rewrite (resume_clamp_step rt _ _ _ (score_or_50 d "Activity"))
    by (rewrite !dict_get_set_other by discriminate; apply V; simpl; auto).
  destruct (resume_coerce rt (score_or_50 d "Activity")) as [xa|e]; reflexivity.
Qed.

(** X11: how the resume extractor normalizes a parsed object.  Each of
    the three scores, 50 when the field is missing, is coerced without
    [int]: an int is clamped, a float strictly between 0 and 100 is kept
    as it is.  When the three coercions succeed the object comes back
    with the coerced scores, its own summary and keywords of whatever
    type (the defaults when they are missing) and its other fields as
    they are; when one fails the answer is the mock source's. *)
Theorem resume_object_normalized rt (text : str) (d : dict) (w : World) :
  json_loads rt (json_candidate text) = Ok (VDict d) ->
  (forall xt xr xa,
      resume_coerce rt (score_or_50 d "Technical_Skills") = Ok xt ->
      resume_coerce rt (score_or_50 d "Reputation") = Ok xr ->
      resume_coerce rt (score_or_50 d "Activity") = Ok xa ->
      exists d',
        Resume.process_llm_response rt text w = (Ok (VDict d'), w)
        /\ dict_get d' "Technical_Skills" = Some xt
        /\ dict_get d' "Reputation" = Some xr
        /\ dict_get d' "Activity" = Some xa
        /\ dict_get d' "summary"
           = Some (dict_get_default d "summary" (VStr "Resume analysis incomplete"))
        /\ dict_get d' "keywords" = Some (dict_get_default d "keywords" (VList []))
        /\ forall k, ~ In k Resume.required_fields -> dict_get d' k = dict_get d k)
  /\ (forall f e, In f Resume.score_fields ->
        resume_coerce rt (score_or_50 d f) = Raise e ->
        Resume.process_llm_response rt text w = MockData.get_mock_resume_score w)
  /\ (forall z, resume_coerce rt (VInt z) = Ok (VInt (clamp z)))
  /\ (forall f, within_bounds (VFloat f) = true ->
                resume_coerce rt (VFloat f) = Ok (VFloat f))
  /\ resume_coerce rt VNone = Raise TypeError.
Proof.
  intros H. destruct (resume_object_pipeline rt text d w H) as (d1 & P & E).
  split; [|split; [|split; [|split]]].
  - intros xt xr xa Ht Hr Ha. rewrite Ht, Hr, Ha in E. cbn [rbind] in E.
    eexists. split; [exact E|].
    split; [now rewrite !dict_get_set_other by discriminate; rewrite dict_get_set_same|].
    split; [now rewrite dict_get_set_other by discriminate; rewrite dict_get_set_same|].
    split; [now rewrite dict_get_set_same|].
    split; [|split].
    + rewrite !dict_get_set_other by discriminate. rewrite P.
      unfold dict_get_default. now destruct (dict_get d "summary").
    + rewrite !dict_get_set_other by discriminate. rewrite P.
      unfold dict_get_default. now destruct (dict_get d "keywords").
    + intros k Hk.
      assert (N : k <> of_string "Technical_Skills" /\ k <> of_string "Reputation"
                  /\ k <> of_string "Activity" /\ k <> of_string "summary"
                  /\ k <> of_string "keywords")
        by (repeat split; intros ->; apply Hk; simpl; auto 6).
      destruct N as (N1 & N2 & N3 & N4 & N5).
      rewrite !dict_get_set_other by assumption. rewrite P.
      destruct (dict_get d k); [reflexivity|].
      cbn [existsb Resume.required_fields].
      apply str_eqb_neq in N1, N2, N3, N4, N5. now rewrite N1, N2, N3, N4, N5.
  - intros f e Hf He. rewrite E.
    destruct Hf as [<-|[<-|[<-|[]]]]; rewrite He;
      repeat match goal with
             | |- context [resume_coerce rt ?v] => destruct (resume_coerce rt v)
             end; reflexivity.
  - apply resume_coerce_int.
  - apply resume_coerce_float.
  - reflexivity.
Qed.

Definition fraction_text : str :=
  braces (quoted "Technical_Skills" ++ of_string ": 72.5, "
          ++ quoted "Reputation" ++ of_string ": 140, "
          ++ quoted "summary" ++ of_string ": 7").

Lemma resume_object_normalized_witness :
  exists d',
    Resume.process_llm_response python0 fraction_text world0 = (Ok (VDict d'), world0)
    /\ dict_get d' "Technical_Skills" = Some (VFloat (float_of_decimal false 725 (-1)))
    /\ dict_get d' "Reputation" = Some (VInt 100)
    /\ dict_get d' "Activity" = Some (VInt 50)
    /\ dict_get d' "summary" = Some (VInt 7)
    /\ dict_get d' "keywords" = Some (VList []).
Proof.
  destruct (proj1 (resume_object_normalized python0 fraction_text
              [(of_string "Technical_Skills", VFloat (float_of_decimal false 725 (-1)));
               (of_string "Reputation", VInt 140);
               (of_string "summary", VInt 7)] world0 eq_refl)
              (VFloat (float_of_decimal false 725 (-1))) (VInt 100) (VInt 50)
              eq_refl eq_refl eq_refl)
    as (d' & E & T & R & A & S & K & _).
  exists d'. repeat split; assumption.
Defined.

(** *** The order in which the providers are tried *)

(** the world after the providers [ps] have been called, in this order *)
Definition with_calls (w : World) (ps : list Provider) : World :=
  {| entropy := entropy w; draws := draws w; calls := calls w ++ ps |}.

(** the providers whose key is set, in the order of the three blocks *)
Definition keyed (cfg : Config) : list Provider :=
  ((if key_set (openrouter_api_key cfg) then [OpenRouter] else [])
   ++ (if key_set (deepseek_api_key cfg) then [Deepseek] else [])
   ++ (if key_set (openai_api_key cfg) then [OpenAI] else []))%list.

(** The providers of [ps] are asked in turn until one returns a text:
    the providers asked, and the stripped text of the last one if it
    answered. *)
Fixpoint first_answer rt (prompt : Prompt) (ps : list Provider)
  : list Provider * option str :=
  match ps with
  | [] => ([], None)
  | p :: rest =>
      match chat_completion rt p prompt with
      | Ok (Some content) => ([p], Some (strip content))
      | _ => let (tried, r) := first_answer rt prompt rest in (p :: tried, r)
      end
  end.

(** the first answer goes through [process]; without an answer the
    result is the mock source's *)
Definition answer_or_mock rt (process : str -> M PyVal) (mock : M PyVal)
           (prompt : Prompt) (ps : list Provider) : M PyVal :=
  fun w =>
    match first_answer rt prompt ps with
    | (tried, Some text) => process text (with_calls w tried)
    | (tried, None) => mock (with_calls w tried)
    end.

(** the three provider blocks, as a loop over the blocks *)
Fixpoint chain (blocks : list (M (option PyVal))) (mock : M PyVal) : M PyVal :=
  match blocks with
  | [] => mock
  | b :: rest =>
      r <~ b ;;
      match r with
      | Some r => ret r
      | None => chain rest mock
      end
  end.

Definition block rt (process : str -> M PyVal) (prompt : Prompt)
           (pk : Provider * option str) : M (option PyVal) :=
  if key_set (snd pk) then
    try_catch
      (result_text <~ complete rt (fst pk) prompt ;;
       r <~ process result_text ;;
       ret (Some r))
      (fun _ => ret None)
  else ret None.

Definition blocks_of (cfg : Config) : list (Provider * option str) :=
  [(OpenRouter, openrouter_api_key cfg); (Deepseek, deepseek_api_key cfg);
   (OpenAI, openai_api_key cfg)].

Lemma with_calls_nil (w : World) : with_calls w [] = w.
Proof. destruct w. unfold with_calls. simpl. now rewrite app_nil_r. Qed.

Lemma with_calls_cons (w : World) (p : Provider) (ps : list Provider) :
  with_calls (with_calls w [p]) ps = with_calls w (p :: ps).
Proof. unfold with_calls. simpl. now rewrite <- app_assoc. Qed.

Lemma keyed_blocks (cfg : Config) :
  keyed cfg = List.map fst (List.filter (fun pk => key_set (snd pk)) (blocks_of cfg)).
Proof.
  unfold keyed, blocks_of. simpl.
  destruct (key_set (openrouter_api_key cfg)), (key_set (deepseek_api_key cfg)),
    (key_set (openai_api_key cfg)); reflexivity.
Qed.

Section Chain.
Variable rt : Runtime.
Variable process : str -> M PyVal.
Variable mock : M PyVal.
Variable prompt : Prompt.
Hypothesis process_returns : forall text w, exists r w', process text w = (Ok r, w').

Lemma block_keyed (p : Provider) (key : option str) (w : World) :
  key_set key = true ->
  block rt process prompt (p, key) w
  = match chat_completion rt p prompt with
    | Ok (Some content) =>
        match process (strip content) (with_calls w [p]) with
        | (Ok r, w') => (Ok (Some r), w')
        | (Raise _, w') => (Ok None, w')
        end
    | _ => (Ok None, with_calls w [p])
    end.
Proof.
  intros K. unfold block. cbn [fst snd]. rewrite K.
  unfold try_catch, bind at 1, complete. fold (with_calls w [p]).
  destruct (chat_completion rt p prompt) as [[content|]|e]; try reflexivity.
  unfold bind, ret.
  destruct (process (strip content) (with_calls w [p])) as [[r|e] w']; reflexivity.
Qed.

Lemma chain_first_answer :
  forall (pks : list (Provider * option str)) (w : World),
    chain (List.map (block rt process prompt) pks) mock w
    = answer_or_mock rt process mock prompt
        (List.map fst (List.filter (fun pk => key_set (snd pk)) pks)) w.
Proof.
  induction pks as [|[p key] pks IH]; intros w.
  - unfold answer_or_mock. simpl. now rewrite with_calls_nil.
  - cbn [List.map chain List.filter snd]. unfold bind at 1.
    destruct (key_set key) eqn:K.
    + rewrite block_keyed by exact K. cbn [List.map fst].
      unfold answer_or_mock. cbn [first_answer].
      destruct (chat_completion rt p prompt) as [[content|]|e].
      * destruct (process_returns (strip content) (with_calls w [p])) as (r & w' & E).
        rewrite E. reflexivity.
      * rewrite IH. unfold answer_or_mock.
        destruct (first_answer rt prompt _) as [tried [text|]];
          now rewrite with_calls_cons.
      * rewrite IH. unfold answer_or_mock.
        destruct (first_answer rt prompt _) as [tried [text|]];
          now rewrite with_calls_cons.
    + unfold block at 1. cbn [snd]. rewrite K. unfold ret. apply IH.
Qed.
End Chain.

Lemma first_answer_prefix rt (prompt : Prompt) (ps : list Provider) :
  exists rest, ps = (fst (first_answer rt prompt ps) ++ rest)%list.
Proof.
  induction ps as [|p ps [rest IH]]; simpl.
  - now exists [].
  - destruct (chat_completion rt p prompt) as [[content|]|e].
    + now exists ps.
    + destruct (first_answer rt prompt ps) as [tried r]. exists rest. simpl in *.
      now f_equal.
    + destruct (first_answer rt prompt ps) as [tried r]. exists rest. simpl in *.
      now f_equal.
Qed.

Lemma resume_process_returns rt (text : str) (w : World) :
  exists r w', Resume.process_llm_response rt text w = (Ok r, w').
Proof. destruct (resume_process_spec rt text w) as (d & w' & E & _). eauto. Qed.

Lemma github_process_returns rt (text : str) (w : World) :
  exists r w', Github.process_llm_response rt text w = (Ok r, w').
Proof. destruct (github_scores_in_range rt text w) as (d & w' & E & _). eauto. Qed.

Lemma answer_or_mock_returns rt (process : str -> M PyVal) (mock : M PyVal)
      (prompt : Prompt) (ps : list Provider) (w : World) :
  (forall text w, exists r w', process text w = (Ok r, w')) ->
  (forall w, exists r w', mock w = (Ok r, w')) ->
  exists r w', answer_or_mock rt process mock prompt ps w = (Ok r, w').
Proof.
  intros Hp Hm. unfold answer_or_mock.
  destruct (first_answer rt prompt ps) as [tried [text|]]; auto.
Qed.

Lemma mock_resume_returns (w : World) :
  exists r w', MockData.get_mock_resume_score w = (Ok r, w').
Proof.
  destruct (get_mock_resume_score_spec w) as (t & r & a & s & k & w' & E & _). eauto.
Qed.

Lemma mock_github_returns (w : World) :
  exists r w', MockData.get_mock_github_score w = (Ok r, w').
Proof. destruct (get_mock_github_score_spec w) as (t & r & a & w' & E & _). eauto. Qed.

Lemma analyze_resume_chain rt cfg (c : N) (text : str) (w : World) :
  use_mock cfg = false ->
  Resume.analyze_resume rt cfg (c :: text) w
  = answer_or_mock rt (Resume.process_llm_response rt) MockData.get_mock_resume_score
      (ResumePrompt (c :: text)) (keyed cfg) w.
Proof.
  intros Hu.
  transitivity
    (try_catch
       (chain (List.map (block rt (Resume.process_llm_response rt)
                               (ResumePrompt (c :: text))) (blocks_of cfg))
              MockData.get_mock_resume_score)
       (fun _ => MockData.get_mock_resume_score) w).
  { unfold Resume.analyze_resume. rewrite Hu. reflexivity. }
  rewrite keyed_blocks.
  destruct (answer_or_mock_returns rt (Resume.process_llm_response rt)
              MockData.get_mock_resume_score (ResumePrompt (c :: text))
              (List.map fst (List.filter (fun pk => key_set (snd pk)) (blocks_of cfg))) w
              (resume_process_returns rt) mock_resume_returns) as (r & w' & E).
  rewrite E. apply try_catch_ok.
  rewrite chain_first_answer by apply resume_process_returns. exact E.
Qed.

Lemma analyze_github_chain rt cfg (d : dict) (w : World) :
  forallb (dict_has d) Github.required_fields = false ->
  use_mock cfg = false ->
  Github.analyze_github rt cfg d w
  = match json_dumps rt d with
    | Ok github_json =>
        answer_or_mock rt (Github.process_llm_response rt) MockData.get_mock_github_score
          (GithubPrompt github_json) (keyed cfg) w
    | Raise _ => MockData.get_mock_github_score w
    end.
Proof.
  intros Hm Hu. unfold Github.analyze_github. rewrite Hm, Hu.
  unfold try_catch at 1, bind at 1, pure.
  destruct (json_dumps rt d) as [github_json|e]; [|reflexivity].
  transitivity
    (match chain (List.map (block rt (Github.process_llm_response rt)
                                 (GithubPrompt github_json)) (blocks_of cfg))
                 MockData.get_mock_github_score w with
     | (Ok a, w') => (Ok a, w')
     | (Raise e, w') => MockData.get_mock_github_score w'
     end); [reflexivity|].
  rewrite keyed_blocks.
  rewrite chain_first_answer by apply github_process_returns.
  destruct (answer_or_mock_returns rt (Github.process_llm_response rt)
              MockData.get_mock_github_score (GithubPrompt github_json)
              (List.map fst (List.filter (fun pk => key_set (snd pk)) (blocks_of cfg))) w
              (github_process_returns rt) mock_github_returns) as (r & w' & E).
  now rewrite E.
Qed.

(** a runtime whose first provider fails, whose second one answers with
    an object and whose third one has no content *)
Definition relay : Provider -> Prompt -> Result (option str) :=
  fun p _ =>
    match p with
    | OpenRouter => Raise APIError
    | Deepseek => Ok (Some (of_string "  " ++ fraction_text ++ [10%N])%list)
    | OpenAI => Ok None
    end.

Definition all_keys : Config :=
  {| openai_api_key := Some (of_string "sk-1");
     deepseek_api_key := Some (of_string "sk-2");
     openrouter_api_key := Some (of_string "sk-3");
     use_mock := false |}.

(** X12: the resume task with mock mode off and a text that is not
    empty.  The providers whose key is set are asked in the order
    OpenRouter, Deepseek, OpenAI until one returns a text; that text,
    stripped, goes through the extractor and its result is the answer,
    also when the extractor itself fell back to the mock source: no later
    provider is asked.  Without an answer the result is the mock
    source's.  Every provider asked is recorded, in this order. *)
Theorem resume_first_answer_wins rt cfg (c : N) (text : str) (w : World) :
  use_mock cfg = false ->
  Resume.analyze_resume rt cfg (c :: text) w
  = answer_or_mock rt (Resume.process_llm_response rt) MockData.get_mock_resume_score
      (ResumePrompt (c :: text)) (keyed cfg) w.
Proof. apply analyze_resume_chain. Qed.

Lemma resume_first_answer_wins_witness :
  exists d',
    Resume.analyze_resume (python no_dumps relay) all_keys (99%N :: of_string "v") world0
    = (Ok (VDict d'), with_calls world0 [OpenRouter; Deepseek])
    /\ dict_get d' "Reputation" = Some (VInt 100)
    /\ dict_get d' "summary" = Some (VInt 7).
Proof.
  exists [(of_string "Technical_Skills", VFloat (float_of_decimal false 725 (-1)));
          (of_string "Reputation", VInt 100);
          (of_string "summary", VInt 7);
          (of_string "Activity", VInt 50);
          (of_string "keywords", VList [])].
  split; [|split; reflexivity].
  rewrite (resume_first_answer_wins (python no_dumps relay) all_keys 99%N
             (of_string "v") world0 eq_refl).
  vm_compute. reflexivity.
Defined.

(** X13: the GitHub task for data that lacks one of the three score
    fields, with mock mode off.  When the data cannot be serialized the
    result is the mock source's and no provider is asked; otherwise the
    keyed providers are asked in order until one returns a text, which
    goes through the extractor, and without an answer the result is the
    mock source's. *)
Theorem github_first_answer_wins rt cfg (d : dict) (w : World) :
  forallb (dict_has d) Github.required_fields = false ->
  use_mock cfg = false ->
  Github.analyze_github rt cfg d w
  = match json_dumps rt d with
    | Ok github_json =>
        answer_or_mock rt (Github.process_llm_response rt) MockData.get_mock_github_score
          (GithubPrompt github_json) (keyed cfg) w
    | Raise _ => MockData.get_mock_github_score w
    end.
Proof. apply analyze_github_chain. Qed.

Lemma github_first_answer_wins_witness :
  Github.analyze_github (python no_dumps relay) all_keys
    [(of_string "Technical_Skills", VInt 85)] world0
  = (Ok (VDict [(of_string "Technical_Skills", VInt 72);
                (of_string "Reputation", VInt 100);
                (of_string "summary", VInt 7);
                (of_string "Activity", VInt 50)]),
     with_calls world0 [OpenRouter; Deepseek]).
Proof.
  rewrite (github_first_answer_wins (python no_dumps relay) all_keys
             [(of_string "Technical_Skills", VInt 85)] world0 eq_refl eq_refl).
  vm_compute. reflexivity.
Defined.

Lemma analyze_resume_spec rt cfg (text : str) (w : World) :
  exists d w' tried rest,
    Resume.analyze_resume rt cfg text w = (Ok (VDict d), w')
    /\ (forall f, In f Resume.score_fields ->
                  exists v, dict_get d f = Some v /\ within_bounds v = true)
    /\ dict_has d "summary" = true
    /\ dict_has d "keywords" = true
    /\ calls w' = (calls w ++ tried)%list
    /\ keyed cfg = (tried ++ rest)%list
    /\ (use_mock cfg = true \/ text = [] -> tried = []).
Proof.
  destruct (use_mock cfg) eqn:Hu.
  - unfold Resume.analyze_resume. rewrite Hu.
    destruct (get_mock_resume_score_spec w)
      as (t & r & a & s & k & w' & Hm & Hc & Bt & Br & Ba & _).
    rewrite Hm. eexists. exists w', [], (keyed cfg).
    split; [reflexivity|]. split.
    { intros f [<-|[<-|[<-|[]]]]; eexists; (split; [reflexivity|]); simpl;
        apply andb_true_iff; split; apply Z.leb_le; lia. }
    rewrite app_nil_r. auto 8.
  - destruct text as [|c text].
    + unfold Resume.analyze_resume. rewrite Hu.
      eexists. exists w, [], (keyed cfg).
      split; [reflexivity|]. split.
      { intros f [<-|[<-|[<-|[]]]]; eexists; (split; reflexivity). }
      rewrite app_nil_r. auto 8.
    + rewrite analyze_resume_chain by exact Hu. unfold answer_or_mock.
      destruct (first_answer_prefix rt (ResumePrompt (c :: text)) (keyed cfg))
        as [rest Hrest].
      destruct (first_answer rt (ResumePrompt (c :: text)) (keyed cfg))
        as [tried [answer|]]; cbn [fst] in Hrest.
      * destruct (resume_process_spec rt answer (with_calls w tried))
          as (d & w' & E & Hc & B & S & K).
        exists d, w', tried, rest. rewrite E.
        repeat split; try assumption.
        intros [H|H]; discriminate.
      * destruct (get_mock_resume_score_spec (with_calls w tried))
          as (t & r & a & s & k & w' & Hm & Hc & Bt & Br & Ba & _).
        rewrite Hm. eexists. exists w', tried, rest.
        split; [reflexivity|]. split.
        { intros f [<-|[<-|[<-|[]]]]; eexists; (split; [reflexivity|]); simpl;
            apply andb_true_iff; split; apply Z.leb_le; lia. }
        repeat split; try assumption.
        intros [H|H]; discriminate.
Qed.

(** X14: the resume task answers every request, whatever the text, the
    configuration, the runtime and the providers do: it returns a map
    with its five fields, each score an int in [0,100], a float strictly
    between 0 and 100 or [True], and it never raises.  The providers it
    asked are an initial part of the keyed ones, in order, each asked
    once; in mock mode and for an empty text none is asked. *)
Theorem analyze_resume_always_answers rt cfg (text : str) (w : World) :
  exists d w' tried rest,
    Resume.analyze_resume rt cfg text w = (Ok (VDict d), w')
    /\ (forall f, In f Resume.score_fields ->
                  exists v, dict_get d f = Some v /\ within_bounds v = true)
    /\ dict_has d "summary" = true
    /\ dict_has d "keywords" = true
    /\ calls w' = (calls w ++ tried)%list
    /\ keyed cfg = (tried ++ rest)%list
    /\ (use_mock cfg = true \/ text = [] -> tried = []).
Proof. apply analyze_resume_spec. Qed.

(** X15: for data that lacks one of the three score fields the GitHub
    task answers whatever the configuration, the runtime and the
    providers do: it returns a map whose three scores are ints in
    [0,100] and never raises.  The providers it asked are an initial part
    of the keyed ones, in order; in mock mode none is asked. *)
Theorem analyze_github_always_scores rt cfg (d : dict) (w : World) :
  forallb (dict_has d) Github.required_fields = false ->
  exists d' w' tried rest,
    Github.analyze_github rt cfg d w = (Ok (VDict d'), w')
    /\ (forall f, In f Github.required_fields ->
                  exists n, dict_get d' f = Some (VInt n) /\ 0 <= n <= 100)
    /\ calls w' = (calls w ++ tried)%list
    /\ keyed cfg = (tried ++ rest)%list
    /\ (use_mock cfg = true -> tried = []).
Proof.
  intros Hm.
  assert (Mock : forall w0 tried rest,
             calls w0 = (calls w ++ tried)%list ->
             keyed cfg = (tried ++ rest)%list ->
             (use_mock cfg = true -> tried = []) ->
             exists d' w' tried rest,
               MockData.get_mock_github_score w0 = (Ok (VDict d'), w')
               /\ (forall f, In f Github.required_fields ->
                             exists n, dict_get d' f = Some (VInt n) /\ 0 <= n <= 100)
               /\ calls w' = (calls w ++ tried)%list
               /\ keyed cfg = (tried ++ rest)%list
               /\ (use_mock cfg = true -> tried = [])).
  { intros w0 tried rest Hc Hk Hu.
    destruct (get_mock_github_score_spec w0) as (t & r & a & w' & E & Hc' & Bt & Br & Ba).
    eexists. exists w', tried, rest. split; [exact E|]. split.
    { intros f [<-|[<-|[<-|[]]]]; eexists; (split; [reflexivity|lia]). }
    split; [congruence|]. auto. }
  destruct (use_mock cfg) eqn:Hu.
  - rewrite analyze_github_mock_mode by assumption.
    apply (Mock w [] (keyed cfg)); auto. now rewrite app_nil_r.
  - rewrite analyze_github_chain by assumption.
    destruct (json_dumps rt d) as [github_json|e].
    + unfold answer_or_mock.
      destruct (first_answer_prefix rt (GithubPrompt github_json) (keyed cfg))
        as [rest Hrest].
      destruct (first_answer rt (GithubPrompt github_json) (keyed cfg))
        as [tried [answer|]]; cbn [fst] in Hrest.
      * destruct (github_scores_in_range rt answer (with_calls w tried))
          as (d' & w' & E & Hc & B).
        exists d', w', tried, rest. rewrite E.
        repeat split; try assumption; try discriminate.
      * apply (Mock _ tried rest); auto. discriminate.
    + apply (Mock w [] (keyed cfg)); auto. now rewrite app_nil_r.
Qed.

Lemma analyze_github_always_scores_witness :
  exists d' w' tried rest,
    Github.analyze_github (python no_dumps relay) all_keys [] world0 = (Ok (VDict d'), w')
    /\ (forall f, In f Github.required_fields ->
                  exists n, dict_get d' f = Some (VInt n) /\ 0 <= n <= 100)
    /\ calls w' = (calls world0 ++ tried)%list
    /\ keyed all_keys = (tried ++ rest)%list
    /\ (use_mock all_keys = true -> tried = []).
Proof.
  exact (analyze_github_always_scores (python no_dumps relay) all_keys [] world0 eq_refl).
Defined.

(** *** The weights of the two sources *)

(** a source that gives one score to its three fields *)
Definition uniform (n : Z) : dict := triple (VInt n) (VInt n) (VInt n).

Definition percents : list Z := List.map Z.of_nat (seq 0 101).

Lemma in_percents (n : Z) : 0 <= n <= 100 -> In n percents.
Proof.
  intros H. unfold percents. rewrite <- (Z2Nat.id n) by lia.
  apply in_map, in_seq. lia.
Qed.

(** the result is strictly nearer to [0.6 g + 0.4 r] than one half *)
Definition nearest_to_weighted (g r : Z) : bool :=
  match Score.calculate_trust_score (uniform g) (uniform r) with
  | Ok z => Z.abs (100 * z - (60 * g + 40 * r)) <? 50
  | Raise _ => false
  end.

Lemma nearest_to_weighted_all :
  forallb (fun g => forallb (nearest_to_weighted g) percents) percents = true.
Proof. vm_compute. reflexivity. Qed.

(** X16: the weights of the two sources.  When the GitHub source gives
    the score [g] to its three fields and the resume source the score
    [r], both within [0,100], the trust score is the integer nearest to
    [0.6 g + 0.4 r], which is never a tie: the double arithmetic of the
    weighted sum does not show for such inputs.  So equal scores [n]
    everywhere give [n]. *)
Theorem trust_score_sixty_forty (g r : Z) :
  0 <= g <= 100 -> 0 <= r <= 100 ->
  (exists z, Score.calculate_trust_score (uniform g) (uniform r) = Ok z
             /\ Z.abs (100 * z - (60 * g + 40 * r)) < 50)
  /\ (g = r -> Score.calculate_trust_score (uniform g) (uniform r) = Ok g).
Proof.
  intros Hg Hr.
  pose proof nearest_to_weighted_all as A.
  rewrite forallb_forall in A. specialize (A g (in_percents g Hg)).
  rewrite forallb_forall in A. specialize (A r (in_percents r Hr)).
  unfold nearest_to_weighted in A.
  destruct (Score.calculate_trust_score (uniform g) (uniform r)) as [z|e];
    [|discriminate].
  apply Z.ltb_lt in A. split; [eauto|].
  intros ->. f_equal. lia.
Qed.

Lemma trust_score_sixty_forty_witness :
  (exists z, Score.calculate_trust_score (uniform 85) (uniform 70) = Ok z
             /\ Z.abs (100 * z - (60 * 85 + 40 * 70)) < 50)
  /\ (85 = 70 -> Score.calculate_trust_score (uniform 85) (uniform 70) = Ok 85).
Proof. apply (trust_score_sixty_forty 85 70); lia. Defined.

(** *** main.py: the endpoint *)

Module Main.
Section Endpoint.
Variable rt : Runtime.
Variable cfg : Config.

(** The response models of [models/schemas.py]: building one validates
    its fields and may raise. *)
Variable Analysis : Type.
Variable Response : Type.
Variable ResumeAnalysis : PyVal -> PyVal -> Result Analysis.
Variable AnalysisResponse : Z -> Analysis -> PyVal -> PyVal -> Result Response.

(** what the endpoint sends: the response, or the [HTTPException] it
    raises *)
Inductive Reply :=
| Sent (result : Response)
| HTTPException (status_code : Z).

(** [v.get(k, default)]; only a map has the method *)
Definition py_get (v : PyVal) (k : str) (default : PyVal) : Result PyVal :=
  match v with
  | VDict d => Ok (dict_get_default d k default)
  | _ => Raise AttributeError
  end.

(** [calculate_trust_score] on two values: [get] on one that is no map
    raises inside the function's own [try], which gives 50 *)
Definition trust_score_of (github_score resume_score : PyVal) : Result Z :=
  match github_score, resume_score with
  | VDict g, VDict r => Score.calculate_trust_score g r
  | _, _ => Ok 50
  end.

(** [analyze(request)] for [request.github.dict()] and [request.resume] *)
Definition analyze (github_data : dict) (resume_text : str) : World -> Reply * World :=
  fun w =>
    match (github_score <~ Github.analyze_github rt cfg github_data ;;
           resume_score <~ Resume.analyze_resume rt cfg resume_text ;;
           pure (summary <- py_get resume_score "summary" (VStr "No summary available") ;;
                 keywords <- py_get resume_score "keywords" (VList []) ;;
                 resume_analysis <- ResumeAnalysis summary keywords ;;
                 trust_score <- trust_score_of github_score resume_score ;;
                 AnalysisResponse trust_score resume_analysis github_score resume_score))
            w with
    | (Ok result, w') => (Sent result, w')
    | (Raise _, w') => (HTTPException 500, w')
    end.
End Endpoint.
End Main.

Arguments Main.Sent {Response} result.
Arguments Main.HTTPException {Response} status_code.

Lemma dict_has_get (d : dict) (k : str) :
  dict_has d k = true -> exists v, dict_get d k = Some v.
Proof. unfold dict_has. destruct (dict_get d k); [eauto|discriminate]. Qed.

Lemma analyze_validated rt cfg (Analysis Response : Type)
      (ResumeAnalysis : PyVal -> PyVal -> Result Analysis)
      (AnalysisResponse : Z -> Analysis -> PyVal -> PyVal -> Result Response)
      (t r a : Z) (resume : str) (w : World) :
  0 <= t <= 100 -> 0 <= r <= 100 -> 0 <= a <= 100 ->
  exists rs w' summary keywords trust,
    Resume.analyze_resume rt cfg resume w = (Ok (VDict rs), w')
    /\ dict_get rs "summary" = Some summary
    /\ dict_get rs "keywords" = Some keywords
    /\ Score.calculate_trust_score (triple (VInt t) (VInt r) (VInt a)) rs = Ok trust
    /\ 0 <= trust <= 100
    /\ Main.analyze rt cfg Analysis Response ResumeAnalysis AnalysisResponse
         (triple (VInt t) (VInt r) (VInt a)) resume w
       = (match (x <- ResumeAnalysis summary keywords ;;
                 AnalysisResponse trust x (VDict (triple (VInt t) (VInt r) (VInt a)))
                                  (VDict rs)) with
          | Ok result => Main.Sent result
          | Raise _ => Main.HTTPException 500
          end, w').
Proof.
  intros Ht Hr Ha.
  destruct (analyze_resume_spec rt cfg resume w)
    as (rs & w' & tried & rest & E & _ & S & K & _).
  apply dict_has_get in S as [summary S]. apply dict_has_get in K as [keywords K].
  destruct (calculate_trust_score_ok (triple (VInt t) (VInt r) (VInt a)) rs)
    as (trust & T & B).
  exists rs, w', summary, keywords, trust.
  repeat (split; [assumption|]).
  unfold Main.analyze, bind.
  rewrite (analyze_github_pass_through rt cfg (triple (VInt t) (VInt r) (VInt a))
             (VInt t) (VInt r) (VInt a) w eq_refl eq_refl eq_refl).
  rewrite !normalized_in_range
    by (simpl; apply andb_true_iff; split; apply Z.leb_le; lia).
  cbn [rbind int_value]. rewrite E. unfold pure.
  cbn [Main.py_get Main.trust_score_of]. unfold dict_get_default.
  rewrite S, K, !rbind_ret, T.
  destruct (ResumeAnalysis summary keywords) as [x|e]; [|reflexivity].
  rewrite !rbind_ret.
  destruct (AnalysisResponse trust x _ _); reflexivity.
Qed.

(** X17: the endpoint on a validated request, whose three GitHub scores
    are ints in [0,100].  The GitHub scores of the response are those of
    the request: the GitHub task only passes them through and asks no
    provider.  The resume task returns a map with summary and keywords,
    so the defaults of the two [get] are never used; the trust score is
    the aggregate of the request's scores and the resume scores, within
    [0,100].  The endpoint sends the response built from these, or
    raises [HTTPException] with status 500 when a response model refuses
    them, and nothing else. *)
Theorem endpoint_keeps_github_scores rt cfg (Analysis Response : Type)
      (ResumeAnalysis : PyVal -> PyVal -> Result Analysis)
      (AnalysisResponse : Z -> Analysis -> PyVal -> PyVal -> Result Response)
      (t r a : Z) (resume : str) (w : World) :
  0 <= t <= 100 -> 0 <= r <= 100 -> 0 <= a <= 100 ->
  exists rs w' summary keywords trust,
    Resume.analyze_resume rt cfg resume w = (Ok (VDict rs), w')
    /\ dict_get rs "summary" = Some summary
    /\ dict_get rs "keywords" = Some keywords
    /\ Score.calculate_trust_score (triple (VInt t) (VInt r) (VInt a)) rs = Ok trust
    /\ 0 <= trust <= 100
    /\ Main.analyze rt cfg Analysis Response ResumeAnalysis AnalysisResponse
         (triple (VInt t) (VInt r) (VInt a)) resume w
       = (match (x <- ResumeAnalysis summary keywords ;;
                 AnalysisResponse trust x (VDict (triple (VInt t) (VInt r) (VInt a)))
                                  (VDict rs)) with
          | Ok result => Main.Sent result
          | Raise _ => Main.HTTPException 500
          end, w').
Proof. apply analyze_validated. Qed.

(** response models for the example: the summary has to be a [str] *)
Definition checked_analysis (summary keywords : PyVal) : Result (PyVal * PyVal) :=
  match summary with
  | VStr _ => Ok (summary, keywords)
  | _ => Raise ValueError
  end.

Definition checked_response (trust_score : Z) (resume_analysis : PyVal * PyVal)
           (github_score resume_score : PyVal)
  : Result (Z * (PyVal * PyVal) * PyVal * PyVal) :=
  Ok (trust_score, resume_analysis, github_score, resume_score).

Lemma endpoint_keeps_github_scores_witness :
  exists rs w' summary keywords trust,
    Resume.analyze_resume (python no_dumps relay) all_keys (of_string "cv") world0
    = (Ok (VDict rs), w')
    /\ dict_get rs "summary" = Some summary
    /\ dict_get rs "keywords" = Some keywords
    /\ Score.calculate_trust_score (triple (VInt 85) (VInt 72) (VInt 90)) rs = Ok trust
    /\ 0 <= trust <= 100
    /\ Main.analyze (python no_dumps relay) all_keys _ _ checked_analysis checked_response
         (triple (VInt 85) (VInt 72) (VInt 90)) (of_string "cv") world0
       = (match (x <- checked_analysis summary keywords ;;
                 checked_response trust x
                   (VDict (triple (VInt 85) (VInt 72) (VInt 90))) (VDict rs)) with
          | Ok result => Main.Sent result
          | Raise _ => Main.HTTPException 500
          end, w').
Proof.
  apply (endpoint_keeps_github_scores (python no_dumps relay) all_keys _ _
           checked_analysis checked_response 85 72 90 (of_string "cv") world0); lia.
Defined.
